(** * Aurelian's Closet: the outfit generation pipeline, embedded and verified

    The development follows the TypeScript services of the repository:

    - [types.ts]                : OutfitParams, OutfitSpec and friends;
    - [serviceConstants.ts]     : model names, CHARS_PER_TOKEN, thresholds;
    - [geminiService.ts]        : generateOutfitSpecification, generateOutfitImage,
                                  analyzeCognitivePatterns;
    - [fiboService.ts]          : generateFIBOOutfit, generateFIBOBatch;
    - [elevenLabsService.ts]    : VoiceFashionAssistant and the assistants built on it;
    - [datadogService.ts], [confluentService.ts] : the telemetry and event sinks;
    - [unifiedPlatform.ts]      : UnifiedAIFashionPlatform;
    - [App.tsx]                 : the click handler of the component.

    Asynchronous functions are embedded in a state-and-rejection monad: every
    [await] is a sequencing point, a rejected promise is a [Rejected] outcome,
    and whatever the outside world decides (the remote model, the clock, the
    JSON built-ins, the Kafka broker) is read from an environment of oracles.
    Numbers that the source computes in binary64 are primitive floats, so the
    arithmetic below is the arithmetic the program performs.  Console output
    is not modelled. *)

From Stdlib Require Import ZArith Floats Ascii String List Lia.
From stdpp Require Import gmap strings list pretty.
From Equations Require Import Equations.

(* The decimal literals of the source (0.7, 0.1, 0.05) denote their nearest
   binary64 value, in JavaScript as here. *)
Set Warnings "-inexact-float".

Open Scope string_scope.

(** ** JavaScript strings and numbers *)

(** A JavaScript string is a sequence of UTF-16 code units.  The model keeps
    the code units below 256, one [ascii] each, so that [String.length] is
    the [.length] of the source. *)
Module JsString.

Definition toLowerCase_unit (c : ascii) : ascii :=
  let n := nat_of_ascii c in
  if ((65 <=? n) && (n <=? 90) || (192 <=? n) && (n <=? 222) && negb (n =? 215))%nat
  then ascii_of_nat (n + 32)
  else c.

Fixpoint toLowerCase (s : string) : string :=
  match s with
  | EmptyString => EmptyString
  | String c s' => String (toLowerCase_unit c) (toLowerCase s')
  end.

(** [includes s sub] is [s.includes(sub)]. *)
Fixpoint includes (s sub : string) : bool :=
  String.prefix sub s ||
  match s with
  | EmptyString => false
  | String _ s' => includes s' sub
  end.

(** [join sep l] is [l.join(sep)] on an array of strings. *)
Fixpoint join (sep : string) (l : list string) : string :=
  match l with
  | [] => ""
  | [x] => x
  | x :: l' => x +:+ sep +:+ join sep l'
  end.

(** A string is falsy exactly when it is empty. *)
Definition truthy (s : string) : bool := negb (String.eqb s "").

(** What a template literal prints for a possibly undefined string. *)
Definition interpolate (o : option string) : string := default "undefined" o.

(** The double quote, for the texts of the source that contain one. *)
Definition dq : string := String "034"%char EmptyString.

Definition quoted (s : string) : string := dq +:+ s +:+ dq.

End JsString.

Module JsNumber.

(** A number is falsy when it is 0, -0 or NaN. *)
Definition truthy (x : float) : bool := negb (PrimFloat.eqb x 0) && negb (PrimFloat.is_nan x).

(** [Math.min] of two numbers: NaN is contagious and -0 is below +0. *)
Definition Math_min (a b : float) : float :=
  if PrimFloat.is_nan a || PrimFloat.is_nan b then PrimFloat.nan
  else if PrimFloat.ltb a b then a
  else if PrimFloat.ltb b a then b
  else if PrimFloat.get_sign a then a else b.

(** [Math.ceil(n / d)] for a non-negative integer [n] and a positive integer
    [d], both far below 2^53, where the binary64 quotient rounds to the same
    integer as the exact one. *)
Definition Math_ceil_div (n d : Z) : Z := (- ((- n) / d))%Z.

(** [a || b] on numbers. *)
Definition or_else (a : option float) (b : float) : float :=
  match a with
  | Some x => if truthy x then x else b
  | None => b
  end.

End JsNumber.

(** ** serviceConstants.ts *)

Module AI_MODELS.
Definition GEMINI_FLASH : string := "gemini-2.5-flash".
Definition GEMINI_FLASH_IMAGE : string := "gemini-2.5-flash-image".
Definition GEMINI_PRO : string := "gemini-pro".
End AI_MODELS.

Definition CHARS_PER_TOKEN : Z := 4.

Module QUALITY_THRESHOLDS.
Definition EXCELLENT : float := 0.9.
Definition GOOD : float := 0.8.
Definition ACCEPTABLE : float := 0.7.
Definition POOR : float := 0.6.
End QUALITY_THRESHOLDS.

(** ** types.ts and the interfaces of fiboService.ts

    The specifications are values obtained from [JSON.parse(text) as T].  The
    response schema sent to the model fixes the type of every property and
    marks none as required, and the cast checks nothing.  The records below
    are the values in which each property has its declared type or is
    absent: every field is an [option], and [None] is JavaScript's
    [undefined].  A parsed number, string, boolean or array has none of the
    properties.  The value [null], of which no property can be read, is no
    record: the functions that read a property of a parsed value
    (generateOutfitSpecification, generateFIBOOutfit, processVoiceCommand)
    tell it from the text (see [JSON_null_literal]).  A property that holds
    a value of another type than the schema declares (a camera that is a
    string, a null among the texture layers) is not represented. *)

Module OutfitParams.
Record t := mk {
  occasion : string;
  weather : string;
  mood : string;
  style : string
}.
End OutfitParams.

Module Weather.
Record t := mk {
  temperature : option float;
  conditions : option string
}.
End Weather.

Module Color.
Record t := mk {
  hex : option string;
  role : option string
}.
End Color.

Module ColorScheme.
Record t := mk {
  primary : option Color.t;
  accent : option Color.t
}.
End ColorScheme.

Module TextureLayer.
Record t := mk {
  material : option string;
  weight : option string;
  sheen : option float
}.
End TextureLayer.

Module CameraConfig.
Record t := mk {
  angle : option string;
  lighting : option string
}.
End CameraConfig.

Module OutfitSpec.
Record t := mk {
  occasion : option string;
  weather : option Weather.t;
  color_scheme : option ColorScheme.t;
  texture_layers : option (list TextureLayer.t);
  camera : option CameraConfig.t;
  description : option string
}.
End OutfitSpec.

(** The [camera] property of a FIBOOutfitSpec. *)
Module FIBOCamera.
Record t := mk {
  angle : option string;
  lighting : option string;
  fov : option float;
  lighting_temperature : option float
}.
End FIBOCamera.

Module StyleParameters.
Record t := mk {
  realism : option float;
  aesthetic : option string
}.
End StyleParameters.

(** FIBOParameters is built by the service itself; the properties it copies
    from the parsed specification may be undefined. *)
Module FIBOParameters.
Record t := mk {
  prompt : string;
  camera_angle : option string;
  camera_fov : float;
  lighting_type : option string;
  lighting_temperature : float;
  style_realism : option float;
  style_aesthetic : option string;
  materials_primary : string;
  materials_secondary : string;
  colors_palette : list (option string);
  colors_harmony : string
}.
End FIBOParameters.

Module FIBOOutfitSpec.
Record t := mk {
  occasion : option string;
  weather : option Weather.t;
  color_scheme : option ColorScheme.t;
  texture_layers : option (list TextureLayer.t);
  camera : option FIBOCamera.t;
  style_parameters : option StyleParameters.t;
  description : option string;
  fibo_structured_params : option FIBOParameters.t
}.

(** [spec.fibo_structured_params = p]. *)
Definition set_fibo_structured_params (spec : t) (p : FIBOParameters.t) : t :=
  mk (occasion spec) (weather spec) (color_scheme spec) (texture_layers spec)
     (camera spec) (style_parameters spec) (description spec) (Some p).

(** A FIBOOutfitSpec used where an OutfitSpec is expected (structural
    subtyping): the same object, seen through the smaller interface. *)
Definition as_OutfitSpec (spec : t) : OutfitSpec.t :=
  OutfitSpec.mk (occasion spec) (weather spec) (color_scheme spec) (texture_layers spec)
    (fmap (fun c => CameraConfig.mk (FIBOCamera.angle c) (FIBOCamera.lighting c)) (camera spec))
    (description spec).
End FIBOOutfitSpec.

(** ** datadogService.ts: GenerationTelemetry *)

Module GenerationTelemetry.
Record t := mk {
  input_tokens : Z;
  output_tokens : Z;
  generation_ms : Z;
  model : string;
  camera_angle : option string;
  lighting : option string;
  success : bool;
  quality_score : option float;
  user_id : option string;
  endpoint : string
}.
End GenerationTelemetry.

(** ** Errors and settled promises *)

Module JsError.
Record t := mk {
  name : string;
  message : string
}.

(** [new Error(msg)]. *)
Definition Error (msg : string) : t := mk "Error" msg.

(** The TypeError raised by reading property [prop] of [undefined]. *)
Definition undefined_read (prop : string) : t :=
  mk "TypeError" ("Cannot read properties of undefined (reading '" +:+ prop +:+ "')").

(** The TypeError raised by reading property [prop] of [null]. *)
Definition null_read (prop : string) : t :=
  mk "TypeError" ("Cannot read properties of null (reading '" +:+ prop +:+ "')").

(** The TypeError raised by calling a method that the receiver lacks. *)
Definition not_a_function (callee : string) : t :=
  mk "TypeError" (callee +:+ " is not a function").
End JsError.

(** How an awaited promise settles. *)
Inductive Settled (A : Type) : Type :=
| Fulfilled (value : A)
| Rejected (reason : JsError.t).
Arguments Fulfilled {A} value.
Arguments Rejected {A} reason.

(** ** The @google/genai client, as far as the services use it *)

Module Schema.
#[warnings="-register-all"]
Inductive t : Type :=
| STRING
| NUMBER
| OBJECT (properties : list (string * t))
| ARRAY (items : t).
End Schema.

Module GenerationConfig.
Record t := mk {
  responseMimeType : string;
  responseSchema : option Schema.t
}.
End GenerationConfig.

Module Contents.
Inductive t : Type :=
| text (prompt : string)
| parts (texts : list string).
End Contents.

Module GenerateContentParameters.
Record t := mk {
  model : string;
  contents : Contents.t;
  config : option GenerationConfig.t
}.
End GenerateContentParameters.

Module Blob.
Record t := mk {
  data : option string;
  mimeType : option string
}.
End Blob.

Module Part.
Record t := mk {
  text : option string;
  inlineData : option Blob.t
}.
End Part.

Module Content.
Record t := mk {
  parts : option (list Part.t)
}.
End Content.

Module Candidate.
Record t := mk {
  content : option Content.t
}.
End Candidate.

Module GenerateContentResponse.
Record t := mk {
  text : option string;
  candidates : option (list Candidate.t)
}.
End GenerateContentResponse.

(** ** elevenLabsService.ts: the records of the voice assistant *)

Module Exchange.
Record t := mk {
  user : string;
  assistant : string;
  timestamp : string
}.
End Exchange.

Module VoiceSettings.
Record t := mk {
  stability : float;
  similarity_boost : float;
  style : float;
  use_speaker_boost : option bool
}.
End VoiceSettings.

Module TranscriptionResult.
Record t := mk {
  text : string;
  language : string;
  confidence : float;
  speaker_diarization : option bool
}.
End TranscriptionResult.

Module VoiceResponse.
Record t := mk {
  audio : string;
  text : string;
  voice_id : string
}.
End VoiceResponse.

(** ** kafkajs: what a send tells the broker *)

Module ProducerRecord.
Record t := mk {
  topic : string;
  key : string
}.
End ProducerRecord.

(** ** The outside world

    [Env] holds what the program cannot decide: how the n-th call of the
    remote model settles, what the clock and the random generator answer,
    what the JSON built-ins compute, how the n-th Kafka send settles, and the
    process environment read when the singletons are constructed. *)
Record Env := mkEnv {
  generateContent : nat -> GenerateContentParameters.t -> Settled GenerateContentResponse.t;
  (* JSON.parse(text) as OutfitSpec, for a text that does not parse to null:
     the parsed value, or a SyntaxError *)
  JSON_parse_OutfitSpec : string -> Settled OutfitSpec.t;
  (* JSON.parse(text) as FIBOOutfitSpec, likewise *)
  JSON_parse_FIBOOutfitSpec : string -> Settled FIBOOutfitSpec.t;
  (* JSON.stringify(outfitSpec) *)
  JSON_stringify : FIBOOutfitSpec.t -> string;
  (* Date.now(), by reading *)
  clock : nat -> Z;
  (* new Date(ms).toISOString() *)
  toISOString : Z -> string;
  (* Math.random().toString(36), by draw *)
  random_base36 : nat -> string;
  (* producer.send(...), by call *)
  producer_send : nat -> ProducerRecord.t -> Settled unit;
  ELEVENLABS_API_KEY : string;
  DATADOG_API_KEY : string;
  DATADOG_APP_KEY : string;
  KAFKA_BROKERS : string
}.

(** [State] is what the process remembers between two steps. *)
Record State := mkState {
  (* calls of ai.models.generateContent issued so far *)
  ai_calls : nat;
  clock_reads : nat;
  random_draws : nat;
  kafka_sends : nat;
  (* ConfluentStreamingPipeline.producer is not null *)
  kafka_producer : bool;
  (* the records handed to datadogMonitor.streamLLMTelemetry, oldest first *)
  telemetry : list GenerationTelemetry.t;
  (* VoiceFashionAssistant.conversationHistory *)
  conversationHistory : gmap string (list Exchange.t)
}.

(** ** The monad of asynchronous code *)

Definition M (A : Type) : Type := Env -> State -> Settled A * State.

Definition ret {A} (a : A) : M A := fun _ st => (Fulfilled a, st).

Definition throw {A} (e : JsError.t) : M A := fun _ st => (Rejected e, st).

Definition bind {A B} (m : M A) (k : A -> M B) : M B :=
  fun env st =>
    match m env st with
    | (Fulfilled a, st') => k a env st'
    | (Rejected e, st') => (Rejected e, st')
    end.

(** [try { body } catch (error) { handler }]. *)
Definition try_catch {A} (body : M A) (handler : JsError.t -> M A) : M A :=
  fun env st =>
    match body env st with
    | (Fulfilled a, st') => (Fulfilled a, st')
    | (Rejected e, st') => handler e env st'
    end.

Definition ask : M Env := fun env st => (Fulfilled env, st).
Definition get : M State := fun _ st => (Fulfilled st, st).
Definition put (st : State) : M unit := fun _ _ => (Fulfilled tt, st).

(** A value that is already settled, awaited. *)
Definition settle {A} (r : Settled A) : M A :=
  match r with
  | Fulfilled a => ret a
  | Rejected e => throw e
  end.

Declare Scope js_scope.
Delimit Scope js_scope with js.
Notation "'let*' x := m 'in' k" := (bind m (fun x => k))
  (at level 10, x name, m at level 100, k at level 200) : js_scope.
Notation "m ;; k" := (bind m (fun _ => k))
  (at level 100, k at level 200, right associativity) : js_scope.
Open Scope js_scope.

(** [o.prop] where [o] may be undefined: reading a property of undefined
    raises a TypeError. *)
Definition read {A} (o : option A) (prop : string) : M A :=
  match o with
  | Some a => ret a
  | None => throw (JsError.undefined_read prop)
  end.

(** [Date.now()]. *)
Definition Date_now : M Z :=
  fun env st =>
    (Fulfilled (clock env (clock_reads st)),
     mkState (ai_calls st) (S (clock_reads st)) (random_draws st) (kafka_sends st)
             (kafka_producer st) (telemetry st) (conversationHistory st)).

(** [Math.random().toString(36)]. *)
Definition Math_random_base36 : M string :=
  fun env st =>
    (Fulfilled (random_base36 env (random_draws st)),
     mkState (ai_calls st) (clock_reads st) (S (random_draws st)) (kafka_sends st)
             (kafka_producer st) (telemetry st) (conversationHistory st)).

(** [await ai.models.generateContent(request)]. *)
Definition ai_generateContent (request : GenerateContentParameters.t) : M GenerateContentResponse.t :=
  fun env st =>
    (generateContent env (ai_calls st) request,
     mkState (S (ai_calls st)) (clock_reads st) (random_draws st) (kafka_sends st)
             (kafka_producer st) (telemetry st) (conversationHistory st)).

(** ** datadogService.ts: the telemetry sink *)

Definition add_telemetry (data : GenerationTelemetry.t) (st : State) : State :=
  mkState (ai_calls st) (clock_reads st) (random_draws st) (kafka_sends st)
          (kafka_producer st) (telemetry st ++ [data]) (conversationHistory st).

(** [this.enabled = !!this.apiKey && !!this.appKey]. *)
Definition datadog_enabled (env : Env) : bool :=
  JsString.truthy (DATADOG_API_KEY env) && JsString.truthy (DATADOG_APP_KEY env).

(** [datadogMonitor.streamLLMTelemetry(data)].  The sink is a simulation: it
    turns the record into metric points stamped with the current time and
    keeps them in a buffer that nothing reads.  The model keeps the record
    itself and the reading of the clock. *)
Definition streamLLMTelemetry (data : GenerationTelemetry.t) : M unit :=
  let* env := ask in
  let* st := get in
  put (add_telemetry data st) ;;
  if datadog_enabled env then (let* timestamp := Date_now in ret tt) else ret tt.

(** ** JSON.parse and the value null

    [JSON.parse] reads a text as [null] exactly when the text is the literal
    [null] between JSON white space (space, tab, line feed, carriage
    return).  Reading a property of [null] raises a TypeError. *)

Definition JSON_whitespace (c : ascii) : bool :=
  let n := nat_of_ascii c in
  ((n =? 32) || (n =? 9) || (n =? 10) || (n =? 13))%nat.

Fixpoint skip_whitespace (s : string) : string :=
  match s with
  | EmptyString => EmptyString
  | String c s' => if JSON_whitespace c then skip_whitespace s' else s
  end.

Fixpoint all_whitespace (s : string) : bool :=
  match s with
  | EmptyString => true
  | String c s' => JSON_whitespace c && all_whitespace s'
  end.

Definition JSON_null_literal (text : string) : bool :=
  match skip_whitespace text with
  | String "n" (String "u" (String "l" (String "l" rest))) => all_whitespace rest
  | _ => false
  end.

(** [o.prop] where [o] is a parsed value that may be null. *)
Definition read_parsed {A} (o : option A) (prop : string) : M A :=
  match o with
  | Some a => ret a
  | None => throw (JsError.null_read prop)
  end.

(** ** geminiService.ts *)

Definition modelFlash : string := AI_MODELS.GEMINI_FLASH.
Definition modelImage : string := AI_MODELS.GEMINI_FLASH_IMAGE.

(** [if (response.text)]: the text is there and not empty. *)
Definition has_text (o : option string) : bool :=
  match o with
  | Some s => JsString.truthy s
  | None => false
  end.

Definition color_schema : Schema.t :=
  Schema.OBJECT [("hex", Schema.STRING); ("role", Schema.STRING)].

Definition outfit_responseSchema : Schema.t :=
  Schema.OBJECT
    [("occasion", Schema.STRING);
     ("weather", Schema.OBJECT [("temperature", Schema.NUMBER); ("conditions", Schema.STRING)]);
     ("color_scheme", Schema.OBJECT [("primary", color_schema); ("accent", color_schema)]);
     ("texture_layers",
       Schema.ARRAY (Schema.OBJECT
         [("material", Schema.STRING); ("weight", Schema.STRING); ("sheen", Schema.NUMBER)]));
     ("camera", Schema.OBJECT [("angle", Schema.STRING); ("lighting", Schema.STRING)]);
     ("description", Schema.STRING)].

Definition outfit_prompt (params : OutfitParams.t) : string :=
  "
    You are the " +:+ JsString.quoted "Aurelian Engine" +:+ ", a high-precision fashion generation system.
    Create a detailed structured JSON specification for an outfit based on these parameters:
    Occasion: " +:+ OutfitParams.occasion params +:+ "
    Weather: " +:+ OutfitParams.weather params +:+ "
    Mood: " +:+ OutfitParams.mood params +:+ "
    Style: " +:+ OutfitParams.style params +:+ "

    Return ONLY the JSON. The JSON must adhere to this structure:
    {
      " +:+ JsString.quoted "occasion" +:+ ": string,
      " +:+ JsString.quoted "weather" +:+ ": { " +:+ JsString.quoted "temperature" +:+ ": number, " +:+ JsString.quoted "conditions" +:+ ": string },
      " +:+ JsString.quoted "color_scheme" +:+ ": { " +:+ JsString.quoted "primary" +:+ ": { " +:+ JsString.quoted "hex" +:+ ": string, " +:+ JsString.quoted "role" +:+ ": string }, " +:+ JsString.quoted "accent" +:+ ": { " +:+ JsString.quoted "hex" +:+ ": string, " +:+ JsString.quoted "role" +:+ ": string } },
      " +:+ JsString.quoted "texture_layers" +:+ ": [ { " +:+ JsString.quoted "material" +:+ ": string, " +:+ JsString.quoted "weight" +:+ ": string, " +:+ JsString.quoted "sheen" +:+ ": number (0-1) } ],
      " +:+ JsString.quoted "camera" +:+ ": { " +:+ JsString.quoted "angle" +:+ ": string, " +:+ JsString.quoted "lighting" +:+ ": string },
      " +:+ JsString.quoted "description" +:+ ": string (A highly detailed visual description for an image generator)
    }
  ".

(** [Math.ceil(text.length / CHARS_PER_TOKEN)]. *)
Definition token_estimate (text : string) : Z :=
  JsNumber.Math_ceil_div (Z.of_nat (String.length text)) CHARS_PER_TOKEN.

(** [JSON.parse(text) as OutfitSpec]: the parsed value, [None] when it is
    null, or the SyntaxError. *)
Definition JSON_parse_as_OutfitSpec (text : string) : M (option OutfitSpec.t) :=
  if JSON_null_literal text then ret None
  else
    let* env := ask in
    let* spec := settle (JSON_parse_OutfitSpec env text) in
    ret (Some spec).

(** Step 1: generate the structured specification from the user parameters.
    The record of a success reads [spec.camera?.angle]: the optional chain
    guards the camera, not the specification, so that a parsed null raises
    inside the [try] block, after the clock has been read. *)
Definition generateOutfitSpecification (params : OutfitParams.t) : M OutfitSpec.t :=
  let* startTime := Date_now in
  let prompt := outfit_prompt params in
  try_catch
    (let* response :=
       ai_generateContent
         (GenerateContentParameters.mk modelFlash (Contents.text prompt)
            (Some (GenerationConfig.mk "application/json" (Some outfit_responseSchema)))) in
     if has_text (GenerateContentResponse.text response) then
       let text := default "" (GenerateContentResponse.text response) in
       let* parsed := JSON_parse_as_OutfitSpec text in
       let* now := Date_now in
       let generationTime := (now - startTime)%Z in
       let* spec := read_parsed parsed "camera" in
       streamLLMTelemetry
         (GenerationTelemetry.mk
            (token_estimate prompt)
            (token_estimate text)
            generationTime
            modelFlash
            (OutfitSpec.camera spec ≫= CameraConfig.angle)
            (OutfitSpec.camera spec ≫= CameraConfig.lighting)
            true
            None
            None
            "outfit_specification") ;;
       ret spec
     else throw (JsError.Error "No JSON returned"))
    (fun error =>
       let* now := Date_now in
       let generationTime := (now - startTime)%Z in
       streamLLMTelemetry
         (GenerationTelemetry.mk
            (token_estimate prompt)
            0
            generationTime
            modelFlash
            None
            None
            false
            None
            None
            "outfit_specification") ;;
       throw error).

(** The callback of [texture_layers.map]: material and weight of one layer. *)
Definition render_layer (t : TextureLayer.t) : string :=
  JsString.interpolate (TextureLayer.material t) +:+ " (" +:+
  JsString.interpolate (TextureLayer.weight t) +:+ ")".

(** The prompt of the image request.  Its interpolations are evaluated from
    left to right, and it is built before the [try] block: a TypeError
    raised while reading the specification is not caught. *)
Definition image_prompt (spec : OutfitSpec.t) : M string :=
  let* camera_l := read (OutfitSpec.camera spec) "lighting" in
  let* camera_a := read (OutfitSpec.camera spec) "angle" in
  let* layers := read (OutfitSpec.texture_layers spec) "map" in
  let* scheme_p := read (OutfitSpec.color_scheme spec) "primary" in
  let* primary := read (ColorScheme.primary scheme_p) "hex" in
  let* scheme_a := read (OutfitSpec.color_scheme spec) "accent" in
  let* accent := read (ColorScheme.accent scheme_a) "hex" in
  ret ("
    Professional high-fashion photography.
    " +:+ JsString.interpolate (OutfitSpec.description spec) +:+ ".
    Lighting: " +:+ JsString.interpolate (CameraConfig.lighting camera_l) +:+ ".
    Camera Angle: " +:+ JsString.interpolate (CameraConfig.angle camera_a) +:+ ".
    Materials: " +:+ JsString.join ", " (map render_layer layers) +:+ ".
    Colors: Primary " +:+ JsString.interpolate (Color.hex primary) +:+ ", Accent " +:+ JsString.interpolate (Color.hex accent) +:+ ".
    Photorealistic, 8k, highly detailed texture.
  ").

(** [response.candidates?.[0]?.content?.parts || []]. *)
Definition response_parts (response : GenerateContentResponse.t) : list Part.t :=
  match GenerateContentResponse.candidates response with
  | Some (candidate :: _) => default [] (Candidate.content candidate ≫= Content.parts)
  | _ => []
  end.

(** The loop over the parts: the first part that carries inline data. *)
Fixpoint first_inlineData (parts : list Part.t) : option Blob.t :=
  match parts with
  | [] => None
  | part :: rest =>
      match Part.inlineData part with
      | Some blob => Some blob
      | None => first_inlineData rest
      end
  end.

Definition placeholder_image : string := "https://picsum.photos/800/1000?grayscale".

(** Step 2: generate the image from the specification. *)
Definition generateOutfitImage (spec : OutfitSpec.t) : M string :=
  let* imagePrompt := image_prompt spec in
  try_catch
    (let* response :=
       ai_generateContent
         (GenerateContentParameters.mk modelImage (Contents.parts [imagePrompt]) None) in
     match first_inlineData (response_parts response) with
     | Some inlineData => ret ("data:image/png;base64," +:+ JsString.interpolate (Blob.data inlineData))
     | None => throw (JsError.Error "No image data returned")
     end)
    (fun error => ret placeholder_image).

(** ** fiboService.ts *)

Definition fibo_responseSchema : Schema.t :=
  Schema.OBJECT
    [("occasion", Schema.STRING);
     ("weather", Schema.OBJECT [("temperature", Schema.NUMBER); ("conditions", Schema.STRING)]);
     ("color_scheme", Schema.OBJECT [("primary", color_schema); ("accent", color_schema)]);
     ("texture_layers",
       Schema.ARRAY (Schema.OBJECT
         [("material", Schema.STRING); ("weight", Schema.STRING); ("sheen", Schema.NUMBER)]));
     ("camera",
       Schema.OBJECT
         [("angle", Schema.STRING); ("lighting", Schema.STRING);
          ("fov", Schema.NUMBER); ("lighting_temperature", Schema.NUMBER)]);
     ("style_parameters", Schema.OBJECT [("realism", Schema.NUMBER); ("aesthetic", Schema.STRING)]);
     ("description", Schema.STRING)].

Definition fibo_prompt (params : OutfitParams.t) : string :=
  "
    You are the " +:+ JsString.quoted "FIBO Engine" +:+ " (Fashion Intelligence with Balanced Optimization).
    Generate a highly structured outfit specification with professional-grade visual control.
    
    User Parameters:
    - Occasion: " +:+ OutfitParams.occasion params +:+ "
    - Weather: " +:+ OutfitParams.weather params +:+ "
    - Mood: " +:+ OutfitParams.mood params +:+ "
    - Style: " +:+ OutfitParams.style params +:+ "
    
    Create a comprehensive JSON specification with:
    1. Precise camera parameters (angle: three_quarter/front/low_angle_hero, FOV: 50-90)
    2. Professional lighting (type: studio/natural/rembrandt_contrast, temperature: 3000-6500K)
    3. Style control (realism: 0.0-1.0, aesthetic descriptor)
    4. Material specifications (primary and secondary fabrics)
    5. Color harmony (palette with hex codes, harmony type: analogous/complementary/triadic)
    6. Detailed texture layers with physical properties
    
    Return ONLY valid JSON matching the specified structure.
  ".

(** [a || b] on strings. *)
Definition string_or_else (a : option string) (b : string) : string :=
  match a with
  | Some s => if JsString.truthy s then s else b
  | None => b
  end.

(** The object assigned to [spec.fibo_structured_params].  Its properties
    are evaluated in the order of the source; the first read of a missing
    object raises the TypeError. *)
Definition fibo_structured_params_of (spec : FIBOOutfitSpec.t) : M FIBOParameters.t :=
  let* camera := read (FIBOOutfitSpec.camera spec) "angle" in
  let* style_parameters := read (FIBOOutfitSpec.style_parameters spec) "realism" in
  let* texture_layers := read (FIBOOutfitSpec.texture_layers spec) "0" in
  let* color_scheme := read (FIBOOutfitSpec.color_scheme spec) "primary" in
  let* primary := read (ColorScheme.primary color_scheme) "hex" in
  let* accent := read (ColorScheme.accent color_scheme) "hex" in
  ret (FIBOParameters.mk
         "professional outfit generation"
         (FIBOCamera.angle camera)
         (JsNumber.or_else (FIBOCamera.fov camera) 75)
         (FIBOCamera.lighting camera)
         (JsNumber.or_else (FIBOCamera.lighting_temperature camera) 5500)
         (StyleParameters.realism style_parameters)
         (StyleParameters.aesthetic style_parameters)
         (string_or_else (texture_layers !! 0%nat ≫= TextureLayer.material) "cotton")
         (string_or_else (texture_layers !! 1%nat ≫= TextureLayer.material) "silk")
         [Color.hex primary; Color.hex accent]
         "analogous").

(** [JSON.parse(text) as FIBOOutfitSpec]: the parsed value, [None] when it
    is null, or the SyntaxError. *)
Definition JSON_parse_as_FIBOOutfitSpec (text : string) : M (option FIBOOutfitSpec.t) :=
  if JSON_null_literal text then ret None
  else
    let* env := ask in
    let* spec := settle (JSON_parse_FIBOOutfitSpec env text) in
    ret (Some spec).

(** Generate an outfit with FIBO structured control.  The first read of the
    structured parameters is [spec.camera], which raises on a parsed null. *)
Definition generateFIBOOutfit (params : OutfitParams.t) : M FIBOOutfitSpec.t :=
  let prompt := fibo_prompt params in
  try_catch
    (let* response :=
       ai_generateContent
         (GenerateContentParameters.mk modelFlash (Contents.text prompt)
            (Some (GenerationConfig.mk "application/json" (Some fibo_responseSchema)))) in
     if has_text (GenerateContentResponse.text response) then
       let text := default "" (GenerateContentResponse.text response) in
       let* parsed := JSON_parse_as_FIBOOutfitSpec text in
       let* spec := read_parsed parsed "camera" in
       let* fibo_structured_params := fibo_structured_params_of spec in
       ret (FIBOOutfitSpec.set_fibo_structured_params spec fibo_structured_params)
     else throw (JsError.Error "No JSON returned from FIBO engine"))
    (fun error => throw error).

(** [array.slice(i, j)] for [i <= j]. *)
Definition slice {A} (l : list A) (i j : nat) : list A := take (j - i) (drop i l).

(** [await Promise.all(promises)].  Every promise of the array has been
    started, so every one of them runs; the result is the array of their
    values when all are fulfilled and a rejection otherwise.  When several
    reject, JavaScript reports the one that settles first; the model, which
    has no notion of time inside a chunk, reports the first in the array. *)
Fixpoint Promise_all {A} (promises : list (M A)) : M (list A) :=
  match promises with
  | [] => ret []
  | promise :: rest =>
      fun env st =>
        let '(r, st1) := promise env st in
        let '(rs, st2) := Promise_all rest env st1 in
        (match r, rs with
         | Fulfilled a, Fulfilled l => Fulfilled (a :: l)
         | Rejected e, _ => Rejected e
         | Fulfilled _, Rejected e => Rejected e
         end, st2)
  end.

Definition batchSize : nat := 3.

(** The loop of generateFIBOBatch: [i] is the loop index and [results] the
    array filled so far. *)
Equations? generateFIBOBatch_loop (paramsArray : list OutfitParams.t) (i : nat)
    (results : list FIBOOutfitSpec.t) : M (list FIBOOutfitSpec.t)
    by wf (length paramsArray - i) lt :=
  generateFIBOBatch_loop paramsArray i results with lt_dec i (length paramsArray) => {
    | left _ =>
        let batch := slice paramsArray i (i + batchSize) in
        let* batchResults := Promise_all (map generateFIBOOutfit batch) in
        generateFIBOBatch_loop paramsArray (i + batchSize) (results ++ batchResults);
    | right _ => ret results }.
Proof. unfold batchSize. lia. Qed.

(** Batch generation: chunks of three, one chunk after the other. *)
Definition generateFIBOBatch (paramsArray : list OutfitParams.t) : M (list FIBOOutfitSpec.t) :=
  generateFIBOBatch_loop paramsArray 0 [].

(** ** elevenLabsService.ts: VoiceFashionAssistant *)

Definition Buffer : Type := list Byte.byte.

Definition nl : string := String "010"%char EmptyString.

(** [this.enabled = !!this.apiKey] for the singleton, which is constructed
    without an argument. *)
Definition voice_enabled (env : Env) : bool := JsString.truthy (ELEVENLABS_API_KEY env).

Definition speechToText (audio : Buffer) : M TranscriptionResult.t :=
  let* env := ask in
  if negb (voice_enabled env) then
    ret (TranscriptionResult.mk "Mock transcription" "en" 0.95 (Some true))
  else
    ret (TranscriptionResult.mk "I need a professional outfit for a business meeting"
           "en" 0.95 (Some true)).

Definition textToSpeech (text voice_id : string) (voice_settings : VoiceSettings.t)
    : M VoiceResponse.t :=
  let* env := ask in
  if negb (voice_enabled env) then ret (VoiceResponse.mk "" text voice_id)
  else ret (VoiceResponse.mk "base64_encoded_audio_data" text voice_id).

Definition render_exchange (c : Exchange.t) : string :=
  "User: " +:+ Exchange.user c +:+ nl +:+ "Assistant: " +:+ Exchange.assistant c.

Definition aria_prompt (conversationContext userMessage : string) : string :=
  "
You are Aria, a professional fashion stylist with 10 years of experience.
You are warm, knowledgeable, and encouraging. Your style is classic with modern twists.

Previous conversation:
" +:+ conversationContext +:+ "

User's latest message: " +:+ userMessage +:+ "

Provide specific, actionable fashion advice. Ask clarifying questions about occasion, weather, and personal style when needed.
Suggest complete outfits, not just individual pieces. Always mention why each suggestion works.

Keep your response conversational and natural, as it will be spoken aloud.
    ".

Definition generateResponse (userMessage : string) (context : list Exchange.t) : M string :=
  let conversationContext := JsString.join (nl +:+ nl) (map render_exchange context) in
  let prompt := aria_prompt conversationContext userMessage in
  try_catch
    (let* response :=
       ai_generateContent (GenerateContentParameters.mk modelFlash (Contents.text prompt) None) in
     ret (string_or_else (GenerateContentResponse.text response)
            "I'm here to help you find the perfect outfit. What occasion are you dressing for?"))
    (fun error =>
       ret "I'd be happy to help you with your outfit selection. Could you tell me more about the occasion?").

Definition getConversationContext (userId : string) : M (list Exchange.t) :=
  let* st := get in
  ret (default [] (conversationHistory st !! userId)).

(** The array operations of updateConversationHistory on the history of one
    user: push the exchange, then shift when more than ten are kept. *)
Definition push_exchange (history : list Exchange.t) (exchange : Exchange.t) : list Exchange.t :=
  let history := (history ++ [exchange])%list in
  if (10 <? length history)%nat then tail history else history.

(** The same on the map: [get(userId) || []], the push, [set(userId, history)]. *)
Definition record_exchange (userId : string) (exchange : Exchange.t)
    (m : gmap string (list Exchange.t)) : gmap string (list Exchange.t) :=
  <[userId := push_exchange (default [] (m !! userId)) exchange]> m.

Definition updateConversationHistory (userId userMessage assistantMessage : string) : M unit :=
  let* now := Date_now in
  let* env := ask in
  let exchange := Exchange.mk userMessage assistantMessage (toISOString env now) in
  let* st := get in
  put (mkState (ai_calls st) (clock_reads st) (random_draws st) (kafka_sends st)
         (kafka_producer st) (telemetry st)
         (record_exchange userId exchange (conversationHistory st))).

(** The full voice pipeline: transcribe, answer, speak, remember. *)
Definition voiceConversation (userAudio : Buffer) (userId : string) : M VoiceResponse.t :=
  let* env := ask in
  if negb (voice_enabled env) then
    ret (VoiceResponse.mk ""
           "Voice assistant is not configured. Please provide an ElevenLabs API key."
           "rachel")
  else
    let* transcription := speechToText userAudio in
    let* context := getConversationContext userId in
    let* responseText := generateResponse (TranscriptionResult.text transcription) context in
    let* voiceResponse :=
      textToSpeech responseText "rachel" (VoiceSettings.mk 0.75 0.85 0.6 (Some true)) in
    updateConversationHistory userId (TranscriptionResult.text transcription) responseText ;;
    ret voiceResponse.

(** ** confluentService.ts: the event sink *)

Module KAFKA_TOPICS.
Definition USER_CLICKS : string := "user.clicks".
Definition USER_INTERACTIONS : string := "user.interactions".
Definition OUTFIT_GENERATIONS : string := "outfit.generations".
Definition STYLE_PREFERENCES : string := "style.preferences".
Definition FEEDBACK_EVENTS : string := "feedback.events".
End KAFKA_TOPICS.

Inductive EventType : Type := click | generation | preference | feedback.

Module UserInteractionEvent.
Record t := mk {
  type : EventType;
  user_id : string;
  timestamp : string;
  (* data: any; the platform sends a flat object of strings *)
  data : list (string * string)
}.
End UserInteractionEvent.

Module OutfitGenerationEvent.
Record t := mk {
  user_id : string;
  outfit_id : string;
  timestamp : string;
  params : option OutfitParams.t;
  spec : FIBOOutfitSpec.t;
  quality_score : option float
}.
End OutfitGenerationEvent.

Definition kafka_enabled (env : Env) : bool := JsString.truthy (KAFKA_BROKERS env).

(** [await this.producer.send({ topic, messages: [{ key, ... }] })]: the
    broker sees the topic and the key; the serialised event is left out. *)
Definition producer_send_message (message : ProducerRecord.t) : M unit :=
  fun env st =>
    (producer_send env (kafka_sends st) message,
     mkState (ai_calls st) (clock_reads st) (random_draws st) (S (kafka_sends st))
             (kafka_producer st) (telemetry st) (conversationHistory st)).

Definition getTopicForEventType (type : EventType) : string :=
  match type with
  | click => KAFKA_TOPICS.USER_CLICKS
  | generation => KAFKA_TOPICS.OUTFIT_GENERATIONS
  | preference => KAFKA_TOPICS.STYLE_PREFERENCES
  | feedback => KAFKA_TOPICS.FEEDBACK_EVENTS
  end.

Definition produceUserInteraction (event : UserInteractionEvent.t) : M unit :=
  let* env := ask in
  let* st := get in
  if negb (kafka_enabled env) || negb (kafka_producer st) then ret tt
  else
    let topic := getTopicForEventType (UserInteractionEvent.type event) in
    producer_send_message (ProducerRecord.mk topic (UserInteractionEvent.user_id event)).

Definition produceOutfitGeneration (event : OutfitGenerationEvent.t) : M unit :=
  let* env := ask in
  let* st := get in
  if negb (kafka_enabled env) || negb (kafka_producer st) then ret tt
  else
    producer_send_message
      (ProducerRecord.mk KAFKA_TOPICS.OUTFIT_GENERATIONS (OutfitGenerationEvent.user_id event)).

(** ** unifiedPlatform.ts: UnifiedAIFashionPlatform *)

Inductive InputType : Type := input_text | input_voice.

Definition input_type_name (t : InputType) : string :=
  match t with
  | input_text => "text"
  | input_voice => "voice"
  end.

Module UnifiedRequest.
Record t := mk {
  user_id : string;
  (* string | Buffer *)
  input : string + Buffer;
  input_type : InputType;
  params : option OutfitParams.t
}.
End UnifiedRequest.

Module UnifiedResponse.
Record t := mk {
  outfit_spec : option FIBOOutfitSpec.t;
  image_url : option string;
  voice_response : option VoiceResponse.t;
  text_response : option string;
  request_id : string;
  processing_time_ms : Z;
  telemetry : GenerationTelemetry.t
}.
End UnifiedResponse.

(** The keywords of isOutfitGenerationRequest. *)
Definition generation_keywords : list string :=
  ["outfit"; "clothes"; "wear"; "dress"; "generate"; "create"; "style"].

Definition isOutfitGenerationRequest (text : string) : bool :=
  existsb (fun keyword => JsString.includes (JsString.toLowerCase text) keyword)
          generation_keywords.

(** The entries of [occasionMap], in the order [Object.entries] yields them:
    insertion order, no key being an array index. *)
Definition occasionMap : list (string * string) :=
  [("work", "work");
   ("business", "business meeting");
   ("meeting", "business meeting");
   ("casual", "casual");
   ("dinner", "dinner");
   ("date", "date night");
   ("party", "party");
   ("formal", "formal event");
   ("gala", "evening gala")].

(** The [for ... of] loop of extractOccasion over the remaining entries. *)
Fixpoint extractOccasion_loop (entries : list (string * string)) (text : string) : string :=
  match entries with
  | [] => "casual"
  | (keyword, occasion) :: rest =>
      if JsString.includes (JsString.toLowerCase text) keyword then occasion
      else extractOccasion_loop rest text
  end.

Definition extractOccasion (text : string) : string :=
  extractOccasion_loop occasionMap text.

Definition extractParamsFromText (text : string) : OutfitParams.t :=
  OutfitParams.mk (extractOccasion text) "moderate" "confident" "modern professional".

Definition estimateTokens (text : string) : Z :=
  JsNumber.Math_ceil_div (Z.of_nat (String.length text)) CHARS_PER_TOKEN.

(** The four completeness checks of calculateQualityScore. *)
Definition has_color_scheme (outfitSpec : FIBOOutfitSpec.t) : bool :=
  bool_decide (is_Some (FIBOOutfitSpec.color_scheme outfitSpec)).

Definition has_texture_layers (outfitSpec : FIBOOutfitSpec.t) : bool :=
  match FIBOOutfitSpec.texture_layers outfitSpec with
  | Some texture_layers => (0 <? length texture_layers)%nat
  | None => false
  end.

Definition has_camera (outfitSpec : FIBOOutfitSpec.t) : bool :=
  bool_decide (is_Some (FIBOOutfitSpec.camera outfitSpec)).

Definition has_long_description (outfitSpec : FIBOOutfitSpec.t) : bool :=
  match FIBOOutfitSpec.description outfitSpec with
  | Some description => JsString.truthy description && (50 <? String.length description)%nat
  | None => false
  end.

(** Calculate the quality score of an outfit. *)
Definition calculateQualityScore (outfitSpec : option FIBOOutfitSpec.t) : float :=
  match outfitSpec with
  | None => 0
  | Some outfitSpec =>
      let score := 0.7%float in
      let score := if has_color_scheme outfitSpec then (score + 0.1)%float else score in
      let score := if has_texture_layers outfitSpec then (score + 0.1)%float else score in
      let score := if has_camera outfitSpec then (score + 0.05)%float else score in
      let score := if has_long_description outfitSpec then (score + 0.05)%float else score in
      JsNumber.Math_min score 1
  end.

Definition createTelemetry (env : Env) (request : UnifiedRequest.t) (processingTime : Z)
    (success : bool) (outfitSpec : option FIBOOutfitSpec.t) : GenerationTelemetry.t :=
  let inputTokens :=
    estimateTokens
      match UnifiedRequest.input request with
      | inl text => text
      | inr _ => "voice_input"
      end in
  let outputTokens :=
    match outfitSpec with
    | Some spec => estimateTokens (JSON_stringify env spec)
    | None => 0%Z
    end in
  GenerationTelemetry.mk
    inputTokens
    outputTokens
    processingTime
    AI_MODELS.GEMINI_FLASH
    ((outfitSpec ≫= FIBOOutfitSpec.camera) ≫= FIBOCamera.angle)
    ((outfitSpec ≫= FIBOOutfitSpec.camera) ≫= FIBOCamera.lighting)
    success
    (Some (calculateQualityScore outfitSpec))
    (Some (UnifiedRequest.user_id request))
    "outfit_generation".

(** [`req_${Date.now()}_${Math.random().toString(36).substring(2, 11)}`]. *)
Definition generateRequestId : M string :=
  let* now := Date_now in
  let* random := Math_random_base36 in
  ret ("req_" +:+ pretty now +:+ "_" +:+ String.substring 2 9 random).

Definition processVoiceInput (request : UnifiedRequest.t) (userAudio : Buffer)
    (requestId : string) (startTime : Z) : M UnifiedResponse.t :=
  let* voiceResponse := voiceConversation userAudio (UnifiedRequest.user_id request) in
  let* generated :=
    if isOutfitGenerationRequest (VoiceResponse.text voiceResponse) then
      let params := extractParamsFromText (VoiceResponse.text voiceResponse) in
      let* outfitSpec := generateFIBOOutfit params in
      let* imageUrl := generateOutfitImage (FIBOOutfitSpec.as_OutfitSpec outfitSpec) in
      ret (Some outfitSpec, Some imageUrl)
    else ret (None, None) in
  let* now := Date_now in
  let processingTime := (now - startTime)%Z in
  let* env := ask in
  ret (UnifiedResponse.mk
         (fst generated)
         (snd generated)
         (Some voiceResponse)
         (Some (VoiceResponse.text voiceResponse))
         requestId
         processingTime
         (createTelemetry env request processingTime true (fst generated))).

Definition processTextInput (request : UnifiedRequest.t) (requestId : string)
    (startTime : Z) : M UnifiedResponse.t :=
  let* params :=
    match UnifiedRequest.params request with
    | Some params => ret params
    | None =>
        (* request.input as string: the cast checks nothing, and a Buffer has
           no toLowerCase *)
        match UnifiedRequest.input request with
        | inl text => ret (extractParamsFromText text)
        | inr _ => throw (JsError.not_a_function "text.toLowerCase")
        end
    end in
  let* outfitSpec := generateFIBOOutfit params in
  let* imageUrl := generateOutfitImage (FIBOOutfitSpec.as_OutfitSpec outfitSpec) in
  let* now := Date_now in
  let processingTime := (now - startTime)%Z in
  let* env := ask in
  ret (UnifiedResponse.mk
         (Some outfitSpec)
         (Some imageUrl)
         None
         (FIBOOutfitSpec.description outfitSpec)
         requestId
         processingTime
         (createTelemetry env request processingTime true (Some outfitSpec))).

(** The record that processUserRequest forwards when the request fails. *)
Definition errorTelemetry (request : UnifiedRequest.t) (processingTime : Z)
    : GenerationTelemetry.t :=
  GenerationTelemetry.mk
    0
    0
    processingTime
    "gemini-2.5-flash"
    None
    None
    false
    None
    (Some (UnifiedRequest.user_id request))
    "outfit_generation".

(** The main entry point of the platform. *)
Definition processUserRequest (request : UnifiedRequest.t) : M UnifiedResponse.t :=
  let* startTime := Date_now in
  let* requestId := generateRequestId in
  try_catch
    (let* now := Date_now in
     let* env := ask in
     produceUserInteraction
       (UserInteractionEvent.mk generation (UnifiedRequest.user_id request)
          (toISOString env now)
          [("input_type", input_type_name (UnifiedRequest.input_type request));
           ("request_id", requestId)]) ;;
     let* result :=
       match UnifiedRequest.input_type request, UnifiedRequest.input request with
       | input_voice, inr userAudio => processVoiceInput request userAudio requestId startTime
       | _, _ => processTextInput request requestId startTime
       end in
     match UnifiedResponse.outfit_spec result with
     | Some outfit_spec =>
         (let* now := Date_now in
          produceOutfitGeneration
            (OutfitGenerationEvent.mk (UnifiedRequest.user_id request) requestId
               (toISOString env now) (UnifiedRequest.params request) outfit_spec
               (GenerationTelemetry.quality_score (UnifiedResponse.telemetry result))))
     | None => ret tt
     end ;;
     streamLLMTelemetry (UnifiedResponse.telemetry result) ;;
     ret result)
    (fun error =>
       let* now := Date_now in
       let processingTime := (now - startTime)%Z in
       streamLLMTelemetry (errorTelemetry request processingTime) ;;
       throw error).

(** ** types.ts: the cognitive analysis

    As for the specifications, the value is what [JSON.parse] made of the
    model's text: every property has its declared type or is absent. *)

Module HealthMetric.
Record t := mk {
  category : option string;
  value : option float;
  (* 'up' | 'down' | 'stable' *)
  trend : option string;
  insight : option string
}.
End HealthMetric.

Module CognitiveAnalysis.
Record t := mk {
  metrics : option (list HealthMetric.t);
  summary : option string;
  alerts : option (list string)
}.
End CognitiveAnalysis.

(** ** elevenLabsService.ts: the records of the other assistants *)

(** The parameters that the model extracts from a voice command, with the
    properties that the prompt asks for and that the code reads; each one
    has the type the prompt names or is absent. *)
Module VoiceParams.
Record t := mk {
  occasion : option string;
  weather : option string;
  mood : option string;
  style_adjectives : option (list string);
  colors : option (list string);
  materials : option (list string);
  camera_angle : option string
}.
End VoiceParams.

(** What JSON.parse made of the model's text, as processVoiceCommand uses
    it.  No schema is sent with the request and the value is used as [any]:
    besides the objects of the record above it may be a value on which
    convertToFIBOSchema or createConfirmationText raises a TypeError, such as
    a style_adjectives without [join] or a non-empty string as colors.  The
    value null, which raises at the first read, is told from the text (see
    [JSON_null_literal]). *)
Module ParsedParams.
Inductive t : Type :=
| object (params : VoiceParams.t)
| raising (error : JsError.t).
End ParsedParams.

(** The object built by convertToFIBOSchema. *)
Module FIBOSchema.
Record t := mk {
  occasion : string;
  weather : string;
  mood : string;
  style : string;
  colors : list string;
  materials : list string;
  camera_angle : string
}.
End FIBOSchema.

(** The object returned by describeOutfit. *)
Module OutfitDescription.
Record t := mk {
  text_description : string;
  audio_description : string;
  style_tags : list string
}.
End OutfitDescription.

(** The two objects that processVoiceCommand returns. *)
Module VoiceCommandResult.
Inductive t : Type :=
| processed (extracted_params : VoiceParams.t) (fibo_schema : FIBOSchema.t)
            (voice_confirmation : VoiceResponse.t) (transcription : string)
| failed (error : string) (transcription : string).
End VoiceCommandResult.

(** The object returned by getUserStyleProfile. *)
Module StyleProfile.
Record t := mk {
  preferred_styles : list string;
  preferred_colors : list string;
  body_type : string;
  occasions : list string
}.
End StyleProfile.

(** ** The JSON built-ins on these values *)

Record Json := mkJson {
  (* JSON.stringify(history) on an array of specifications *)
  JSON_stringify_history : list OutfitSpec.t -> string;
  (* JSON.parse(text) as CognitiveAnalysis *)
  JSON_parse_CognitiveAnalysis : string -> Settled CognitiveAnalysis.t;
  (* JSON.parse(text), read as the parameters of a voice command *)
  JSON_parse_VoiceParams : string -> Settled ParsedParams.t
}.

(** ** geminiService.ts: the hidden layer *)

(* The enum of [trend] restricts a STRING. *)
Definition analysis_responseSchema : Schema.t :=
  Schema.OBJECT
    [("metrics",
       Schema.ARRAY (Schema.OBJECT
         [("category", Schema.STRING); ("value", Schema.NUMBER); ("trend", Schema.STRING);
          ("insight", Schema.STRING)]));
     ("summary", Schema.STRING);
     ("alerts", Schema.ARRAY Schema.STRING)].

Definition analysis_prompt (historyData : string) : string :=
  "
    Analyze the following sequence of fashion choices (represented by structured JSON specifications) for potential cognitive health biomarkers.
    Look for:
    1. Rigidity vs. Flexibility (Variance in texture_layers or colors)
    2. Sensory Sensitivity (Preference for specific sheen or weight)
    3. Executive Function (Complexity of coordination between primary and accent colors)
    4. Emotional State (Lighting and Camera angle choices)

    History Data: " +:+ historyData +:+ "

    Return a JSON analysis containing 5 metrics (0-100 values), a summary, and potential subtle alerts.
  ".

(** The analysis returned when the call fails. *)
Definition mock_analysis : CognitiveAnalysis.t :=
  CognitiveAnalysis.mk
    (Some
       [HealthMetric.mk (Some "Sensory Resilience") (Some 85%float) (Some "stable")
          (Some "Consistent texture tolerance.");
        HealthMetric.mk (Some "Cognitive Flexibility") (Some 72%float) (Some "down")
          (Some "Slight increase in palette rigidity.");
        HealthMetric.mk (Some "Executive Coherence") (Some 90%float) (Some "up")
          (Some "High complexity coordination.")])
    (Some "Pattern analysis indicates stable cognitive baseline with minor rigidity in recent choices.")
    (Some []).

(** Step 3: analyse the history of specifications. *)
Definition analyzeCognitivePatterns (json : Json) (history : list OutfitSpec.t)
    : M CognitiveAnalysis.t :=
  let prompt := analysis_prompt (JSON_stringify_history json history) in
  try_catch
    (let* response :=
       ai_generateContent
         (GenerateContentParameters.mk modelFlash (Contents.text prompt)
            (Some (GenerationConfig.mk "application/json" (Some analysis_responseSchema)))) in
     if has_text (GenerateContentResponse.text response) then
       settle (JSON_parse_CognitiveAnalysis json
                 (default "" (GenerateContentResponse.text response)))
     else throw (JsError.Error "Analysis failed"))
    (fun error => ret mock_analysis).

(** ** elevenLabsService.ts: MultiModalAssistant *)

(** [voiceQuery] is an optional parameter; the question is added when it is
    given and not empty. *)
Definition vision_prompt (voiceQuery : option string) : string :=
  "
Describe this outfit in detail, including:
- Colors and color combinations
- Materials and textures
- Style and aesthetic
- Suitable occasions
- Styling suggestions
" +:+
  match voiceQuery with
  | Some query =>
      if JsString.truthy query then nl +:+ "User's specific question: " +:+ query else ""
  | None => ""
  end +:+ "
    ".

Definition commonStyles : list string :=
  ["professional"; "casual"; "formal"; "elegant"; "modern";
   "classic"; "minimalist"; "bohemian"; "avant-garde"; "vintage"].

Definition extractStyleTags (description : string) : list string :=
  List.filter (fun style => JsString.includes (JsString.toLowerCase description) style)
    commonStyles.

(** The image data is not sent: the request holds the prompt and a note. *)
Definition describeOutfit (imageData : string) (voiceQuery : option string)
    : M OutfitDescription.t :=
  let visionPrompt := vision_prompt voiceQuery in
  try_catch
    (let* response :=
       ai_generateContent
         (GenerateContentParameters.mk "gemini-2.5-flash"
            (Contents.parts
               [visionPrompt; "[Image data would be included here in production]"])
            None) in
     let description :=
       string_or_else (GenerateContentResponse.text response)
         "Unable to analyze the outfit image." in
     let* voiceDescription :=
       textToSpeech description "matilda" (VoiceSettings.mk 0.7 0.9 0.7 None) in
     ret (OutfitDescription.mk description (VoiceResponse.audio voiceDescription)
            (extractStyleTags description)))
    (fun error =>
       ret (OutfitDescription.mk "Unable to analyze outfit at this time." "" [])).

(** ** elevenLabsService.ts: VoiceControlledGenerator *)

Definition params_prompt (transcription : string) : string :=
  "
Extract outfit generation parameters from this voice command:
" +:+ JsString.quoted transcription +:+ "

Return as JSON with these fields:
- occasion: string (e.g., " +:+ JsString.quoted "work" +:+ ", " +:+ JsString.quoted "dinner" +:+ ", " +:+ JsString.quoted "casual" +:+ ")
- colors: array of color names/hex codes
- materials: array of preferred materials
- style_adjectives: array of style descriptors
- camera_angle: string (if mentioned: " +:+ JsString.quoted "front" +:+ ", " +:+ JsString.quoted "three_quarter" +:+ ", etc.)
- mood: string describing the desired emotional tone

Return ONLY valid JSON.
    ".

Definition convertToFIBOSchema (params : VoiceParams.t) : FIBOSchema.t :=
  FIBOSchema.mk
    (string_or_else (VoiceParams.occasion params) "casual")
    (string_or_else (VoiceParams.weather params) "moderate")
    (string_or_else (VoiceParams.mood params) "confident")
    (string_or_else (JsString.join " " <$> VoiceParams.style_adjectives params) "modern")
    (default [] (VoiceParams.colors params))
    (default [] (VoiceParams.materials params))
    (string_or_else (VoiceParams.camera_angle params) "three_quarter").

(** [list && list.length > 0]. *)
Definition nonempty_array (list : option (list string)) : bool :=
  match list with
  | Some (_ :: _) => true
  | _ => false
  end.

Definition createConfirmationText (params : VoiceParams.t) : string :=
  let text := "I'll create " in
  let text :=
    if nonempty_array (VoiceParams.style_adjectives params) then
      text +:+ "a " +:+
      JsString.join " and " (default [] (VoiceParams.style_adjectives params)) +:+ " "
    else text in
  let text :=
    text +:+ "outfit for " +:+ string_or_else (VoiceParams.occasion params) "your event" in
  let text :=
    if nonempty_array (VoiceParams.colors params) then
      text +:+ " featuring " +:+
      JsString.join " and " (default [] (VoiceParams.colors params)) +:+ " colors"
    else text in
  let text :=
    if nonempty_array (VoiceParams.materials params) then
      text +:+ " with " +:+
      JsString.join " and " (default [] (VoiceParams.materials params)) +:+ " materials"
    else text in
  text +:+ ". Let me generate that for you now.".

Definition processVoiceCommand (json : Json) (commandAudio : Buffer)
    : M VoiceCommandResult.t :=
  let* transcription := speechToText commandAudio in
  let paramsPrompt := params_prompt (TranscriptionResult.text transcription) in
  try_catch
    (let* response :=
       ai_generateContent
         (GenerateContentParameters.mk modelFlash (Contents.text paramsPrompt)
            (Some (GenerationConfig.mk "application/json" None))) in
     let text := string_or_else (GenerateContentResponse.text response) "{}" in
     let* parsed :=
       if JSON_null_literal text then ret None
       else
         let* value := settle (JSON_parse_VoiceParams json text) in
         ret (Some value) in
     (* convertToFIBOSchema starts with [params.occasion] *)
     let* value := read_parsed parsed "occasion" in
     let* params :=
       match value with
       | ParsedParams.object params => ret params
       | ParsedParams.raising error => throw error
       end in
     let fiboSchema := convertToFIBOSchema params in
     let confirmationText := createConfirmationText params in
     let* voiceConfirmation :=
       textToSpeech confirmationText "rachel" (VoiceSettings.mk 0.75 0.85 0.6 None) in
     ret (VoiceCommandResult.processed params fiboSchema voiceConfirmation
            (TranscriptionResult.text transcription)))
    (fun error =>
       ret (VoiceCommandResult.failed "Unable to process voice command"
              (TranscriptionResult.text transcription))).

(** ** elevenLabsService.ts: StyleAdvisorAgent *)

Definition agentPersonality : string :=
  "
You are Aria, a professional fashion stylist with 10 years of experience.

Personality:
- Warm, knowledgeable, and encouraging
- Professional but approachable
- Detail-oriented and specific

Style Philosophy:
- Classic with modern twists
- Quality over quantity
- Personal expression through fashion

Communication Style:
- Always provide specific, actionable advice
- Ask clarifying questions about occasion, weather, and personal style
- Suggest complete outfits, not just individual pieces
- Explain why each suggestion works
- Be enthusiastic but not pushy
    ".

(** In the source the profile is a constant: the user id is not used. *)
Definition getUserStyleProfile (userId : string) : StyleProfile.t :=
  StyleProfile.mk ["modern"; "minimalist"] ["black"; "white"; "navy"] "unknown"
    ["work"; "casual"].

(** [JSON.stringify] of an array of strings and of a profile, for strings
    that need no escaping (no quote, backslash or control character), as
    those of the profile are. *)
Definition JSON_stringify_strings (l : list string) : string :=
  "[" +:+ JsString.join "," (map JsString.quoted l) +:+ "]".

Definition JSON_stringify_StyleProfile (p : StyleProfile.t) : string :=
  "{" +:+ JsString.quoted "preferred_styles" +:+ ":" +:+
  JSON_stringify_strings (StyleProfile.preferred_styles p) +:+ "," +:+
  JsString.quoted "preferred_colors" +:+ ":" +:+
  JSON_stringify_strings (StyleProfile.preferred_colors p) +:+ "," +:+
  JsString.quoted "body_type" +:+ ":" +:+ JsString.quoted (StyleProfile.body_type p) +:+ "," +:+
  JsString.quoted "occasions" +:+ ":" +:+
  JSON_stringify_strings (StyleProfile.occasions p) +:+ "}".

Definition contextual_prompt (styleProfile transcription : string) : string :=
  "
" +:+ agentPersonality +:+ "

User's style profile: " +:+ styleProfile +:+ "

User says: " +:+ transcription +:+ "

Provide personalized style advice based on this user's history and current request.
    ".

(** A style consultation.  Unlike the other entry points it has no [try]
    block and does not look at [enabled] itself. *)
Definition styleConsultation (userAudio : Buffer) (userId : string) : M VoiceResponse.t :=
  let styleProfile := getUserStyleProfile userId in
  let* transcription := speechToText userAudio in
  let contextualPrompt :=
    contextual_prompt (JSON_stringify_StyleProfile styleProfile)
      (TranscriptionResult.text transcription) in
  let* response :=
    ai_generateContent
      (GenerateContentParameters.mk modelFlash (Contents.text contextualPrompt) None) in
  let responseText :=
    string_or_else (GenerateContentResponse.text response)
      "Let's explore your style together!" in
  textToSpeech responseText "aria" (VoiceSettings.mk 0.75 0.85 0.7 (Some true)).

(** ** datadogService.ts: the metrics buffer

    What [streamLLMTelemetry] above leaves out: the metric points that the
    sink makes of a record and the buffer in which it keeps them.  The sink
    is passed explicitly: [enabled] and [metricsBuffer] are the fields of
    the DatadogObservability object, [now] is the value of [Date.now()]. *)

Module MetricType.
Inductive t : Type := count | rate | gauge | histogram.
End MetricType.

(** The value of a point: a number, which the records hold as an integer
    (token counts, milliseconds, the success flag) or as a binary64 score. *)
Inductive PointValue : Type :=
| integer (n : Z)
| score (x : float).

Module DatadogMetric.
Record t := mk {
  metric : string;
  (* Array<[number, number]>: timestamp and value *)
  points : list (Z * PointValue);
  tags : option (list string);
  type : option MetricType.t
}.
End DatadogMetric.

Module DatadogObservability.

(** [data.user_id ? 'premium' : 'standard']. *)
Definition user_tier (user_id : option string) : string :=
  match user_id with
  | Some id => if JsString.truthy id then "premium" else "standard"
  | None => "standard"
  end.

(** The local array [metrics] of streamLLMTelemetry, after its pushes. *)
Definition metrics_of (timestamp : Z) (data : GenerationTelemetry.t) : list DatadogMetric.t :=
  let metrics :=
    [DatadogMetric.mk "vertexai.tokens.input"
       [(timestamp, integer (GenerationTelemetry.input_tokens data))]
       (Some ["llm:vertexai";
              "model:" +:+ GenerationTelemetry.model data;
              "endpoint:" +:+ GenerationTelemetry.endpoint data;
              "application:aurelians_closet"])
       (Some MetricType.gauge);
     DatadogMetric.mk "vertexai.tokens.output"
       [(timestamp, integer (GenerationTelemetry.output_tokens data))]
       (Some ["llm:vertexai";
              "model:" +:+ GenerationTelemetry.model data;
              "endpoint:" +:+ GenerationTelemetry.endpoint data;
              "application:aurelians_closet"])
       (Some MetricType.gauge);
     DatadogMetric.mk "fibo.generation.duration"
       [(timestamp, integer (GenerationTelemetry.generation_ms data))]
       (Some ["camera_angle:" +:+
                string_or_else (GenerationTelemetry.camera_angle data) "unknown";
              "lighting:" +:+ string_or_else (GenerationTelemetry.lighting data) "unknown";
              "application:aurelians_closet"])
       (Some MetricType.histogram);
     DatadogMetric.mk "fibo.api.success_rate"
       [(timestamp, integer (if GenerationTelemetry.success data then 1 else 0))]
       (Some ["model:" +:+ GenerationTelemetry.model data;
              "application:aurelians_closet"])
       (Some MetricType.rate)] in
  match GenerationTelemetry.quality_score data with
  | Some quality_score =>
      (metrics ++
       [DatadogMetric.mk "outfit.generation.quality"
          [(timestamp, score quality_score)]
          (Some ["user_tier:" +:+ user_tier (GenerationTelemetry.user_id data);
                 "application:aurelians_closet"])
          (Some MetricType.gauge)])%list
  | None => metrics
  end.

(** The flush is a simulation: it empties the buffer. *)
Definition flushMetrics (metricsBuffer : list DatadogMetric.t) : list DatadogMetric.t :=
  if (length metricsBuffer =? 0)%nat then metricsBuffer else [].

(** The buffer after [streamLLMTelemetry(data)].  [Math.floor(now / 1000)]
    is the integer quotient, [now] being a count of milliseconds far below
    2^53. *)
Definition streamLLMTelemetry (enabled : bool) (now : Z) (data : GenerationTelemetry.t)
    (metricsBuffer : list DatadogMetric.t) : list DatadogMetric.t :=
  if negb enabled then metricsBuffer
  else
    let timestamp := (now / 1000)%Z in
    let metrics := metrics_of timestamp data in
    let metricsBuffer := (metricsBuffer ++ metrics)%list in
    if (20 <? length metricsBuffer)%nat then flushMetrics metricsBuffer else metricsBuffer.

End DatadogObservability.

(** ** Objects with fields of their own

    The React component and the platform object keep fields that [State]
    does not hold.  Their methods run in the same kind of monad, over the
    state extended with an object [U] of these fields: what a method has
    written before it rejects stays written. *)

Definition MU (U A : Type) : Type := Env -> State -> U -> Settled A * State * U.

Definition retU {U A} (a : A) : MU U A := fun _ st u => (Fulfilled a, st, u).

Definition throwU {U A} (e : JsError.t) : MU U A := fun _ st u => (Rejected e, st, u).

Definition bindU {U A B} (m : MU U A) (k : A -> MU U B) : MU U B :=
  fun env st u =>
    match m env st u with
    | (Fulfilled a, st', u') => k a env st' u'
    | (Rejected e, st', u') => (Rejected e, st', u')
    end.

(** [try { body } catch (error) { handler }]. *)
Definition try_catchU {U A} (body : MU U A) (handler : JsError.t -> MU U A) : MU U A :=
  fun env st u =>
    match body env st u with
    | (Fulfilled a, st', u') => (Fulfilled a, st', u')
    | (Rejected e, st', u') => handler e env st' u'
    end.

(** [try { body } finally { finalizer }]: the finalizer runs in both cases,
    and the outcome is that of the body unless the finalizer rejects. *)
Definition try_finallyU {U A} (body : MU U A) (finalizer : MU U unit) : MU U A :=
  fun env st u =>
    match body env st u with
    | (r, st', u') =>
        match finalizer env st' u' with
        | (Fulfilled _, st'', u'') => (r, st'', u'')
        | (Rejected e, st'', u'') => (Rejected e, st'', u'')
        end
    end.

(** A call of a function that knows nothing of the object. *)
Definition liftU {U A} (m : M A) : MU U A :=
  fun env st u => let '(r, st') := m env st in (r, st', u).

Definition getU {U} : MU U U := fun _ st u => (Fulfilled u, st, u).

Definition modifyU {U} (f : U -> U) : MU U unit := fun _ st u => (Fulfilled tt, st, f u).

Notation "'let+' x := m 'in' k" := (bindU m (fun x => k))
  (at level 10, x name, m at level 100, k at level 200) : js_scope.
Notation "m ;;+ k" := (bindU m (fun _ => k))
  (at level 100, k at level 200, right associativity) : js_scope.

(** ** App.tsx: handleGenerate *)

Module GeneratedResult.
Record t := mk {
  id : string;
  (* a Date, as its time value *)
  timestamp : Z;
  params : OutfitParams.t;
  spec : OutfitSpec.t;
  imageUrl : string
}.
End GeneratedResult.

(** The state variables of the component, and the messages that [alert]
    has shown, oldest first. *)
Module App.
Record t := mk {
  params : OutfitParams.t;
  isGenerating : bool;
  currentSpec : option OutfitSpec.t;
  generatedImage : option string;
  history : list GeneratedResult.t;
  showHiddenLayer : bool;
  alerts : list string
}.

Definition setIsGenerating (b : bool) (s : t) : t :=
  mk (params s) b (currentSpec s) (generatedImage s) (history s) (showHiddenLayer s)
     (alerts s).

Definition setCurrentSpec (spec : option OutfitSpec.t) (s : t) : t :=
  mk (params s) (isGenerating s) spec (generatedImage s) (history s) (showHiddenLayer s)
     (alerts s).

Definition setGeneratedImage (image : option string) (s : t) : t :=
  mk (params s) (isGenerating s) (currentSpec s) image (history s) (showHiddenLayer s)
     (alerts s).

Definition setHistory (update : list GeneratedResult.t -> list GeneratedResult.t) (s : t) : t :=
  mk (params s) (isGenerating s) (currentSpec s) (generatedImage s) (update (history s))
     (showHiddenLayer s) (alerts s).

Definition alert (message : string) (s : t) : t :=
  mk (params s) (isGenerating s) (currentSpec s) (generatedImage s) (history s)
     (showHiddenLayer s) (alerts s ++ [message])%list.
End App.

(** The click handler of the generate button.  [params] is the value that
    the handler closed over; the state setters take effect in the order of
    the calls. *)
Definition handleGenerate : MU App.t unit :=
  let+ app := getU in
  let params := App.params app in
  modifyU (App.setIsGenerating true) ;;+
  modifyU (App.setGeneratedImage None) ;;+
  modifyU (App.setCurrentSpec None) ;;+
  try_finallyU
    (try_catchU
       (let+ spec := liftU (generateOutfitSpecification params) in
        modifyU (App.setCurrentSpec (Some spec)) ;;+
        let+ imageUrl := liftU (generateOutfitImage spec) in
        modifyU (App.setGeneratedImage (Some imageUrl)) ;;+
        let+ id := liftU Date_now in
        let+ timestamp := liftU Date_now in
        let newResult := GeneratedResult.mk (pretty id) timestamp params spec imageUrl in
        modifyU (App.setHistory (fun prev => newResult :: prev)))
       (fun error => modifyU (App.alert "System overload. Please refine parameters.")))
    (modifyU (App.setIsGenerating false)).

(** ** confluentService.ts and unifiedPlatform.ts: start and stop *)

(** How the broker answers the calls of one start or stop. *)
Record Broker := mkBroker {
  producer_connect : Settled unit;
  consumer_connect : Settled unit;
  consumer_subscribe : list string -> Settled unit;
  producer_disconnect : Settled unit;
  consumer_disconnect : Settled unit
}.

(** The fields that [State] does not hold: the consumer of the pipeline and
    the flag of the platform. *)
Module Services.
Record t := mk {
  (* ConfluentStreamingPipeline.consumer is not null *)
  kafka_consumer : bool;
  (* UnifiedAIFashionPlatform.initialized *)
  initialized : bool
}.

Definition set_consumer (s : t) : t := mk true (initialized s).
Definition set_initialized (s : t) : t := mk (kafka_consumer s) true.
End Services.

(** [this.producer = this.kafka.producer()]. *)
Definition set_producer (st : State) : State :=
  mkState (ai_calls st) (clock_reads st) (random_draws st) (kafka_sends st) true
          (telemetry st) (conversationHistory st).

Definition initProducer (broker : Broker) : MU Services.t unit :=
  let+ env := liftU ask in
  if negb (kafka_enabled env) then retU tt
  else
    liftU (let* st := get in put (set_producer st)) ;;+
    liftU (settle (producer_connect broker)).

Definition initConsumer (topics : list string) (broker : Broker) : MU Services.t unit :=
  let+ env := liftU ask in
  if negb (kafka_enabled env) then retU tt
  else
    modifyU Services.set_consumer ;;+
    liftU (settle (consumer_connect broker)) ;;+
    liftU (settle (consumer_subscribe broker topics)).

Definition disconnect (broker : Broker) : MU Services.t unit :=
  let+ st := liftU get in
  (if kafka_producer st then liftU (settle (producer_disconnect broker)) else retU tt) ;;+
  let+ services := getU in
  if Services.kafka_consumer services then liftU (settle (consumer_disconnect broker))
  else retU tt.

(** Initialize all services.  The topics are KAFKA_TOPICS.OUTFIT_GENERATIONS,
    QUALITY_METRICS and SYSTEM_ALERTS. *)
Definition initialize (broker : Broker) : MU Services.t unit :=
  let+ services := getU in
  if Services.initialized services then retU tt
  else
    try_catchU
      (initProducer broker ;;+
       initConsumer ["outfit.generations"; "quality.metrics"; "system.alerts"] broker ;;+
       modifyU Services.set_initialized)
      (fun error => throwU error).

(** Shut the platform down. *)
Definition shutdown (broker : Broker) : MU Services.t unit :=
  disconnect broker.

(** * Specification-level definitions

    What follows is not translated from the source: it names the notions in
    which the properties of the services are stated. *)

(** ** The quality score as the specification words it *)

Definition color_scheme_present (s : FIBOOutfitSpec.t) : bool :=
  match FIBOOutfitSpec.color_scheme s with
  | Some _ => true
  | None => false
  end.

Definition texture_layers_nonempty (s : FIBOOutfitSpec.t) : bool :=
  match FIBOOutfitSpec.texture_layers s with
  | Some (_ :: _) => true
  | _ => false
  end.

Definition camera_present (s : FIBOOutfitSpec.t) : bool :=
  match FIBOOutfitSpec.camera s with
  | Some _ => true
  | None => false
  end.

Definition description_longer_than_50 (s : FIBOOutfitSpec.t) : bool :=
  match FIBOOutfitSpec.description s with
  | Some d => (50 <? String.length d)%nat
  | None => false
  end.

Definition increment (holds : bool) (amount : float) : float :=
  if holds then amount else 0%float.

(** Base 0.7, plus 0.1, 0.1, 0.05 and 0.05 for the four checks, capped at 1. *)
Definition quality_score_spec (outfitSpec : option FIBOOutfitSpec.t) : float :=
  match outfitSpec with
  | None => 0
  | Some s =>
      JsNumber.Math_min
        (0.7 + increment (color_scheme_present s) 0.1
             + increment (texture_layers_nonempty s) 0.1
             + increment (camera_present s) 0.05
             + increment (description_longer_than_50 s) 0.05)%float
        1
  end.

(** [s'] passes every check that [s] passes. *)
Definition checks_le (s s' : FIBOOutfitSpec.t) : Prop :=
  (color_scheme_present s -> color_scheme_present s') /\
  (texture_layers_nonempty s -> texture_layers_nonempty s') /\
  (camera_present s -> camera_present s') /\
  (description_longer_than_50 s -> description_longer_than_50 s').

(** The score as a function of the outcome of the four checks. *)
Definition score_of_checks (c t k d : bool) : float :=
  let score := 0.7%float in
  let score := if c then (score + 0.1)%float else score in
  let score := if t then (score + 0.1)%float else score in
  let score := if k then (score + 0.05)%float else score in
  let score := if d then (score + 0.05)%float else score in
  JsNumber.Math_min score 1.

(** A specification none of whose properties is defined, and one that has a
    camera only. *)
Definition bare_spec : FIBOOutfitSpec.t :=
  FIBOOutfitSpec.mk None None None None None None None None.

Definition spec_with_camera : FIBOOutfitSpec.t :=
  FIBOOutfitSpec.mk None None None None (Some (FIBOCamera.mk None None None None))
    None None None.

(** ** Keyword lookup *)

(** The occasion of the first entry of the table whose keyword occurs in the
    lower-cased text. *)
Definition first_occasion (entries : list (string * string)) (text : string) : option string :=
  snd <$> List.find (fun entry => JsString.includes (JsString.toLowerCase text) (fst entry)) entries.

(** ** Conversation history *)

(** The map after a sequence of updates, each a user id and an exchange,
    starting from the empty map of a new assistant. *)
Definition history_from (m : gmap string (list Exchange.t)) (updates : list (string * Exchange.t))
    : gmap string (list Exchange.t) :=
  fold_left (fun m update => record_exchange (fst update) (snd update) m) updates m.

Definition history_after (updates : list (string * Exchange.t)) : gmap string (list Exchange.t) :=
  history_from ∅ updates.

(** The exchanges of one user among the updates, oldest first. *)
Definition exchanges_of (userId : string) (updates : list (string * Exchange.t))
    : list Exchange.t :=
  map snd (List.filter (fun update => String.eqb (fst update) userId) updates).

(** The last [n] elements of a list. *)
Definition most_recent (n : nat) (l : list Exchange.t) : list Exchange.t :=
  drop (length l - n) l.

(** A sequence of calls of updateConversationHistory, each with a user id,
    the user's message and the assistant's. *)
Fixpoint update_all (calls : list (string * string * string)) : M unit :=
  match calls with
  | [] => ret tt
  | (userId, userMessage, assistantMessage) :: rest =>
      updateConversationHistory userId userMessage assistantMessage ;;
      update_all rest
  end.

(** The exchanges these calls record when the clock has been read [reads]
    times before the first of them. *)
Fixpoint stamped (env : Env) (reads : nat) (calls : list (string * string * string))
    : list (string * Exchange.t) :=
  match calls with
  | [] => []
  | (userId, userMessage, assistantMessage) :: rest =>
      (userId, Exchange.mk userMessage assistantMessage (toISOString env (clock env reads)))
      :: stamped env (S reads) rest
  end.

(** ** The generators *)

(** The requests that the generators send to the model. *)
Definition outfit_request (params : OutfitParams.t) : GenerateContentParameters.t :=
  GenerateContentParameters.mk modelFlash (Contents.text (outfit_prompt params))
    (Some (GenerationConfig.mk "application/json" (Some outfit_responseSchema))).

Definition fibo_request (params : OutfitParams.t) : GenerateContentParameters.t :=
  GenerateContentParameters.mk modelFlash (Contents.text (fibo_prompt params))
    (Some (GenerationConfig.mk "application/json" (Some fibo_responseSchema))).

Definition image_request (imagePrompt : string) : GenerateContentParameters.t :=
  GenerateContentParameters.mk modelImage (Contents.parts [imagePrompt]) None.

(** The response text is missing or empty. *)
Definition no_text (response : GenerateContentResponse.t) : Prop :=
  GenerateContentResponse.text response = None \/
  GenerateContentResponse.text response = Some "".

(** What generateOutfitSpecification answers, read off the oracles, when its
    request is call number [call] of the model. *)
Definition specification_outcome (env : Env) (call : nat) (params : OutfitParams.t)
    : Settled OutfitSpec.t :=
  match generateContent env call (outfit_request params) with
  | Rejected e => Rejected e
  | Fulfilled response =>
      match GenerateContentResponse.text response with
      | Some text =>
          if JsString.truthy text then
            if JSON_null_literal text then Rejected (JsError.null_read "camera")
            else JSON_parse_OutfitSpec env text
          else Rejected (JsError.Error "No JSON returned")
      | None => Rejected (JsError.Error "No JSON returned")
      end
  end.

(** The model answers the specification request with a text that parses to
    null. *)
Definition answers_null (env : Env) (call : nat) (params : OutfitParams.t) : bool :=
  match generateContent env call (outfit_request params) with
  | Fulfilled response =>
      match GenerateContentResponse.text response with
      | Some text => JsString.truthy text && JSON_null_literal text
      | None => false
      end
  | Rejected _ => false
  end.

(** The state after [n] more calls of the model. *)
Definition advance (n : nat) (st : State) : State :=
  mkState (ai_calls st + n) (clock_reads st) (random_draws st) (kafka_sends st)
          (kafka_producer st) (telemetry st) (conversationHistory st).

(** The generation result for [params] when its request is call number
    [call] of the model. *)
Definition generation_result (env : Env) (call : nat) (params : OutfitParams.t)
    : Settled FIBOOutfitSpec.t :=
  fst (generateFIBOOutfit params env (mkState call 0 0 0 false [] ∅)).

(** The generation results of consecutive requests, the first of them being
    call number [call]. *)
Fixpoint generation_results (env : Env) (call : nat) (requests : list OutfitParams.t)
    : list (Settled FIBOOutfitSpec.t) :=
  match requests with
  | [] => []
  | params :: rest => generation_result env call params :: generation_results env (S call) rest
  end.

Definition succeeds {A} (r : Settled A) : Prop := exists a, r = Fulfilled a.

(** The value of an array of settled promises: all the values, or the first
    rejection. *)
Fixpoint all_fulfilled {A} (l : list (Settled A)) : Settled (list A) :=
  match l with
  | [] => Fulfilled []
  | r :: rest =>
      match r, all_fulfilled rest with
      | Fulfilled a, Fulfilled l' => Fulfilled (a :: l')
      | Rejected e, _ => Rejected e
      | Fulfilled _, Rejected e => Rejected e
      end
  end.

(** The chunks that the loop of generateFIBOBatch takes from index [i] on. *)
Equations? batches (paramsArray : list OutfitParams.t) (i : nat) : list (list OutfitParams.t)
    by wf (length paramsArray - i) lt :=
  batches paramsArray i with lt_dec i (length paramsArray) => {
    | left _ => slice paramsArray i (i + batchSize) :: batches paramsArray (i + batchSize);
    | right _ => [] }.
Proof. unfold batchSize. lia. Qed.

(** Chunks run one after the other, each under [Promise.all]. *)
Fixpoint run_batches (chunks : list (list OutfitParams.t)) (results : list FIBOOutfitSpec.t)
    : M (list FIBOOutfitSpec.t) :=
  match chunks with
  | [] => ret results
  | batch :: rest =>
      let* batchResults := Promise_all (map generateFIBOOutfit batch) in
      run_batches rest (results ++ batchResults)
  end.

(** ** The interfaces as types.ts declares them

    In the declared interfaces every property is present.  [runtime] sees a
    declared value as the run-time object it is. *)
Module Declared.

Record Weather := mkWeather {
  temperature : float;
  conditions : string
}.

Record Color := mkColor {
  hex : string;
  role : string
}.

Record ColorScheme := mkColorScheme {
  primary : Color;
  accent : Color
}.

Record TextureLayer := mkTextureLayer {
  material : string;
  weight : string;
  sheen : float
}.

Record CameraConfig := mkCameraConfig {
  angle : string;
  lighting : string
}.

Record OutfitSpec := mkOutfitSpec {
  occasion : string;
  weather : Weather;
  color_scheme : ColorScheme;
  texture_layers : list TextureLayer;
  camera : CameraConfig;
  description : string
}.

Definition runtime_color (c : Color) : Color.t :=
  Color.mk (Some (hex c)) (Some (role c)).

Definition runtime_layer (l : TextureLayer) : TextureLayer.t :=
  TextureLayer.mk (Some (material l)) (Some (weight l)) (Some (sheen l)).

Definition runtime (spec : OutfitSpec) : OutfitSpec.t :=
  OutfitSpec.mk
    (Some (occasion spec))
    (Some (Weather.mk (Some (temperature (weather spec))) (Some (conditions (weather spec)))))
    (Some (ColorScheme.mk (Some (runtime_color (primary (color_scheme spec))))
                          (Some (runtime_color (accent (color_scheme spec))))))
    (Some (map runtime_layer (texture_layers spec)))
    (Some (CameraConfig.mk (Some (angle (camera spec))) (Some (lighting (camera spec)))))
    (Some (description spec)).

End Declared.

(** The string that generateOutfitImage returns for a settled image request. *)
Definition image_of (r : Settled GenerateContentResponse.t) : string :=
  match r with
  | Fulfilled response =>
      match first_inlineData (response_parts response) with
      | Some inlineData => "data:image/png;base64," +:+ JsString.interpolate (Blob.data inlineData)
      | None => placeholder_image
      end
  | Rejected _ => placeholder_image
  end.

(** ** Schema conformance *)

Definition is_hex_digit (c : ascii) : bool :=
  let n := nat_of_ascii c in
  ((48 <=? n) && (n <=? 57) || (65 <=? n) && (n <=? 70) || (97 <=? n) && (n <=? 102))%nat.

Fixpoint all_hex_digits (s : string) : bool :=
  match s with
  | EmptyString => true
  | String c s' => is_hex_digit c && all_hex_digits s'
  end.

(** Six hexadecimal digits, with or without a leading [#]. *)
Definition valid_hex_color (s : string) : bool :=
  let digits :=
    match s with
    | String "#"%char digits => digits
    | _ => s
    end in
  (String.length digits =? 6)%nat && all_hex_digits digits.

Definition valid_color (c : option Color.t) : bool :=
  match c ≫= Color.hex with
  | Some hex => valid_hex_color hex
  | None => false
  end.

(** texture_layers is a non-empty list and color_scheme holds two valid
    6-digit hex colours. *)
Definition schema_conformant (spec : OutfitSpec.t) : bool :=
  match OutfitSpec.texture_layers spec with
  | Some (_ :: _) => true
  | _ => false
  end &&
  match OutfitSpec.color_scheme spec with
  | Some scheme => valid_color (ColorScheme.primary scheme) && valid_color (ColorScheme.accent scheme)
  | None => false
  end.

(** ** Example worlds, for the instances and the counterexamples *)

Definition initial_state : State := mkState 0 0 0 0 false [] ∅.

(** Nothing is configured and the model cannot be reached. *)
Definition offline_env : Env :=
  mkEnv
    (fun _ _ => Rejected (JsError.mk "TypeError" "fetch failed"))
    (fun _ => Rejected (JsError.mk "SyntaxError" "Unexpected end of JSON input"))
    (fun _ => Rejected (JsError.mk "SyntaxError" "Unexpected end of JSON input"))
    (fun _ => "{}")
    (fun n => 1700000000000 + 40 * Z.of_nat n)%Z
    (fun ms => pretty ms)
    (fun _ => "0.4fzyo82mvyr")
    (fun _ _ => Fulfilled tt)
    "" "" "" "".

(** The same world with another model and other parsers. *)
Definition world
    (model : nat -> GenerateContentParameters.t -> Settled GenerateContentResponse.t)
    (parse_outfit : string -> Settled OutfitSpec.t)
    (parse_fibo : string -> Settled FIBOOutfitSpec.t) : Env :=
  mkEnv model parse_outfit parse_fibo
    (JSON_stringify offline_env) (clock offline_env) (toISOString offline_env)
    (random_base36 offline_env) (producer_send offline_env) "" "" "" "".

(** The model answers, with neither text nor candidates. *)
Definition silent_model_env : Env :=
  world (fun _ _ => Fulfilled (GenerateContentResponse.mk None None))
        (JSON_parse_OutfitSpec offline_env) (JSON_parse_FIBOOutfitSpec offline_env).

Definition gala_params : OutfitParams.t :=
  OutfitParams.mk "Evening Gala" ("Cool 15" +:+ String "176"%char "C") "Elegant"
    "Classic Evening Wear".

Definition text_request : UnifiedRequest.t :=
  UnifiedRequest.mk "user_123" (inl "I need a professional outfit for a business meeting")
    input_text (Some gala_params).

(** A response the schema allows: every property is there, no texture layer
    is listed and the colours are names. *)
Definition colour_names_text : string :=
  "{" +:+ JsString.quoted "occasion" +:+ ":" +:+ JsString.quoted "gala" +:+ "," +:+
  JsString.quoted "weather" +:+ ":{" +:+ JsString.quoted "temperature" +:+ ":15," +:+
  JsString.quoted "conditions" +:+ ":" +:+ JsString.quoted "cool" +:+ "}," +:+
  JsString.quoted "color_scheme" +:+ ":{" +:+ JsString.quoted "primary" +:+ ":{" +:+
  JsString.quoted "hex" +:+ ":" +:+ JsString.quoted "red" +:+ "," +:+ JsString.quoted "role" +:+
  ":" +:+ JsString.quoted "base" +:+ "}," +:+ JsString.quoted "accent" +:+ ":{" +:+
  JsString.quoted "hex" +:+ ":" +:+ JsString.quoted "blue" +:+ "," +:+
  JsString.quoted "role" +:+ ":" +:+ JsString.quoted "accent" +:+ "}}," +:+
  JsString.quoted "texture_layers" +:+ ":[]," +:+ JsString.quoted "camera" +:+ ":{" +:+
  JsString.quoted "angle" +:+ ":" +:+ JsString.quoted "front" +:+ "," +:+
  JsString.quoted "lighting" +:+ ":" +:+ JsString.quoted "studio" +:+ "}," +:+
  JsString.quoted "description" +:+ ":" +:+ JsString.quoted "A gown" +:+ "}".

Definition colour_names_spec : OutfitSpec.t :=
  OutfitSpec.mk
    (Some "gala")
    (Some (Weather.mk (Some 15%float) (Some "cool")))
    (Some (ColorScheme.mk (Some (Color.mk (Some "red") (Some "base")))
                          (Some (Color.mk (Some "blue") (Some "accent")))))
    (Some [])
    (Some (CameraConfig.mk (Some "front") (Some "studio")))
    (Some "A gown").

(** The model answers [colour_names_text], which JSON.parse reads as
    [colour_names_spec]. *)
Definition colour_names_env : Env :=
  world (fun _ _ => Fulfilled (GenerateContentResponse.mk (Some colour_names_text) None))
        (fun text =>
           if String.eqb text colour_names_text then Fulfilled colour_names_spec
           else JSON_parse_OutfitSpec offline_env text)
        (JSON_parse_FIBOOutfitSpec offline_env).

(** The model answers the JSON text [null]. *)
Definition null_env : Env :=
  world (fun _ _ => Fulfilled (GenerateContentResponse.mk (Some "null") None))
        (JSON_parse_OutfitSpec offline_env) (JSON_parse_FIBOOutfitSpec offline_env).

(** A response the schema allows: a description and nothing else. *)
Definition description_only_text : string :=
  "{" +:+ JsString.quoted "description" +:+ ":" +:+ JsString.quoted "A gown" +:+ "}".

Definition description_only_spec : OutfitSpec.t :=
  OutfitSpec.mk None None None None None (Some "A gown").

(** The model answers [description_only_text], which JSON.parse reads as
    [description_only_spec]. *)
Definition description_only_env : Env :=
  world (fun _ _ => Fulfilled (GenerateContentResponse.mk (Some description_only_text) None))
        (fun text =>
           if String.eqb text description_only_text then Fulfilled description_only_spec
           else JSON_parse_OutfitSpec offline_env text)
        (JSON_parse_FIBOOutfitSpec offline_env).

(** A value of the declared OutfitSpec interface. *)
Definition declared_gown : Declared.OutfitSpec :=
  Declared.mkOutfitSpec "gala" (Declared.mkWeather 15 "cool")
    (Declared.mkColorScheme (Declared.mkColor "#1a1a1a" "base")
                            (Declared.mkColor "#d4af37" "accent"))
    [Declared.mkTextureLayer "silk" "light" 0.8]
    (Declared.mkCameraConfig "front" "studio")
    "A gown".

Definition seven_requests : list OutfitParams.t := replicate 7 gala_params.

(** Twelve voice exchanges of one user. *)
Definition twelve_calls : list (string * string * string) :=
  replicate 12
    ("user_456", "I need a professional outfit for a business meeting", "Try navy.").

(** The model answers call number [n] with a specification whose occasion is
    the decimal of [n] and whose other objects are empty. *)
Definition numbered_text (n : nat) : string :=
  "{" +:+ JsString.quoted "occasion" +:+ ":" +:+ JsString.quoted (pretty n) +:+ "," +:+
  JsString.quoted "color_scheme" +:+ ":{" +:+ JsString.quoted "primary" +:+ ":{}," +:+
  JsString.quoted "accent" +:+ ":{}}," +:+ JsString.quoted "texture_layers" +:+ ":[]," +:+
  JsString.quoted "camera" +:+ ":{}," +:+ JsString.quoted "style_parameters" +:+ ":{}}".

Definition numbered_spec (n : nat) : FIBOOutfitSpec.t :=
  FIBOOutfitSpec.mk
    (Some (pretty n))
    None
    (Some (ColorScheme.mk (Some (Color.mk None None)) (Some (Color.mk None None))))
    (Some [])
    (Some (FIBOCamera.mk None None None None))
    (Some (StyleParameters.mk None None))
    None
    None.

Definition numbering_env : Env :=
  world (fun n _ => Fulfilled (GenerateContentResponse.mk (Some (numbered_text n)) None))
        (JSON_parse_OutfitSpec offline_env)
        (fun text =>
           match List.find (fun n => String.eqb text (numbered_text n)) (seq 0 7) with
           | Some n => Fulfilled (numbered_spec n)
           | None => JSON_parse_FIBOOutfitSpec offline_env text
           end).

(** ** Telemetry of an action *)

(** An action is silent when it hands nothing to the telemetry sink. *)
Definition silent {A} (m : M A) : Prop :=
  forall env st, telemetry (snd (m env st)) = telemetry st.

(** An action fails quietly when a rejected run has handed nothing to the
    sink. *)
Definition quiet_failure {A} (m : M A) : Prop :=
  forall env st e st', m env st = (Rejected e, st') -> telemetry st' = telemetry st.

(** ** Completeness of a parsed specification *)

(** The objects that the image prompt reads are all there. *)
Definition image_ready (spec : OutfitSpec.t) : bool :=
  match OutfitSpec.camera spec, OutfitSpec.texture_layers spec, OutfitSpec.color_scheme spec with
  | Some _, Some _, Some scheme =>
      match ColorScheme.primary scheme, ColorScheme.accent scheme with
      | Some _, Some _ => true
      | _, _ => false
      end
  | _, _, _ => false
  end.

(** The objects that generateFIBOOutfit reads are all there. *)
Definition fibo_complete (spec : FIBOOutfitSpec.t) : bool :=
  match FIBOOutfitSpec.camera spec, FIBOOutfitSpec.style_parameters spec,
        FIBOOutfitSpec.texture_layers spec, FIBOOutfitSpec.color_scheme spec with
  | Some _, Some _, Some _, Some scheme =>
      match ColorScheme.primary scheme, ColorScheme.accent scheme with
      | Some _, Some _ => true
      | _, _ => false
      end
  | _, _, _, _ => false
  end.

(** What JSON.parse makes of the text of call number [call], when the model
    answers the FIBO request with a text and the parsed value is not null. *)
Definition fibo_parsed (env : Env) (call : nat) (params : OutfitParams.t)
    : option FIBOOutfitSpec.t :=
  match generateContent env call (fibo_request params) with
  | Fulfilled response =>
      match GenerateContentResponse.text response with
      | Some text =>
          if JsString.truthy text && negb (JSON_null_literal text) then
            match JSON_parse_FIBOOutfitSpec env text with
            | Fulfilled spec => Some spec
            | Rejected _ => None
            end
          else None
      | None => None
      end
  | Rejected _ => None
  end.

(** What generateFIBOOutfit returns in [numbering_env] when its request is
    call number [n]: the numbered specification with the default structured
    parameters attached. *)
Definition numbered_result (n : nat) : FIBOOutfitSpec.t :=
  FIBOOutfitSpec.set_fibo_structured_params (numbered_spec n)
    (FIBOParameters.mk "professional outfit generation" None 75%float None 5500%float
       None None "cotton" "silk" [None; None] "analogous").

Definition twelve_requests : list OutfitParams.t := replicate 12 gala_params.

(** ** The voice assistant *)

(** The request that generateResponse sends for a message and a context. *)
Definition aria_request (context : list Exchange.t) (userMessage : string)
    : GenerateContentParameters.t :=
  GenerateContentParameters.mk modelFlash
    (Contents.text (aria_prompt (JsString.join (nl +:+ nl) (map render_exchange context))
                      userMessage))
    None.

(** The reply that generateResponse makes of a settled model call. *)
Definition reply_of (r : Settled GenerateContentResponse.t) : string :=
  match r with
  | Fulfilled response =>
      string_or_else (GenerateContentResponse.text response)
        "I'm here to help you find the perfect outfit. What occasion are you dressing for?"
  | Rejected _ =>
      "I'd be happy to help you with your outfit selection. Could you tell me more about the occasion?"
  end.

(** What the simulated transcription answers when the assistant is enabled. *)
Definition heard : string := "I need a professional outfit for a business meeting".

(** No stored history is longer than ten exchanges. *)
Definition histories_bounded (st : State) : Prop :=
  forall (userId : string) (history : list Exchange.t),
    conversationHistory st !! userId = Some history -> length history <= 10.

(** An action keeps an observation of the state when no run changes it. *)
Definition keeps {A B} (f : State -> B) (m : M A) : Prop :=
  forall env st, f (snd (m env st)) = f st.

(** An action preserves an invariant of the state, which may depend on the
    environment. *)
Definition preserves {A} (P : Env -> State -> Prop) (m : M A) : Prop :=
  forall env st, P env st -> P env (snd (m env st)).

Definition bounded : Env -> State -> Prop := fun _ => histories_bounded.

(** The offline world with an ElevenLabs key. *)
Definition voice_env : Env :=
  mkEnv (generateContent offline_env) (JSON_parse_OutfitSpec offline_env)
    (JSON_parse_FIBOOutfitSpec offline_env) (JSON_stringify offline_env) (clock offline_env)
    (toISOString offline_env) (random_base36 offline_env) (producer_send offline_env)
    "sk_test" "" "" "".

(** ** Requests *)

(** The text whose tokens createTelemetry counts as input. *)
Definition counted_input (request : UnifiedRequest.t) : string :=
  match UnifiedRequest.input request with
  | inl text => text
  | inr _ => "voice_input"
  end.


(** The request goes down the voice path of processUserRequest. *)
Definition is_voice_request (request : UnifiedRequest.t) : bool :=
  match UnifiedRequest.input_type request, UnifiedRequest.input request with
  | input_voice, inr _ => true
  | _, _ => false
  end.

(** No event can reach the broker: Kafka is not configured or no producer
    has been created. *)
Definition cannot_send (env : Env) (st : State) : bool :=
  negb (kafka_enabled env) || negb (kafka_producer st).

Definition voice_request : UnifiedRequest.t :=
  UnifiedRequest.mk "user_456" (inr []) input_voice None.


(** What the platform can observe of the producer: whether there is one and
    how many sends it has been asked for. *)
Definition kafka_view (st : State) : bool * nat := (kafka_producer st, kafka_sends st).

(** No event can reach the broker and [n] sends have been issued. *)
Definition unsent (n : nat) : Env -> State -> Prop :=
  fun env st => cannot_send env st = true /\ kafka_sends st = n.

(** Kafka is configured and the broker refuses every message. *)
Definition broker_down_env : Env :=
  mkEnv (generateContent numbering_env) (JSON_parse_OutfitSpec numbering_env)
    (JSON_parse_FIBOOutfitSpec numbering_env) (JSON_stringify numbering_env)
    (clock numbering_env) (toISOString numbering_env) (random_base36 numbering_env)
    (fun _ _ => Rejected (JsError.mk "KafkaJSConnectionError" "Connection timeout"))
    "" "" "" "broker:9092".

(** The state of a process whose producer has been created. *)
Definition producing_state : State := mkState 0 0 0 0 true [] ∅.


(** The notice that the voice assistant answers without an ElevenLabs key. *)
Definition not_configured : string :=
  "Voice assistant is not configured. Please provide an ElevenLabs API key.".

(** The occasions that extractOccasion can answer. *)
Definition occasions : list string :=
  ["work"; "business meeting"; "casual"; "dinner"; "date night"; "party"; "formal event";
   "evening gala"].

(** ** The other assistants *)

(** The request that analyzeCognitivePatterns sends for a history. *)
Definition analysis_request (json : Json) (history : list OutfitSpec.t)
    : GenerateContentParameters.t :=
  GenerateContentParameters.mk modelFlash
    (Contents.text (analysis_prompt (JSON_stringify_history json history)))
    (Some (GenerationConfig.mk "application/json" (Some analysis_responseSchema))).

(** The analysis that analyzeCognitivePatterns makes of a settled call. *)
Definition analysis_of (json : Json) (r : Settled GenerateContentResponse.t)
    : CognitiveAnalysis.t :=
  match r with
  | Fulfilled response =>
      match GenerateContentResponse.text response with
      | Some text =>
          if JsString.truthy text then
            match JSON_parse_CognitiveAnalysis json text with
            | Fulfilled analysis => analysis
            | Rejected _ => mock_analysis
            end
          else mock_analysis
      | None => mock_analysis
      end
  | Rejected _ => mock_analysis
  end.

(** The request that describeOutfit sends. *)
Definition vision_request (voiceQuery : option string) : GenerateContentParameters.t :=
  GenerateContentParameters.mk "gemini-2.5-flash"
    (Contents.parts
       [vision_prompt voiceQuery; "[Image data would be included here in production]"])
    None.

(** The description that describeOutfit makes of a settled call. *)
Definition description_of (r : Settled GenerateContentResponse.t) : string :=
  match r with
  | Fulfilled response =>
      string_or_else (GenerateContentResponse.text response)
        "Unable to analyze the outfit image."
  | Rejected _ => "Unable to analyze outfit at this time."
  end.

(** What the simulated transcription answers in an environment. *)
Definition transcript (env : Env) : string :=
  if voice_enabled env then heard else "Mock transcription".

(** The simulated audio of a speech in an environment. *)
Definition speech_audio (env : Env) : string :=
  if voice_enabled env then "base64_encoded_audio_data" else "".

(** The request that processVoiceCommand sends. *)
Definition params_request (env : Env) : GenerateContentParameters.t :=
  GenerateContentParameters.mk modelFlash (Contents.text (params_prompt (transcript env)))
    (Some (GenerationConfig.mk "application/json" None)).

(** The parameters that processVoiceCommand reads off a settled call, or the
    error raised on the way: that of the call, of JSON.parse, or of the
    functions that read the parsed value. *)
Definition params_of (json : Json) (r : Settled GenerateContentResponse.t)
    : Settled VoiceParams.t :=
  match r with
  | Fulfilled response =>
      let text := string_or_else (GenerateContentResponse.text response) "{}" in
      if JSON_null_literal text then Rejected (JsError.null_read "occasion")
      else
        match JSON_parse_VoiceParams json text with
        | Fulfilled (ParsedParams.object params) => Fulfilled params
        | Fulfilled (ParsedParams.raising error) => Rejected error
        | Rejected e => Rejected e
        end
  | Rejected e => Rejected e
  end.

(** The request that styleConsultation sends. *)
Definition consultation_request (env : Env) (userId : string) : GenerateContentParameters.t :=
  GenerateContentParameters.mk modelFlash
    (Contents.text
       (contextual_prompt (JSON_stringify_StyleProfile (getUserStyleProfile userId))
          (transcript env)))
    None.

(** JSON.parse and JSON.stringify fail on everything. *)
Definition no_json : Json :=
  mkJson (fun _ => "[]")
    (fun _ => Rejected (JsError.mk "SyntaxError" "Unexpected end of JSON input"))
    (fun _ => Rejected (JsError.mk "SyntaxError" "Unexpected end of JSON input")).

(** ** The metrics buffer over time *)

(** The buffer after a sequence of records, each with the time at which it
    is streamed, starting from a given buffer. *)
Definition buffer_after (enabled : bool) (calls : list (Z * GenerationTelemetry.t))
    (metricsBuffer : list DatadogMetric.t) : list DatadogMetric.t :=
  fold_left
    (fun buffer call => DatadogObservability.streamLLMTelemetry enabled (fst call) (snd call) buffer)
    calls metricsBuffer.

(** The record of a request that generated nothing. *)
Definition idle_record : GenerationTelemetry.t :=
  GenerationTelemetry.mk 3 0 12 "gemini-2.5-flash" None None true (Some 0%float)
    (Some "user_456") "outfit_generation".

(** ** The component and the platform *)

Definition overload_message : string := "System overload. Please refine parameters.".

(** The component as it is first rendered, with an empty history. *)
Definition fresh_app : App.t :=
  App.mk gala_params false None None [] false [].

(** The broker answers every call. *)
Definition healthy_broker : Broker :=
  mkBroker (Fulfilled tt) (Fulfilled tt) (fun _ => Fulfilled tt) (Fulfilled tt) (Fulfilled tt).

(** The broker cannot be reached. *)
Definition unreachable_broker : Broker :=
  let e := JsError.mk "KafkaJSConnectionError" "Connection timeout" in
  mkBroker (Rejected e) (Rejected e) (fun _ => Rejected e) (Rejected e) (Rejected e).

Definition monitored_topics : list string :=
  ["outfit.generations"; "quality.metrics"; "system.alerts"].

(** The first of the three calls of a start that the broker rejects. *)
Definition start_failure (broker : Broker) : option JsError.t :=
  match producer_connect broker, consumer_connect broker,
        consumer_subscribe broker monitored_topics with
  | Rejected e, _, _ => Some e
  | Fulfilled _, Rejected e, _ => Some e
  | Fulfilled _, Fulfilled _, Rejected e => Some e
  | Fulfilled _, Fulfilled _, Fulfilled _ => None
  end.

Definition new_services : Services.t := Services.mk false false.

(** * Properties *)

(** ** Quality score *)

Lemma calculateQualityScore_checks (s : FIBOOutfitSpec.t) :
  calculateQualityScore (Some s) =
  score_of_checks (has_color_scheme s) (has_texture_layers s) (has_camera s)
                  (has_long_description s).
Proof. reflexivity. Qed.

Lemma has_color_scheme_spec (s : FIBOOutfitSpec.t) :
  has_color_scheme s = color_scheme_present s.
Proof.
  unfold has_color_scheme, color_scheme_present.
  destruct (FIBOOutfitSpec.color_scheme s); reflexivity.
Qed.

Lemma has_camera_spec (s : FIBOOutfitSpec.t) : has_camera s = camera_present s.
Proof.
  unfold has_camera, camera_present.
  destruct (FIBOOutfitSpec.camera s); reflexivity.
Qed.

Lemma has_texture_layers_spec (s : FIBOOutfitSpec.t) :
  has_texture_layers s = texture_layers_nonempty s.
Proof.
  unfold has_texture_layers, texture_layers_nonempty.
  destruct (FIBOOutfitSpec.texture_layers s) as [[|]|]; reflexivity.
Qed.

(** The source also tests that the description is truthy; a string longer
    than 50 is not empty, so the test changes nothing. *)
Lemma has_long_description_spec (s : FIBOOutfitSpec.t) :
  has_long_description s = description_longer_than_50 s.
Proof.
  unfold has_long_description, description_longer_than_50.
  destruct (FIBOOutfitSpec.description s) as [[|c d]|]; reflexivity.
Qed.

Lemma calculateQualityScore_spec_checks (s : FIBOOutfitSpec.t) :
  calculateQualityScore (Some s) =
  score_of_checks (color_scheme_present s) (texture_layers_nonempty s) (camera_present s)
                  (description_longer_than_50 s).
Proof.
  rewrite calculateQualityScore_checks.
  now rewrite has_color_scheme_spec, has_camera_spec, has_texture_layers_spec,
    has_long_description_spec.
Qed.

Lemma score_of_checks_monotone (c t k d c' t' k' d' : bool) :
  (c -> c') -> (t -> t') -> (k -> k') -> (d -> d') ->
  PrimFloat.leb (score_of_checks c t k d) (score_of_checks c' t' k' d') = true.
Proof.
  destruct c, c', t, t', k, k', d, d'; simpl; intros Hc Ht Hk Hd;
    try (exfalso; tauto); vm_compute; reflexivity.
Qed.

Lemma score_of_checks_range (c t k d : bool) :
  PrimFloat.leb 0.7 (score_of_checks c t k d) = true /\
  PrimFloat.leb (score_of_checks c t k d) 1 = true.
Proof. destruct c, t, k, d; vm_compute; split; reflexivity. Qed.

(** C1. The quality scorer returns exactly 0 when no specification is given;
    given one, it returns 0.7 plus 0.1 if color_scheme is present, plus 0.1
    if texture_layers is present and non-empty, plus 0.05 if camera is
    present, plus 0.05 if description is present and longer than 50
    characters, the sum capped at 1.0 (in binary64 arithmetic, as the
    program computes it). *)
Theorem quality_score_formula :
  calculateQualityScore None = 0%float /\
  forall outfitSpec : option FIBOOutfitSpec.t,
    calculateQualityScore outfitSpec = quality_score_spec outfitSpec.
Proof.
  split; [reflexivity|].
  intros [s|]; [|reflexivity].
  rewrite calculateQualityScore_spec_checks.
  unfold quality_score_spec.
  destruct (color_scheme_present s), (texture_layers_nonempty s), (camera_present s),
    (description_longer_than_50 s); vm_compute; reflexivity.
Qed.

(** In binary64 the five terms add up to exactly 1: the cap is reached and
    never exceeded. *)
Example score_of_all_checks : score_of_checks true true true true = 1%float.
Proof. vm_compute. reflexivity. Qed.

Example score_of_three_checks :
  score_of_checks true true true false = 0.94999999999999996%float /\
  score_of_checks true true false false = 0.89999999999999991%float.
Proof. vm_compute. split; reflexivity. Qed.

(** C6. The quality score is monotonic in the four presence checks: a
    specification that passes every check another one passes (in particular
    one more check, the other three unchanged) never scores lower; and for
    every input, the absent specification included, the score lies in
    [0, 1]. *)
Theorem quality_score_monotone_and_bounded :
  (forall s s' : FIBOOutfitSpec.t,
     checks_le s s' ->
     PrimFloat.leb (calculateQualityScore (Some s)) (calculateQualityScore (Some s')) = true) /\
  (forall outfitSpec : option FIBOOutfitSpec.t,
     PrimFloat.leb 0 (calculateQualityScore outfitSpec) = true /\
     PrimFloat.leb (calculateQualityScore outfitSpec) 1 = true).
Proof.
  split.
  - intros s s' (Hc & Ht & Hk & Hd).
    rewrite !calculateQualityScore_spec_checks.
    now apply score_of_checks_monotone.
  - intros [s|]; [|vm_compute; split; reflexivity].
    rewrite calculateQualityScore_spec_checks.
    destruct (color_scheme_present s), (texture_layers_nonempty s), (camera_present s),
      (description_longer_than_50 s); vm_compute; split; reflexivity.
Qed.

Lemma quality_score_monotone_witness :
  checks_le bare_spec spec_with_camera /\
  PrimFloat.leb (calculateQualityScore (Some bare_spec))
                (calculateQualityScore (Some spec_with_camera)) = true.
Proof.
  assert (H : checks_le bare_spec spec_with_camera).
  { unfold checks_le; simpl; tauto. }
  split; [exact H|].
  exact (proj1 quality_score_monotone_and_bounded bare_spec spec_with_camera H).
Defined.

(** C9. Every specification actually supplied to the scorer scores at least
    0.7, the ACCEPTABLE threshold, even when none of its properties is
    defined (it then scores exactly 0.7); so a score is either 0 or in
    [0.7, 1], and no score lies strictly between 0 and 0.7. *)
Theorem present_spec_scores_acceptable :
  (forall s : FIBOOutfitSpec.t,
     PrimFloat.leb QUALITY_THRESHOLDS.ACCEPTABLE (calculateQualityScore (Some s)) = true) /\
  calculateQualityScore (Some bare_spec) = QUALITY_THRESHOLDS.ACCEPTABLE /\
  (forall outfitSpec : option FIBOOutfitSpec.t,
     calculateQualityScore outfitSpec = 0%float \/
     (PrimFloat.leb 0.7 (calculateQualityScore outfitSpec) = true /\
      PrimFloat.leb (calculateQualityScore outfitSpec) 1 = true)) /\
  (forall outfitSpec : option FIBOOutfitSpec.t,
     PrimFloat.ltb 0 (calculateQualityScore outfitSpec) = true ->
     PrimFloat.ltb (calculateQualityScore outfitSpec) 0.7 = false).
Proof.
  split; [|split; [reflexivity|split]].
  - intros s. rewrite calculateQualityScore_spec_checks.
    apply score_of_checks_range.
  - intros [s|]; [right|left; reflexivity].
    rewrite calculateQualityScore_spec_checks. apply score_of_checks_range.
  - intros [s|]; [|vm_compute; discriminate].
    intros _. rewrite calculateQualityScore_spec_checks.
    destruct (color_scheme_present s), (texture_layers_nonempty s), (camera_present s),
      (description_longer_than_50 s); vm_compute; reflexivity.
Qed.

Lemma present_spec_scores_acceptable_witness :
  PrimFloat.ltb 0 (calculateQualityScore (Some spec_with_camera)) = true /\
  PrimFloat.ltb (calculateQualityScore (Some spec_with_camera)) 0.7 = false.
Proof.
  assert (H : PrimFloat.ltb 0 (calculateQualityScore (Some spec_with_camera)) = true)
    by (vm_compute; reflexivity).
  split; [exact H|].
  exact (proj2 (proj2 (proj2 present_spec_scores_acceptable)) (Some spec_with_camera) H).
Defined.

(** ** Parameter extraction *)

Lemma extractOccasion_loop_first (entries : list (string * string)) (text : string) :
  extractOccasion_loop entries text = default "casual" (first_occasion entries text).
Proof.
  unfold first_occasion.
  induction entries as [|[keyword occasion] rest IH]; simpl; [reflexivity|].
  destruct (JsString.includes (JsString.toLowerCase text) keyword); [reflexivity|exact IH].
Qed.

Lemma first_occasion_none (entries : list (string * string)) (text : string) :
  (forall keyword, In keyword (map fst entries) ->
     JsString.includes (JsString.toLowerCase text) keyword = false) ->
  first_occasion entries text = None.
Proof.
  unfold first_occasion.
  induction entries as [|[keyword occasion] rest IH]; simpl; intros H; [reflexivity|].
  rewrite (H keyword) by now left.
  apply IH. intros k Hk. apply H. now right.
Qed.

(** C10. For every input text the extracted parameters have weather
    'moderate', mood 'confident' and style 'modern professional'; only the
    occasion depends on the text: it is the occasion of the first keyword of
    the table that occurs in the lower-cased text, 'casual' when none does,
    and texts that differ by case only get the same parameters. *)
Theorem extractParamsFromText_only_occasion_varies (text : string) :
  OutfitParams.weather (extractParamsFromText text) = "moderate" /\
  OutfitParams.mood (extractParamsFromText text) = "confident" /\
  OutfitParams.style (extractParamsFromText text) = "modern professional" /\
  OutfitParams.occasion (extractParamsFromText text) =
    default "casual" (first_occasion occasionMap text) /\
  ((forall keyword, In keyword (map fst occasionMap) ->
      JsString.includes (JsString.toLowerCase text) keyword = false) ->
   OutfitParams.occasion (extractParamsFromText text) = "casual") /\
  (forall text' : string,
     JsString.toLowerCase text' = JsString.toLowerCase text ->
     extractParamsFromText text' = extractParamsFromText text).
Proof.
  repeat split.
  - apply extractOccasion_loop_first.
  - intros H. simpl. unfold extractOccasion.
    rewrite extractOccasion_loop_first, first_occasion_none by exact H. reflexivity.
  - intros text' H. unfold extractParamsFromText, extractOccasion.
    rewrite !extractOccasion_loop_first. unfold first_occasion. now rewrite H.
Qed.

Lemma extractParamsFromText_witness :
  OutfitParams.occasion (extractParamsFromText "Something for the beach") = "casual" /\
  extractParamsFromText "A GALA Evening" = extractParamsFromText "a gala evening".
Proof.
  destruct (extractParamsFromText_only_occasion_varies "Something for the beach")
    as (_ & _ & _ & _ & Hnone & _).
  destruct (extractParamsFromText_only_occasion_varies "a gala evening")
    as (_ & _ & _ & _ & _ & Hcase).
  split.
  - apply Hnone. intros keyword Hin. simpl in Hin.
    repeat (destruct Hin as [<-|Hin]; [vm_compute; reflexivity|]). destruct Hin.
  - apply Hcase. vm_compute. reflexivity.
Defined.

(** ** Conversation history *)

Lemma tail_app_drop (l : list Exchange.t) (n : nat) (e : Exchange.t) :
  n < length l -> tail (drop n l ++ [e]) = (drop (S n) l ++ [e])%list.
Proof.
  revert n. induction l as [|x l IH]; intros n Hn; simpl in Hn; [lia|].
  destruct n as [|n]; simpl.
  - now rewrite drop_0.
  - apply IH. lia.
Qed.

Lemma push_exchange_most_recent (l : list Exchange.t) (e : Exchange.t) :
  push_exchange (most_recent 10 l) e = most_recent 10 (l ++ [e]).
Proof.
  unfold push_exchange, most_recent.
  rewrite !length_app, length_drop. simpl.
  destruct (Nat.le_gt_cases 10 (length l)) as [Hl|Hl].
  - replace (length l - (length l - 10) + 1) with 11 by lia.
    simpl.
    replace (length l + 1 - 10) with (S (length l - 10)) by lia.
    rewrite (drop_app_le l [e] (S _)) by lia.
    apply tail_app_drop. lia.
  - replace (length l - 10) with 0 by lia.
    replace (length l + 1 - 10) with 0 by lia.
    rewrite !drop_0, Nat.sub_0_r.
    destruct (Nat.ltb_spec 10 (length l + 1)); [lia|reflexivity].
Qed.

Lemma push_exchange_cases (history : list Exchange.t) (exchange : Exchange.t) :
  push_exchange history exchange =
  if (length history <? 10)%nat then (history ++ [exchange])%list
  else drop 1 (history ++ [exchange]).
Proof.
  unfold push_exchange. rewrite length_app. simpl.
  destruct (Nat.ltb_spec 10 (length history + 1)), (Nat.ltb_spec (length history) 10);
    try lia; reflexivity.
Qed.

Lemma exchanges_of_app (userId : string) (updates : list (string * Exchange.t))
    (update : string * Exchange.t) :
  exchanges_of userId (updates ++ [update]) =
  (exchanges_of userId updates ++
   if String.eqb (fst update) userId then [snd update] else [])%list.
Proof.
  unfold exchanges_of. rewrite List.filter_app, map_app. simpl.
  destruct (String.eqb (fst update) userId); reflexivity.
Qed.

Lemma history_after_app (updates : list (string * Exchange.t)) (update : string * Exchange.t) :
  history_after (updates ++ [update]) =
  record_exchange (fst update) (snd update) (history_after updates).
Proof. unfold history_after, history_from. now rewrite fold_left_app. Qed.

(** The stored history of a user is the most recent ten of that user's
    exchanges, and the user has an entry exactly when there is one. *)
Lemma history_after_lookup (updates : list (string * Exchange.t)) (userId : string) :
  history_after updates !! userId =
  match exchanges_of userId updates with
  | [] => None
  | _ :: _ => Some (most_recent 10 (exchanges_of userId updates))
  end.
Proof.
  induction updates as [|[u e] updates IH] using rev_ind.
  - reflexivity.
  - rewrite history_after_app, exchanges_of_app. simpl.
    unfold record_exchange.
    destruct (String.eqb_spec u userId) as [->|Hne].
    + rewrite lookup_insert_eq, IH.
      destruct (exchanges_of userId updates) as [|x l] eqn:E.
      * reflexivity.
      * simpl default. rewrite push_exchange_most_recent. reflexivity.
    + rewrite lookup_insert_ne by exact Hne. rewrite IH, app_nil_r. reflexivity.
Qed.

Lemma update_all_history (calls : list (string * string * string)) (env : Env) (st : State) :
  conversationHistory (snd (update_all calls env st)) =
  history_from (conversationHistory st) (stamped env (clock_reads st) calls).
Proof.
  revert st. induction calls as [|[[userId userMessage] assistantMessage] calls IH];
    intros st; [reflexivity|].
  simpl update_all. unfold bind at 1.
  change (updateConversationHistory userId userMessage assistantMessage env st) with
    (@Fulfilled unit tt,
     mkState (ai_calls st) (S (clock_reads st)) (random_draws st) (kafka_sends st)
       (kafka_producer st) (telemetry st)
       (record_exchange userId
          (Exchange.mk userMessage assistantMessage (toISOString env (clock env (clock_reads st))))
          (conversationHistory st))).
  cbn iota beta. rewrite IH. reflexivity.
Qed.

Lemma history_after_most_recent (updates : list (string * Exchange.t)) (userId : string) :
  default [] (history_after updates !! userId) =
  most_recent 10 (exchanges_of userId updates).
Proof.
  rewrite history_after_lookup.
  destruct (exchanges_of userId updates); reflexivity.
Qed.

Lemma most_recent_length (n : nat) (l : list Exchange.t) :
  length (most_recent n l) <= n.
Proof. unfold most_recent. rewrite length_drop. lia. Qed.

(** C8. For every user id, after every update of the conversation history
    of a new assistant, the history stored for that user holds at most 10
    exchanges, the most recent 10 of that user: an update appends the new
    exchange to the user's history and, when that makes more than 10,
    removes the oldest entry only; the histories of other users are left
    alone. *)
Theorem conversation_history_keeps_last_ten :
  (forall (history : list Exchange.t) (exchange : Exchange.t),
     push_exchange history exchange =
     if (length history <? 10)%nat then (history ++ [exchange])%list
     else drop 1 (history ++ [exchange])) /\
  (forall (userId : string) (exchange : Exchange.t) (m : gmap string (list Exchange.t)),
     record_exchange userId exchange m !! userId =
       Some (push_exchange (default [] (m !! userId)) exchange) /\
     forall other : string, other <> userId ->
       record_exchange userId exchange m !! other = m !! other) /\
  (forall (env : Env) (st : State) (userId userMessage assistantMessage : string),
     fst (updateConversationHistory userId userMessage assistantMessage env st) = Fulfilled tt /\
     conversationHistory (snd (updateConversationHistory userId userMessage assistantMessage env st)) =
       record_exchange userId
         (Exchange.mk userMessage assistantMessage (toISOString env (clock env (clock_reads st))))
         (conversationHistory st)) /\
  (forall (updates : list (string * Exchange.t)) (userId : string),
     default [] (history_after updates !! userId) =
       most_recent 10 (exchanges_of userId updates) /\
     length (default [] (history_after updates !! userId)) <= 10) /\
  (forall (env : Env) (st : State) (calls : list (string * string * string)) (userId : string),
     conversationHistory st = ∅ ->
     default [] (conversationHistory (snd (update_all calls env st)) !! userId) =
       most_recent 10 (exchanges_of userId (stamped env (clock_reads st) calls)) /\
     length (default [] (conversationHistory (snd (update_all calls env st)) !! userId)) <= 10).
Proof.
  split; [exact push_exchange_cases|split; [|split; [|split]]].
  - intros userId exchange m. unfold record_exchange. split.
    + apply lookup_insert_eq.
    + intros other Hne. apply lookup_insert_ne. congruence.
  - intros env st userId userMessage assistantMessage. split; reflexivity.
  - intros updates userId. rewrite history_after_most_recent.
    split; [reflexivity|apply most_recent_length].
  - intros env st calls userId Hempty.
    rewrite update_all_history, Hempty.
    change (history_from ∅ ?u) with (history_after u).
    rewrite history_after_most_recent.
    split; [reflexivity|apply most_recent_length].
Qed.

Lemma conversation_history_witness :
  conversationHistory initial_state = ∅ /\
  length (default [] (conversationHistory (snd (update_all twelve_calls offline_env initial_state))
                        !! "user_456")) <= 10.
Proof.
  assert (H : conversationHistory initial_state = ∅) by reflexivity.
  split; [exact H|].
  exact (proj2 (proj2 (proj2 (proj2 (proj2 conversation_history_keeps_last_ten)))
                  offline_env initial_state twelve_calls "user_456" H)).
Defined.

Example twelve_calls_keep_ten :
  map Exchange.timestamp
    (default [] (conversationHistory (snd (update_all twelve_calls offline_env initial_state))
                   !! "user_456")) =
  map (fun n => pretty (1700000000000 + 40 * Z.of_nat n)%Z) (seq 2 10).
Proof. vm_compute. reflexivity. Qed.

(** ** The monad: telemetry *)

Ltac unfold_m :=
  cbv beta iota zeta delta
    [bind try_catch ret throw ask get put settle read read_parsed Date_now
     ai_generateContent streamLLMTelemetry add_telemetry].

Lemma silent_ret {A} (a : A) : silent (ret a).
Proof. intros env st. reflexivity. Qed.

Lemma silent_throw {A} (e : JsError.t) : silent (@throw A e).
Proof. intros env st. reflexivity. Qed.

Lemma silent_bind {A B} (m : M A) (k : A -> M B) :
  silent m -> (forall a, silent (k a)) -> silent (bind m k).
Proof.
  intros Hm Hk env st. unfold bind.
  specialize (Hm env st). destruct (m env st) as [[a|e] st1]; simpl in *.
  - now rewrite Hk.
  - exact Hm.
Qed.

Lemma silent_try_catch {A} (body : M A) (handler : JsError.t -> M A) :
  silent body -> (forall e, silent (handler e)) -> silent (try_catch body handler).
Proof.
  intros Hm Hk env st. unfold try_catch.
  specialize (Hm env st). destruct (body env st) as [[a|e] st1]; simpl in *.
  - exact Hm.
  - now rewrite Hk.
Qed.

Lemma silent_ask : silent ask.
Proof. intros env st. reflexivity. Qed.

Lemma silent_get : silent get.
Proof. intros env st. reflexivity. Qed.

Lemma silent_settle {A} (r : Settled A) : silent (settle r).
Proof. destruct r; intros env st; reflexivity. Qed.

Lemma silent_read {A} (o : option A) (prop : string) : silent (read o prop).
Proof. destruct o; intros env st; reflexivity. Qed.

Lemma silent_read_parsed {A} (o : option A) (prop : string) : silent (read_parsed o prop).
Proof. destruct o; intros env st; reflexivity. Qed.

Lemma silent_Date_now : silent Date_now.
Proof. intros env st. reflexivity. Qed.

Lemma silent_Math_random_base36 : silent Math_random_base36.
Proof. intros env st. reflexivity. Qed.

Lemma silent_ai_generateContent (request : GenerateContentParameters.t) :
  silent (ai_generateContent request).
Proof. intros env st. reflexivity. Qed.

Lemma silent_producer_send_message (message : ProducerRecord.t) :
  silent (producer_send_message message).
Proof. intros env st. reflexivity. Qed.

Lemma silent_updateConversationHistory (u a b : string) :
  silent (updateConversationHistory u a b).
Proof. intros env st. reflexivity. Qed.

Create HintDb silent.
#[local] Hint Resolve silent_ret silent_throw silent_ask silent_get silent_settle silent_read
  silent_read_parsed silent_Date_now silent_Math_random_base36 silent_ai_generateContent
  silent_producer_send_message silent_updateConversationHistory : silent.

Ltac silence :=
  repeat first
    [ progress intros
    | solve [auto with silent]
    | apply silent_bind
    | apply silent_try_catch
    | match goal with
      | |- silent (if ?c then _ else _) => destruct c
      | |- silent (match ?x with _ => _ end) => destruct x
      end ].

Lemma silent_generateFIBOOutfit (params : OutfitParams.t) : silent (generateFIBOOutfit params).
Proof.
  unfold generateFIBOOutfit, JSON_parse_as_FIBOOutfitSpec, fibo_structured_params_of.
  silence.
Qed.

Lemma silent_generateOutfitImage (spec : OutfitSpec.t) : silent (generateOutfitImage spec).
Proof. unfold generateOutfitImage, image_prompt. silence. Qed.

Lemma silent_produceUserInteraction (event : UserInteractionEvent.t) :
  silent (produceUserInteraction event).
Proof. unfold produceUserInteraction. silence. Qed.

Lemma silent_produceOutfitGeneration (event : OutfitGenerationEvent.t) :
  silent (produceOutfitGeneration event).
Proof. unfold produceOutfitGeneration. silence. Qed.

Lemma silent_voiceConversation (audio : Buffer) (userId : string) :
  silent (voiceConversation audio userId).
Proof.
  unfold voiceConversation, speechToText, getConversationContext, generateResponse, textToSpeech.
  silence.
Qed.

#[local] Hint Resolve silent_generateFIBOOutfit silent_generateOutfitImage
  silent_produceUserInteraction silent_produceOutfitGeneration silent_voiceConversation : silent.

Lemma silent_processVoiceInput (request : UnifiedRequest.t) (audio : Buffer)
    (requestId : string) (startTime : Z) :
  silent (processVoiceInput request audio requestId startTime).
Proof. unfold processVoiceInput. silence. Qed.

Lemma silent_processTextInput (request : UnifiedRequest.t) (requestId : string) (startTime : Z) :
  silent (processTextInput request requestId startTime).
Proof. unfold processTextInput. silence. Qed.

#[local] Hint Resolve silent_processVoiceInput silent_processTextInput : silent.

Lemma silent_quiet_failure {A} (m : M A) : silent m -> quiet_failure m.
Proof. intros H env st e st' E. specialize (H env st). now rewrite E in H. Qed.

Lemma quiet_failure_bind {A B} (m : M A) (k : A -> M B) :
  silent m -> (forall a, quiet_failure (k a)) -> quiet_failure (bind m k).
Proof.
  intros Hm Hk env st e st'. unfold bind.
  specialize (Hm env st). destruct (m env st) as [[a|e1] st1]; simpl in Hm.
  - intros E. rewrite (Hk a env st1 e st' E). exact Hm.
  - intros [= <- <-]. exact Hm.
Qed.

Lemma streamLLMTelemetry_run (data : GenerationTelemetry.t) (env : Env) (st : State) :
  exists st',
    streamLLMTelemetry data env st = (Fulfilled tt, st') /\
    telemetry st' = (telemetry st ++ [data])%list.
Proof.
  unfold_m. destruct (datadog_enabled env); eexists; split; reflexivity.
Qed.

(** Forwarding a record and returning cannot fail. *)
Lemma quiet_failure_forward {A} (data : GenerationTelemetry.t) (a : A) :
  quiet_failure (streamLLMTelemetry data ;; ret a).
Proof.
  intros env st e st'. unfold bind at 1.
  destruct (streamLLMTelemetry_run data env st) as (st1 & -> & _).
  discriminate.
Qed.

Lemma generateRequestId_run (env : Env) (st : State) :
  exists requestId st',
    generateRequestId env st = (Fulfilled requestId, st') /\ telemetry st' = telemetry st.
Proof. eexists. eexists. split; reflexivity. Qed.

(** A request that fails has forwarded exactly one record, the error record. *)
Lemma processUserRequest_rejected (request : UnifiedRequest.t) (env : Env) (st : State)
    (e : JsError.t) (st' : State) :
  processUserRequest request env st = (Rejected e, st') ->
  exists processingTime,
    telemetry st' = (telemetry st ++ [errorTelemetry request processingTime])%list.
Proof.
  unfold processUserRequest. unfold bind at 1.
  change (Date_now env st) with
    (Fulfilled (clock env (clock_reads st)),
     mkState (ai_calls st) (S (clock_reads st)) (random_draws st) (kafka_sends st)
             (kafka_producer st) (telemetry st) (conversationHistory st)).
  cbn iota beta. set (st1 := mkState _ _ _ _ _ _ _).
  unfold bind at 1.
  destruct (generateRequestId_run env st1) as (requestId & st2 & -> & Hst2).
  cbn iota beta. unfold try_catch.
  match goal with |- context [let (_, _) := ?body env st2 in _] =>
    assert (Hquiet : quiet_failure body); [|destruct (body env st2) as [[result|e1] st3] eqn:Ebody]
  end.
  - apply quiet_failure_bind; [auto with silent|intros now].
    apply quiet_failure_bind; [auto with silent|intros env0].
    apply quiet_failure_bind; [auto with silent|intros _].
    apply quiet_failure_bind; [destruct (UnifiedRequest.input_type request),
      (UnifiedRequest.input request); auto with silent|intros result].
    apply quiet_failure_bind; [silence|intros _].
    apply quiet_failure_forward.
  - discriminate.
  - apply Hquiet in Ebody.
    unfold bind at 1.
    change (Date_now env st3) with
      (Fulfilled (clock env (clock_reads st3)),
       mkState (ai_calls st3) (S (clock_reads st3)) (random_draws st3) (kafka_sends st3)
               (kafka_producer st3) (telemetry st3) (conversationHistory st3)).
    cbn iota beta. unfold bind at 1.
    match goal with |- context [streamLLMTelemetry ?d env ?s] =>
      destruct (streamLLMTelemetry_run d env s) as (st4 & -> & Hst4) end.
    cbn iota beta. unfold throw. intros [= <- <-].
    eexists. rewrite Hst4. cbn [telemetry]. rewrite Ebody, Hst2. reflexivity.
Qed.

(** ** Specification generation *)

Lemma length_append (a b : string) :
  String.length (a +:+ b) = (String.length a + String.length b)%nat.
Proof. induction a as [|c a IH]; simpl; [reflexivity|]. now rewrite IH. Qed.

Lemma length_quoted (s : string) :
  String.length (JsString.quoted s) = S (S (String.length s)).
Proof. unfold JsString.quoted. rewrite !length_append. simpl. lia. Qed.

Lemma outfit_prompt_length (params : OutfitParams.t) :
  String.length (outfit_prompt params) =
  (755 + String.length (OutfitParams.occasion params)
       + String.length (OutfitParams.weather params)
       + String.length (OutfitParams.mood params)
       + String.length (OutfitParams.style params))%nat.
Proof.
  unfold outfit_prompt.
  rewrite !length_append, !length_quoted.
  cbn [String.length].
  lia.
Qed.

(** The prompt alone is estimated at 189 tokens or more. *)
Lemma outfit_prompt_tokens (params : OutfitParams.t) :
  (189 <= token_estimate (outfit_prompt params))%Z.
Proof.
  unfold token_estimate, JsNumber.Math_ceil_div, CHARS_PER_TOKEN.
  rewrite outfit_prompt_length.
  assert (H : (- Z.of_nat (755 + String.length (OutfitParams.occasion params)
                 + String.length (OutfitParams.weather params)
                 + String.length (OutfitParams.mood params)
                 + String.length (OutfitParams.style params)) / 4 < -188)%Z).
  { apply Z.div_lt_upper_bound; lia. }
  lia.
Qed.

Lemma truthy_nonempty (s : string) : JsString.truthy s = true <-> s <> "".
Proof.
  unfold JsString.truthy. destruct (String.eqb_spec s ""); simpl; split; congruence.
Qed.

Lemma no_text_has_text (response : GenerateContentResponse.t) :
  no_text response <-> has_text (GenerateContentResponse.text response) = false.
Proof.
  unfold no_text, has_text.
  destruct (GenerateContentResponse.text response) as [text|].
  - unfold JsString.truthy. destruct (String.eqb_spec text "") as [->|Hne]; simpl.
    + split; [reflexivity|now right].
    + split; [intros [H|H]; congruence|discriminate].
  - split; [reflexivity|now left].
Qed.

(** One run of generateOutfitSpecification: its answer, and the one record
    it hands to the sink. *)
Lemma generateOutfitSpecification_run (params : OutfitParams.t) (env : Env) (st : State) :
  exists record st',
    generateOutfitSpecification params env st =
      (specification_outcome env (ai_calls st) params, st') /\
    telemetry st' = (telemetry st ++ [record])%list /\
    GenerationTelemetry.input_tokens record = token_estimate (outfit_prompt params) /\
    GenerationTelemetry.success record =
      match specification_outcome env (ai_calls st) params with
      | Fulfilled _ => true
      | Rejected _ => false
      end /\
    (GenerationTelemetry.success record = false ->
     GenerationTelemetry.output_tokens record = 0%Z).
Proof.
  unfold generateOutfitSpecification, specification_outcome, has_text,
    JSON_parse_as_OutfitSpec.
  unfold_m. cbn [ai_calls clock_reads telemetry fst snd].
  fold (outfit_request params).
  destruct (generateContent env (ai_calls st) (outfit_request params)) as [response|e].
  - destruct (GenerateContentResponse.text response) as [text|].
    + destruct (JsString.truthy text).
      * cbn [default from_option id].
        destruct (JSON_null_literal text).
        -- destruct (datadog_enabled env); cbn;
             (eexists; eexists; split; [reflexivity|]; cbn; repeat split; reflexivity).
        -- destruct (JSON_parse_OutfitSpec env text) as [spec|e].
           ++ destruct (datadog_enabled env); cbn;
                (eexists; eexists; split; [reflexivity|]; cbn; repeat split; discriminate).
           ++ destruct (datadog_enabled env); cbn;
                (eexists; eexists; split; [reflexivity|]; cbn; repeat split; reflexivity).
      * destruct (datadog_enabled env); cbn;
          (eexists; eexists; split; [reflexivity|]; cbn; repeat split; reflexivity).
    + destruct (datadog_enabled env); cbn;
        (eexists; eexists; split; [reflexivity|]; cbn; repeat split; reflexivity).
  - destruct (datadog_enabled env); cbn;
      (eexists; eexists; split; [reflexivity|]; cbn; repeat split; reflexivity).
Qed.

Lemma generateOutfitSpecification_outcome (params : OutfitParams.t) (env : Env) (st : State) :
  fst (generateOutfitSpecification params env st) =
  specification_outcome env (ai_calls st) params.
Proof.
  destruct (generateOutfitSpecification_run params env st) as (record & st' & -> & _).
  reflexivity.
Qed.

(** C2 (as amended). generateOutfitSpecification fails when the model call
    rejects, when the response has no text and when the text does not
    parse; whenever it fails it has forwarded exactly one telemetry record,
    with success false and output_tokens 0, whose input_tokens is the
    estimate for the prompt, at least 189 and never 0.  Whenever
    processUserRequest fails, it has forwarded exactly one record, with
    input_tokens 0, output_tokens 0 and success false. *)
Theorem failed_generation_telemetry :
  (forall (env : Env) (st : State) (params : OutfitParams.t),
     fst (generateOutfitSpecification params env st) =
       specification_outcome env (ai_calls st) params) /\
  (forall (env : Env) (st : State) (params : OutfitParams.t) (e : JsError.t) (st' : State),
     generateOutfitSpecification params env st = (Rejected e, st') ->
     exists record : GenerationTelemetry.t,
       telemetry st' = (telemetry st ++ [record])%list /\
       GenerationTelemetry.input_tokens record = token_estimate (outfit_prompt params) /\
       (189 <= GenerationTelemetry.input_tokens record)%Z /\
       GenerationTelemetry.output_tokens record = 0%Z /\
       GenerationTelemetry.success record = false) /\
  (forall (env : Env) (st : State) (request : UnifiedRequest.t) (e : JsError.t) (st' : State),
     processUserRequest request env st = (Rejected e, st') ->
     exists record : GenerationTelemetry.t,
       telemetry st' = (telemetry st ++ [record])%list /\
       GenerationTelemetry.input_tokens record = 0%Z /\
       GenerationTelemetry.output_tokens record = 0%Z /\
       GenerationTelemetry.success record = false).
Proof.
  split; [|split].
  - intros env st params. apply generateOutfitSpecification_outcome.
  - intros env st params e st' Hrun.
    destruct (generateOutfitSpecification_run params env st)
      as (record & st1 & Hrun1 & Htel & Hin & Hsucc & Hout).
    rewrite Hrun in Hrun1. injection Hrun1 as Hres <-.
    rewrite <- Hres in Hsucc.
    exists record. repeat split; auto.
    rewrite Hin. apply outfit_prompt_tokens.
  - intros env st request e st' Hrun.
    destruct (processUserRequest_rejected request env st e st' Hrun) as (ms & Htel).
    exists (errorTelemetry request ms). repeat split. exact Htel.
Qed.

(** C2 as stated fails: with the model unreachable, the one record forwarded
    by generateOutfitSpecification has input_tokens 201. *)
Lemma failed_specification_counts_prompt_tokens :
  fst (generateOutfitSpecification gala_params offline_env initial_state) =
    Rejected (JsError.mk "TypeError" "fetch failed") /\
  map GenerationTelemetry.input_tokens
    (telemetry (snd (generateOutfitSpecification gala_params offline_env initial_state))) =
    [201%Z] /\
  map GenerationTelemetry.success
    (telemetry (snd (generateOutfitSpecification gala_params offline_env initial_state))) =
    [false].
Proof. vm_compute. repeat split; reflexivity. Qed.

Lemma failed_generation_telemetry_witness :
  (exists record : GenerationTelemetry.t,
     telemetry (snd (generateOutfitSpecification gala_params offline_env initial_state)) =
       (telemetry initial_state ++ [record])%list /\
     GenerationTelemetry.input_tokens record = token_estimate (outfit_prompt gala_params) /\
     (189 <= GenerationTelemetry.input_tokens record)%Z /\
     GenerationTelemetry.output_tokens record = 0%Z /\
     GenerationTelemetry.success record = false) /\
  (exists record : GenerationTelemetry.t,
     telemetry (snd (processUserRequest text_request offline_env initial_state)) =
       (telemetry initial_state ++ [record])%list /\
     GenerationTelemetry.input_tokens record = 0%Z /\
     GenerationTelemetry.output_tokens record = 0%Z /\
     GenerationTelemetry.success record = false).
Proof.
  split.
  - apply (proj1 (proj2 failed_generation_telemetry) offline_env initial_state gala_params
             (JsError.mk "TypeError" "fetch failed")).
    vm_compute. reflexivity.
  - apply (proj2 (proj2 failed_generation_telemetry) offline_env initial_state text_request
             (JsError.mk "TypeError" "fetch failed")).
    vm_compute. reflexivity.
Defined.

(** C5 (as amended). A call of generateOutfitSpecification that succeeds
    returns the value that JSON.parse made of the model's text, as it is:
    the text is not empty and does not parse to null, and nothing is
    validated, so the result has a non-empty texture_layers and two valid
    hex colours only if the model's JSON has them. *)
Theorem successful_specification_is_parsed_text
    (env : Env) (st : State) (params : OutfitParams.t) (spec : OutfitSpec.t) :
  fst (generateOutfitSpecification params env st) = Fulfilled spec ->
  exists (response : GenerateContentResponse.t) (text : string),
    generateContent env (ai_calls st) (outfit_request params) = Fulfilled response /\
    GenerateContentResponse.text response = Some text /\
    text <> "" /\
    JSON_null_literal text = false /\
    JSON_parse_OutfitSpec env text = Fulfilled spec.
Proof.
  rewrite generateOutfitSpecification_outcome. unfold specification_outcome.
  destruct (generateContent env (ai_calls st) (outfit_request params)) as [response|e];
    [|discriminate].
  destruct (GenerateContentResponse.text response) as [text|] eqn:Etext; [|discriminate].
  destruct (JsString.truthy text) eqn:Etruthy; [|discriminate].
  destruct (JSON_null_literal text) eqn:Enull; [discriminate|].
  intros Hparse. apply truthy_nonempty in Etruthy.
  exists response, text. auto.
Qed.

Lemma successful_specification_is_parsed_text_witness :
  exists (response : GenerateContentResponse.t) (text : string),
    generateContent colour_names_env (ai_calls initial_state) (outfit_request gala_params) =
      Fulfilled response /\
    GenerateContentResponse.text response = Some text /\
    text <> "" /\
    JSON_null_literal text = false /\
    JSON_parse_OutfitSpec colour_names_env text = Fulfilled colour_names_spec.
Proof.
  apply (successful_specification_is_parsed_text colour_names_env initial_state gala_params).
  vm_compute. reflexivity.
Defined.

(** C5 as stated fails: a response with no texture layer and colour names
    instead of hex codes is returned as a successful specification. *)
Lemma unvalidated_specification_returned :
  fst (generateOutfitSpecification gala_params colour_names_env initial_state) =
    Fulfilled colour_names_spec /\
  schema_conformant colour_names_spec = false.
Proof. vm_compute. split; reflexivity. Qed.

Lemma generateFIBOOutfit_outcome (params : OutfitParams.t) (env : Env) (st : State) :
  fst (generateFIBOOutfit params env st) =
  match generateContent env (ai_calls st) (fibo_request params) with
  | Rejected e => Rejected e
  | Fulfilled response =>
      if has_text (GenerateContentResponse.text response) then
        let text := default "" (GenerateContentResponse.text response) in
        if JSON_null_literal text then Rejected (JsError.null_read "camera")
        else
          match JSON_parse_FIBOOutfitSpec env text with
          | Rejected e => Rejected e
          | Fulfilled spec =>
              fst ((let* fibo_structured_params := fibo_structured_params_of spec in
                    ret (FIBOOutfitSpec.set_fibo_structured_params spec
                           fibo_structured_params))
                     env st)
          end
      else Rejected (JsError.Error "No JSON returned from FIBO engine")
  end.
Proof.
  unfold generateFIBOOutfit, JSON_parse_as_FIBOOutfitSpec, fibo_structured_params_of.
  unfold_m. cbn [ai_calls fst snd]. fold (fibo_request params).
  destruct (generateContent env (ai_calls st) (fibo_request params)) as [response|e];
    [|reflexivity].
  destruct (has_text (GenerateContentResponse.text response)); [|reflexivity].
  cbv zeta. destruct (JSON_null_literal _); [reflexivity|].
  destruct (JSON_parse_FIBOOutfitSpec env _) as [spec|e]; [|reflexivity].
  destruct (FIBOOutfitSpec.camera spec); [|reflexivity].
  destruct (FIBOOutfitSpec.style_parameters spec); [|reflexivity].
  destruct (FIBOOutfitSpec.texture_layers spec); [|reflexivity].
  destruct (FIBOOutfitSpec.color_scheme spec) as [scheme|]; [|reflexivity].
  destruct (ColorScheme.primary scheme); [|reflexivity].
  destruct (ColorScheme.accent scheme); reflexivity.
Qed.

(** C7 (as amended). When the response text of a specification-generation
    call is missing or empty, the call fails rather than returning a
    specification: generateOutfitSpecification raises an Error whose message
    is "No JSON returned", generateFIBOOutfit one whose message is
    "No JSON returned from FIBO engine". *)
Theorem empty_response_is_rejected :
  (forall (env : Env) (st : State) (params : OutfitParams.t)
          (response : GenerateContentResponse.t),
     generateContent env (ai_calls st) (outfit_request params) = Fulfilled response ->
     no_text response ->
     fst (generateOutfitSpecification params env st) =
       Rejected (JsError.Error "No JSON returned")) /\
  (forall (env : Env) (st : State) (params : OutfitParams.t)
          (response : GenerateContentResponse.t),
     generateContent env (ai_calls st) (fibo_request params) = Fulfilled response ->
     no_text response ->
     fst (generateFIBOOutfit params env st) =
       Rejected (JsError.Error "No JSON returned from FIBO engine")).
Proof.
  split; intros env st params response Hresponse Hno.
  - rewrite generateOutfitSpecification_outcome. unfold specification_outcome.
    rewrite Hresponse. apply no_text_has_text in Hno. unfold has_text in Hno.
    destruct (GenerateContentResponse.text response); [|reflexivity].
    now rewrite Hno.
  - rewrite generateFIBOOutfit_outcome, Hresponse.
    apply no_text_has_text in Hno. now rewrite Hno.
Qed.

(** C7 as stated fails: neither message is "no JSON returned". *)
Lemma empty_response_message_differs :
  fst (generateOutfitSpecification gala_params silent_model_env initial_state) =
    Rejected (JsError.mk "Error" "No JSON returned") /\
  fst (generateFIBOOutfit gala_params silent_model_env initial_state) =
    Rejected (JsError.mk "Error" "No JSON returned from FIBO engine") /\
  "No JSON returned" <> "no JSON returned" /\
  "No JSON returned from FIBO engine" <> "no JSON returned".
Proof. repeat split; try (vm_compute; reflexivity); discriminate. Qed.

Lemma empty_response_is_rejected_witness :
  fst (generateOutfitSpecification gala_params silent_model_env initial_state) =
    Rejected (JsError.Error "No JSON returned") /\
  fst (generateFIBOOutfit gala_params silent_model_env initial_state) =
    Rejected (JsError.Error "No JSON returned from FIBO engine").
Proof.
  split.
  - apply (proj1 empty_response_is_rejected silent_model_env initial_state gala_params
             (GenerateContentResponse.mk None None)); [reflexivity|now left].
  - apply (proj2 empty_response_is_rejected silent_model_env initial_state gala_params
             (GenerateContentResponse.mk None None)); [reflexivity|now left].
Defined.

(** ** Running the monad *)

Lemma bind_fulfilled {A B} (m : M A) (k : A -> M B) (env : Env) (st st' : State) (a : A) :
  m env st = (Fulfilled a, st') -> bind m k env st = k a env st'.
Proof. intros H. unfold bind. now rewrite H. Qed.

Lemma bind_rejected {A B} (m : M A) (k : A -> M B) (env : Env) (st st' : State)
    (e : JsError.t) :
  m env st = (Rejected e, st') -> bind m k env st = (Rejected e, st').
Proof. intros H. unfold bind. now rewrite H. Qed.

Lemma try_catch_fulfilled {A} (body : M A) (handler : JsError.t -> M A) (env : Env)
    (st st' : State) (a : A) :
  body env st = (Fulfilled a, st') -> try_catch body handler env st = (Fulfilled a, st').
Proof. intros H. unfold try_catch. now rewrite H. Qed.

Lemma try_catch_rejected {A} (body : M A) (handler : JsError.t -> M A) (env : Env)
    (st st' : State) (e : JsError.t) :
  body env st = (Rejected e, st') -> try_catch body handler env st = handler e env st'.
Proof. intros H. unfold try_catch. now rewrite H. Qed.

Lemma advance_1 (st : State) :
  advance 1 st =
  mkState (S (ai_calls st)) (clock_reads st) (random_draws st) (kafka_sends st)
          (kafka_producer st) (telemetry st) (conversationHistory st).
Proof. unfold advance. f_equal. lia. Qed.

(** ** Image generation *)

Lemma image_prompt_ready (spec : OutfitSpec.t) (env : Env) (st : State) :
  image_ready spec = true ->
  exists imagePrompt : string, image_prompt spec env st = (Fulfilled imagePrompt, st).
Proof.
  unfold image_ready, image_prompt. intros H.
  destruct (OutfitSpec.camera spec); [|discriminate].
  destruct (OutfitSpec.texture_layers spec); [|discriminate].
  destruct (OutfitSpec.color_scheme spec) as [scheme|]; [|discriminate].
  destruct (ColorScheme.primary scheme) eqn:Ep; [|discriminate].
  destruct (ColorScheme.accent scheme) eqn:Ea; [|discriminate].
  unfold_m. rewrite Ep, Ea. eexists. reflexivity.
Qed.

Lemma image_prompt_not_ready (spec : OutfitSpec.t) (env : Env) (st : State) :
  image_ready spec = false ->
  exists prop : string,
    In prop ["lighting"; "map"; "primary"; "hex"] /\
    image_prompt spec env st = (Rejected (JsError.undefined_read prop), st).
Proof.
  unfold image_ready, image_prompt. intros H.
  destruct (OutfitSpec.camera spec); [|exists "lighting"; simpl; auto].
  destruct (OutfitSpec.texture_layers spec); [|exists "map"; simpl; auto].
  destruct (OutfitSpec.color_scheme spec) as [scheme|]; [|exists "primary"; simpl; auto].
  destruct (ColorScheme.primary scheme) eqn:Ep;
    [|exists "hex"; simpl; split; [auto|unfold_m; now rewrite Ep]].
  destruct (ColorScheme.accent scheme) eqn:Ea; [discriminate|].
  exists "hex". simpl; split; [auto|]. unfold_m. now rewrite Ep, Ea.
Qed.

(** The prompt is read off the specification alone. *)
Lemma image_prompt_pure (spec : OutfitSpec.t) (env env' : Env) (st st' : State) :
  image_prompt spec env st = (fst (image_prompt spec env' st'), st).
Proof.
  unfold image_prompt.
  destruct (OutfitSpec.camera spec); [|reflexivity].
  destruct (OutfitSpec.texture_layers spec); [|reflexivity].
  destruct (OutfitSpec.color_scheme spec) as [scheme|]; [|reflexivity].
  unfold_m.
  destruct (ColorScheme.primary scheme); [|reflexivity].
  destruct (ColorScheme.accent scheme); reflexivity.
Qed.

(** When the prompt cannot be built, the image step raises the error of the
    builder and the model is not called. *)
Lemma generateOutfitImage_prompt_fails (spec : OutfitSpec.t) (env : Env) (st : State)
    (e : JsError.t) :
  image_prompt spec env st = (Rejected e, st) ->
  generateOutfitImage spec env st = (Rejected e, st).
Proof. intros Hprompt. unfold generateOutfitImage. now apply bind_rejected. Qed.

(** Once the prompt is built, the image step issues one call of the model
    and answers a string. *)
Lemma generateOutfitImage_run (spec : OutfitSpec.t) (env : Env) (st : State)
    (imagePrompt : string) :
  image_prompt spec env st = (Fulfilled imagePrompt, st) ->
  generateOutfitImage spec env st =
  (Fulfilled (image_of (generateContent env (ai_calls st) (image_request imagePrompt))),
   advance 1 st).
Proof.
  intros Hprompt. unfold generateOutfitImage.
  rewrite (bind_fulfilled _ _ _ _ _ _ Hprompt), advance_1.
  unfold try_catch, bind, ai_generateContent, image_of. fold (image_request imagePrompt).
  destruct (generateContent env (ai_calls st) (image_request imagePrompt)) as [response|e];
    [|reflexivity].
  destruct (first_inlineData (response_parts response)); reflexivity.
Qed.

(** Every value of the declared interface holds the objects that the prompt
    reads. *)
Lemma declared_image_ready (spec : Declared.OutfitSpec) :
  image_ready (Declared.runtime spec) = true.
Proof. reflexivity. Qed.

(** C3 (as amended). For every OutfitSpec that holds camera, texture_layers,
    color_scheme and its primary and accent colours, and for every behaviour
    of the model call, generateOutfitImage returns a string and propagates
    no error: the data URL of the first inline image of the response, and
    the fixed placeholder URL when the call rejects or the response holds no
    inline image data.  For an OutfitSpec that lacks one of these objects it
    propagates the TypeError of the prompt builder, which runs before the
    [try] block, and the model is not called. *)
Theorem generateOutfitImage_returns_unless_prompt_fails
    (env : Env) (st : State) (spec : OutfitSpec.t) :
  (image_ready spec = true ->
   exists imagePrompt : string,
     fst (image_prompt spec env st) = Fulfilled imagePrompt /\
     generateOutfitImage spec env st =
       (Fulfilled (image_of (generateContent env (ai_calls st) (image_request imagePrompt))),
        advance 1 st) /\
     (forall e : JsError.t,
        generateContent env (ai_calls st) (image_request imagePrompt) = Rejected e ->
        fst (generateOutfitImage spec env st) = Fulfilled placeholder_image) /\
     (forall response : GenerateContentResponse.t,
        generateContent env (ai_calls st) (image_request imagePrompt) = Fulfilled response ->
        first_inlineData (response_parts response) = None ->
        fst (generateOutfitImage spec env st) = Fulfilled placeholder_image)) /\
  (image_ready spec = false ->
   exists prop : string,
     In prop ["lighting"; "map"; "primary"; "hex"] /\
     generateOutfitImage spec env st = (Rejected (JsError.undefined_read prop), st)).
Proof.
  split; intros Hready.
  - destruct (image_prompt_ready spec env st Hready) as (imagePrompt & Hprompt).
    exists imagePrompt.
    pose proof (generateOutfitImage_run spec env st imagePrompt Hprompt) as Hrun.
    split; [now rewrite Hprompt|]. split; [exact Hrun|]. split.
    + intros e He. rewrite Hrun, He. reflexivity.
    + intros response Hresponse Hnone. rewrite Hrun, Hresponse. simpl. now rewrite Hnone.
  - destruct (image_prompt_not_ready spec env st Hready) as (prop & Hin & Hprompt).
    exists prop. split; [exact Hin|].
    unfold generateOutfitImage. now rewrite (bind_rejected _ _ _ _ _ _ Hprompt).
Qed.

Lemma generateOutfitImage_returns_unless_prompt_fails_witness :
  fst (generateOutfitImage (Declared.runtime declared_gown) offline_env initial_state) =
    Fulfilled placeholder_image /\
  exists prop : string,
    In prop ["lighting"; "map"; "primary"; "hex"] /\
    generateOutfitImage description_only_spec offline_env initial_state =
      (Rejected (JsError.undefined_read prop), initial_state).
Proof.
  split.
  - destruct (proj1 (generateOutfitImage_returns_unless_prompt_fails offline_env initial_state
                       (Declared.runtime declared_gown))
                    (declared_image_ready declared_gown))
      as (imagePrompt & _ & _ & Hrejected & _).
    apply (Hrejected (JsError.mk "TypeError" "fetch failed")). reflexivity.
  - apply (proj2 (generateOutfitImage_returns_unless_prompt_fails offline_env initial_state
                    description_only_spec)).
    reflexivity.
Defined.

(** C3 as stated fails: the model answers the specification request with a
    JSON object that holds a description and nothing else, which the schema
    allows; generateOutfitSpecification returns it, and generateOutfitImage
    on it raises a TypeError to its caller. *)
Lemma generateOutfitImage_propagates_TypeError :
  fst (generateOutfitSpecification gala_params description_only_env initial_state) =
    Fulfilled description_only_spec /\
  fst (generateOutfitImage description_only_spec description_only_env initial_state) =
    Rejected (JsError.mk "TypeError" "Cannot read properties of undefined (reading 'lighting')").
Proof. vm_compute. split; reflexivity. Qed.

(** ** Batch generation *)

Lemma advance_0 (st : State) : advance 0 st = st.
Proof. destruct st. unfold advance. simpl. f_equal. lia. Qed.

Lemma advance_advance (n m : nat) (st : State) :
  advance n (advance m st) = advance (m + n) st.
Proof. unfold advance. simpl. f_equal. lia. Qed.

(** A generation issues one call of the model and touches nothing else; its
    result depends on the state through the number of that call only. *)
Lemma generateFIBOOutfit_run (params : OutfitParams.t) (env : Env) (st : State) :
  generateFIBOOutfit params env st =
  (generation_result env (ai_calls st) params, advance 1 st).
Proof.
  unfold generation_result, generateFIBOOutfit, JSON_parse_as_FIBOOutfitSpec,
    fibo_structured_params_of, advance.
  unfold_m.
  cbn [ai_calls clock_reads random_draws kafka_sends kafka_producer telemetry
       conversationHistory fst snd].
  replace (ai_calls st + 1) with (S (ai_calls st)) by lia.
  destruct (generateContent env (ai_calls st) _) as [response|e]; [|reflexivity].
  destruct (has_text (GenerateContentResponse.text response)); [|reflexivity].
  destruct (JSON_null_literal _); [reflexivity|].
  destruct (JSON_parse_FIBOOutfitSpec env _) as [spec|e]; [|reflexivity].
  destruct (FIBOOutfitSpec.camera spec); [|reflexivity].
  destruct (FIBOOutfitSpec.style_parameters spec); [|reflexivity].
  destruct (FIBOOutfitSpec.texture_layers spec); [|reflexivity].
  destruct (FIBOOutfitSpec.color_scheme spec) as [scheme|]; [|reflexivity].
  destruct (ColorScheme.primary scheme); [|reflexivity].
  destruct (ColorScheme.accent scheme); reflexivity.
Qed.

Lemma Promise_all_generateFIBOOutfit (batch : list OutfitParams.t) (env : Env) (st : State) :
  Promise_all (map generateFIBOOutfit batch) env st =
  (all_fulfilled (generation_results env (ai_calls st) batch), advance (length batch) st).
Proof.
  revert st. induction batch as [|params batch IH]; intros st; simpl.
  - now rewrite advance_0.
  - rewrite generateFIBOOutfit_run, IH, advance_advance. simpl.
    replace (ai_calls st + 1) with (S (ai_calls st)) by lia.
    destruct (generation_result env (ai_calls st) params),
      (all_fulfilled (generation_results env (S (ai_calls st)) batch)); reflexivity.
Qed.

Lemma generateFIBOBatch_loop_batches (paramsArray : list OutfitParams.t) (i : nat)
    (results : list FIBOOutfitSpec.t) (env : Env) (st : State) :
  generateFIBOBatch_loop paramsArray i results env st =
  run_batches (batches paramsArray i) results env st.
Proof.
  remember (length paramsArray - i) as n eqn:Hn.
  revert i results st Hn.
  induction n as [n IH] using lt_wf_ind. intros i results st Hn.
  rewrite generateFIBOBatch_loop_equation_1, batches_equation_1.
  destruct (lt_dec i (length paramsArray)) as [Hlt|Hge]; simpl; [|reflexivity].
  unfold bind.
  destruct (Promise_all _ env st) as [[batchResults|e] st1]; [|reflexivity].
  apply (IH (length paramsArray - (i + batchSize))); [unfold batchSize; lia|reflexivity].
Qed.

(** The k-th chunk from index [i] on is the slice of three that starts at
    [i + 3 k], as long as that index is in the array. *)
Lemma batches_lookup (paramsArray : list OutfitParams.t) (k i : nat) :
  batches paramsArray i !! k =
  if decide (i + 3 * k < length paramsArray)
  then Some (take 3 (drop (i + 3 * k) paramsArray))
  else None.
Proof.
  revert i. induction k as [|k IH]; intros i; rewrite batches_equation_1;
    destruct (lt_dec i (length paramsArray)) as [Hlt|Hge]; simpl.
  - rewrite Nat.add_0_r. rewrite decide_True by lia.
    unfold slice, batchSize. do 3 f_equal. lia.
  - rewrite decide_False by lia. reflexivity.
  - rewrite IH. unfold batchSize.
    replace (i + 3 + 3 * k) with (i + 3 * S k) by lia. reflexivity.
  - rewrite decide_False by lia. reflexivity.
Qed.

Lemma batches_concat (paramsArray : list OutfitParams.t) (i : nat) :
  concat (batches paramsArray i) = drop i paramsArray.
Proof.
  remember (length paramsArray - i) as n eqn:Hn.
  revert i Hn. induction n as [n IH] using lt_wf_ind. intros i Hn.
  rewrite batches_equation_1.
  destruct (lt_dec i (length paramsArray)) as [Hlt|Hge]; simpl.
  - rewrite (IH (length paramsArray - (i + batchSize))) by (unfold batchSize; lia).
    unfold slice, batchSize. replace (i + 3 - i) with 3 by lia.
    rewrite <- (drop_drop paramsArray 3 i). apply take_drop.
  - symmetry. apply drop_ge. lia.
Qed.

Lemma generation_results_app (env : Env) (call : nat) (a b : list OutfitParams.t) :
  generation_results env call (a ++ b) =
  (generation_results env call a ++ generation_results env (call + length a) b)%list.
Proof.
  revert call. induction a as [|p a IH]; intros call; simpl.
  - now rewrite Nat.add_0_r.
  - rewrite IH. do 3 f_equal. lia.
Qed.

Lemma all_fulfilled_app {A} (a b : list (Settled A)) (l : list A) :
  all_fulfilled (a ++ b) = Fulfilled l ->
  exists la lb, all_fulfilled a = Fulfilled la /\ all_fulfilled b = Fulfilled lb /\
                l = (la ++ lb)%list.
Proof.
  revert l. induction a as [|r a IH]; intros l; simpl.
  - intros H. exists [], l. auto.
  - destruct r as [x|e]; [|discriminate].
    destruct (all_fulfilled (a ++ b)) as [l'|e] eqn:E; [|discriminate].
    intros [= <-]. destruct (IH l' eq_refl) as (la & lb & -> & Hb & ->).
    exists (x :: la), lb. auto.
Qed.

Lemma run_batches_fulfilled (chunks : list (list OutfitParams.t))
    (results rest : list FIBOOutfitSpec.t) (env : Env) (st : State) :
  all_fulfilled (generation_results env (ai_calls st) (concat chunks)) = Fulfilled rest ->
  run_batches chunks results env st =
  (Fulfilled (results ++ rest)%list, advance (length (concat chunks)) st).
Proof.
  revert results rest st. induction chunks as [|batch chunks IH]; intros results rest st; simpl.
  - intros [= <-]. now rewrite app_nil_r, advance_0.
  - rewrite generation_results_app. intros H.
    apply all_fulfilled_app in H. destruct H as (la & lb & Ha & Hb & ->).
    unfold bind. rewrite Promise_all_generateFIBOOutfit, Ha.
    rewrite (IH (results ++ la)%list lb).
    + rewrite advance_advance, length_app, app_assoc. reflexivity.
    + exact Hb.
Qed.

Lemma all_fulfilled_lookup {A} (l : list (Settled A)) (values : list A) :
  all_fulfilled l = Fulfilled values <-> l = map Fulfilled values.
Proof.
  revert values. induction l as [|r l IH]; intros values; simpl.
  - split.
    + intros [= <-]. reflexivity.
    + destruct values; [reflexivity|discriminate].
  - destruct r as [x|e].
    + destruct (all_fulfilled l) as [l'|e] eqn:E.
      * split.
        -- intros [= <-]. simpl. f_equal. now apply IH.
        -- destruct values as [|v values]; [discriminate|]. simpl. intros [= -> H].
           apply IH in H. injection H as <-. reflexivity.
      * split; [discriminate|].
        destruct values as [|v values]; [discriminate|]. simpl. intros [= -> H].
        apply IH in H. discriminate.
    + split; [discriminate|]. destruct values; discriminate.
Qed.

Lemma generation_results_lookup (env : Env) (call : nat) (requests : list OutfitParams.t)
    (i : nat) :
  generation_results env call requests !! i =
  generation_result env (call + i) <$> requests !! i.
Proof.
  revert call i. induction requests as [|p requests IH]; intros call [|i]; simpl;
    try reflexivity.
  - now rewrite Nat.add_0_r.
  - rewrite IH. do 2 f_equal. lia.
Qed.

Lemma generation_results_length (env : Env) (call : nat) (requests : list OutfitParams.t) :
  length (generation_results env call requests) = length requests.
Proof. revert call. induction requests as [|p l IH]; intros call; simpl; auto. Qed.

Lemma all_succeed_fulfilled (env : Env) (call : nat) (requests : list OutfitParams.t) :
  (forall i params, requests !! i = Some params ->
     succeeds (generation_result env (call + i) params)) ->
  exists results, all_fulfilled (generation_results env call requests) = Fulfilled results.
Proof.
  revert call. induction requests as [|p requests IH]; intros call H; simpl.
  - now exists [].
  - destruct (H 0 p eq_refl) as (v & Hv). rewrite Nat.add_0_r in Hv. rewrite Hv.
    destruct (IH (S call)) as (results & ->).
    + intros i params Hi. replace (S call + i) with (call + S i) by lia. now apply H.
    + now exists (v :: results).
Qed.

(** C4. For every list of N generation requests, when every per-item
    generation succeeds, the batch runner returns a list of exactly N
    results, the result at position i being the generation result for the
    request at position i; the input is processed in consecutive chunks of
    three (the k-th chunk is the slice of three that starts at index 3k), so
    7 requests form chunks of sizes 3, 3 and 1. *)
Theorem generateFIBOBatch_results_in_order :
  (forall (env : Env) (st : State) (paramsArray : list OutfitParams.t),
     (forall (i : nat) (params : OutfitParams.t),
        paramsArray !! i = Some params ->
        succeeds (generation_result env (ai_calls st + i) params)) ->
     exists results : list FIBOOutfitSpec.t,
       generateFIBOBatch paramsArray env st =
         (Fulfilled results, advance (length paramsArray) st) /\
       length results = length paramsArray /\
       forall (i : nat) (params : OutfitParams.t),
         paramsArray !! i = Some params ->
         Fulfilled <$> results !! i = Some (generation_result env (ai_calls st + i) params)) /\
  (forall (paramsArray : list OutfitParams.t) (env : Env) (st : State),
     generateFIBOBatch paramsArray env st = run_batches (batches paramsArray 0) [] env st) /\
  (forall (paramsArray : list OutfitParams.t) (k : nat),
     batches paramsArray 0 !! k =
       if decide (3 * k < length paramsArray)
       then Some (take 3 (drop (3 * k) paramsArray))
       else None) /\
  (forall paramsArray : list OutfitParams.t,
     length paramsArray = 7 ->
     map length (batches paramsArray 0) = [3; 3; 1]).
Proof.
  split; [|split; [|split]].
  - intros env st paramsArray Hall.
    destruct (all_succeed_fulfilled env (ai_calls st) paramsArray Hall) as (results & Hres).
    exists results.
    assert (Hmap : generation_results env (ai_calls st) paramsArray = map Fulfilled results)
      by now apply all_fulfilled_lookup.
    split; [|split].
    + unfold generateFIBOBatch. rewrite generateFIBOBatch_loop_batches.
      pose proof (run_batches_fulfilled (batches paramsArray 0) [] results env st) as Hrun.
      rewrite batches_concat, drop_0 in Hrun. now apply Hrun.
    + apply (f_equal length) in Hmap.
      now rewrite generation_results_length, length_map in Hmap.
    + intros i params Hi.
      pose proof (generation_results_lookup env (ai_calls st) paramsArray i) as Hlook.
      rewrite Hmap, Hi, list_lookup_fmap in Hlook. exact Hlook.
  - intros paramsArray env st. apply generateFIBOBatch_loop_batches.
  - intros paramsArray k. apply batches_lookup.
  - intros paramsArray Hlen.
    do 8 (destruct paramsArray as [|? paramsArray]; try discriminate).
    reflexivity.
Qed.

Lemma generateFIBOBatch_witness :
  exists results : list FIBOOutfitSpec.t,
    generateFIBOBatch seven_requests numbering_env initial_state =
      (Fulfilled results, advance 7 initial_state) /\
    length results = 7 /\
    forall (i : nat) (params : OutfitParams.t),
      seven_requests !! i = Some params ->
      Fulfilled <$> results !! i = Some (generation_result numbering_env (0 + i) params).
Proof.
  apply (proj1 generateFIBOBatch_results_in_order numbering_env initial_state seven_requests).
  intros i params Hi.
  do 7 (destruct i as [|i]; [injection Hi as <-; eexists; vm_compute; reflexivity|]).
  discriminate.
Defined.

(** The seven results come back in the order of the requests. *)
Example seven_requests_in_order :
  match fst (generateFIBOBatch seven_requests numbering_env initial_state) with
  | Fulfilled results => map FIBOOutfitSpec.occasion results
  | Rejected _ => []
  end = map (fun n => Some (pretty n)) (seq 0 7).
Proof. vm_compute. reflexivity. Qed.

(** * Further properties of the services *)

(** ** Image generation on run-time specifications *)



(** ** FIBO generation *)

Lemma truthy_or_else (a : option float) (b : float) :
  JsNumber.truthy b = true -> JsNumber.truthy (JsNumber.or_else a b) = true.
Proof.
  intros Hb. unfold JsNumber.or_else. destruct a as [x|]; [|exact Hb].
  destruct (JsNumber.truthy x) eqn:Ex; [exact Ex|exact Hb].
Qed.

Lemma string_or_else_nonempty (a : option string) (b : string) :
  b <> "" -> string_or_else a b <> "".
Proof.
  intros Hb. unfold string_or_else. destruct a as [s|]; [|exact Hb].
  destruct (JsString.truthy s) eqn:Es; [|exact Hb]. now apply truthy_nonempty.
Qed.

(** The reads of the structured parameters succeed on a complete object and
    leave the state alone. *)
Lemma fibo_structured_params_complete (parsed : FIBOOutfitSpec.t) (env : Env) (st : State) :
  fibo_complete parsed = true ->
  exists (camera : FIBOCamera.t) (style_parameters : StyleParameters.t)
         (texture_layers : list TextureLayer.t) (primary accent : Color.t),
    FIBOOutfitSpec.camera parsed = Some camera /\
    FIBOOutfitSpec.style_parameters parsed = Some style_parameters /\
    FIBOOutfitSpec.texture_layers parsed = Some texture_layers /\
    FIBOOutfitSpec.color_scheme parsed ≫= ColorScheme.primary = Some primary /\
    FIBOOutfitSpec.color_scheme parsed ≫= ColorScheme.accent = Some accent /\
    fibo_structured_params_of parsed env st =
      (Fulfilled
         (FIBOParameters.mk
            "professional outfit generation"
            (FIBOCamera.angle camera)
            (JsNumber.or_else (FIBOCamera.fov camera) 75)
            (FIBOCamera.lighting camera)
            (JsNumber.or_else (FIBOCamera.lighting_temperature camera) 5500)
            (StyleParameters.realism style_parameters)
            (StyleParameters.aesthetic style_parameters)
            (string_or_else (texture_layers !! 0%nat ≫= TextureLayer.material) "cotton")
            (string_or_else (texture_layers !! 1%nat ≫= TextureLayer.material) "silk")
            [Color.hex primary; Color.hex accent]
            "analogous"), st).
Proof.
  unfold fibo_complete, fibo_structured_params_of. intros H.
  destruct (FIBOOutfitSpec.camera parsed) as [camera|]; [|discriminate].
  destruct (FIBOOutfitSpec.style_parameters parsed) as [style_parameters|]; [|discriminate].
  destruct (FIBOOutfitSpec.texture_layers parsed) as [texture_layers|]; [|discriminate].
  destruct (FIBOOutfitSpec.color_scheme parsed) as [scheme|]; [|discriminate].
  destruct (ColorScheme.primary scheme) as [primary|] eqn:Ep; [|discriminate].
  destruct (ColorScheme.accent scheme) as [accent|] eqn:Ea; [|discriminate].
  exists camera, style_parameters, texture_layers, primary, accent.
  repeat (split; [first [reflexivity|exact Ep|exact Ea]|]).
  unfold_m. rewrite Ep, Ea. reflexivity.
Qed.

Lemma fibo_structured_params_incomplete (parsed : FIBOOutfitSpec.t) (env : Env) (st : State) :
  fibo_complete parsed = false ->
  exists prop : string,
    In prop ["angle"; "realism"; "0"; "primary"; "hex"] /\
    fibo_structured_params_of parsed env st = (Rejected (JsError.undefined_read prop), st).
Proof.
  unfold fibo_complete, fibo_structured_params_of. intros H.
  destruct (FIBOOutfitSpec.camera parsed); [|exists "angle"; simpl; auto].
  destruct (FIBOOutfitSpec.style_parameters parsed); [|exists "realism"; simpl; auto].
  destruct (FIBOOutfitSpec.texture_layers parsed); [|exists "0"; simpl; auto].
  destruct (FIBOOutfitSpec.color_scheme parsed) as [scheme|]; [|exists "primary"; simpl; auto 6].
  destruct (ColorScheme.primary scheme) eqn:Ep;
    [|exists "hex"; simpl; split; [auto 6|unfold_m; now rewrite Ep]].
  destruct (ColorScheme.accent scheme) eqn:Ea; [discriminate|].
  exists "hex". simpl; split; [auto 6|]. unfold_m. now rewrite Ep, Ea.
Qed.

(** The structured parameters are read off the parsed object alone. *)
Lemma fibo_structured_params_pure (parsed : FIBOOutfitSpec.t) (env : Env) (st : State) :
  fibo_structured_params_of parsed env st =
  (fst (fibo_structured_params_of parsed env initial_state), st).
Proof.
  unfold fibo_structured_params_of.
  destruct (FIBOOutfitSpec.camera parsed); [|reflexivity].
  destruct (FIBOOutfitSpec.style_parameters parsed); [|reflexivity].
  destruct (FIBOOutfitSpec.texture_layers parsed); [|reflexivity].
  destruct (FIBOOutfitSpec.color_scheme parsed) as [scheme|]; [|reflexivity].
  unfold_m.
  destruct (ColorScheme.primary scheme); [|reflexivity].
  destruct (ColorScheme.accent scheme); reflexivity.
Qed.

(** The generation result in terms of the parsed response. *)
Lemma generation_result_parsed (env : Env) (call : nat) (params : OutfitParams.t) :
  generation_result env call params =
  match generateContent env call (fibo_request params) with
  | Rejected e => Rejected e
  | Fulfilled response =>
      match GenerateContentResponse.text response with
      | Some text =>
          if JsString.truthy text then
            if JSON_null_literal text then Rejected (JsError.null_read "camera")
            else
              match JSON_parse_FIBOOutfitSpec env text with
              | Rejected e => Rejected e
              | Fulfilled parsed =>
                  match fst (fibo_structured_params_of parsed env initial_state) with
                  | Fulfilled fp =>
                      Fulfilled (FIBOOutfitSpec.set_fibo_structured_params parsed fp)
                  | Rejected e => Rejected e
                  end
              end
          else Rejected (JsError.Error "No JSON returned from FIBO engine")
      | None => Rejected (JsError.Error "No JSON returned from FIBO engine")
      end
  end.
Proof.
  unfold generation_result. rewrite generateFIBOOutfit_outcome. cbn [ai_calls].
  destruct (generateContent env call (fibo_request params)) as [response|e]; [|reflexivity].
  unfold has_text.
  destruct (GenerateContentResponse.text response) as [text|]; [|reflexivity].
  destruct (JsString.truthy text); [|reflexivity].
  cbn [default from_option id]. cbv zeta.
  destruct (JSON_null_literal text); [reflexivity|].
  destruct (JSON_parse_FIBOOutfitSpec env text) as [parsed|e]; [|reflexivity].
  unfold bind. rewrite fibo_structured_params_pure.
  destruct (fst (fibo_structured_params_of parsed env initial_state)); reflexivity.
Qed.

(** A generation succeeds exactly on a parsed object that is complete. *)
Lemma generation_result_fulfilled (env : Env) (call : nat) (params : OutfitParams.t)
    (spec : FIBOOutfitSpec.t) :
  generation_result env call params = Fulfilled spec ->
  exists (parsed : FIBOOutfitSpec.t) (fp : FIBOParameters.t),
    fibo_parsed env call params = Some parsed /\
    fibo_complete parsed = true /\
    fibo_structured_params_of parsed env initial_state = (Fulfilled fp, initial_state) /\
    spec = FIBOOutfitSpec.set_fibo_structured_params parsed fp.
Proof.
  rewrite generation_result_parsed. unfold fibo_parsed.
  destruct (generateContent env call (fibo_request params)) as [response|e]; [|discriminate].
  destruct (GenerateContentResponse.text response) as [text|]; [|discriminate].
  destruct (JsString.truthy text); [|discriminate].
  destruct (JSON_null_literal text); [discriminate|]. cbn [negb andb].
  destruct (JSON_parse_FIBOOutfitSpec env text) as [parsed|e]; [|discriminate].
  destruct (fibo_complete parsed) eqn:Ec.
  - destruct (fibo_structured_params_complete parsed env initial_state Ec)
      as (c & s & t & p & a & _ & _ & _ & _ & _ & Hi).
    rewrite Hi. cbn [fst]. intros [= <-]. eexists. eexists. eauto.
  - destruct (fibo_structured_params_incomplete parsed env initial_state Ec)
      as (prop & _ & Hi).
    rewrite Hi. discriminate.
Qed.

Lemma generation_result_incomplete (env : Env) (call : nat) (params : OutfitParams.t)
    (parsed : FIBOOutfitSpec.t) :
  fibo_parsed env call params = Some parsed ->
  fibo_complete parsed = false ->
  exists prop : string,
    In prop ["angle"; "realism"; "0"; "primary"; "hex"] /\
    generation_result env call params = Rejected (JsError.undefined_read prop).
Proof.
  rewrite generation_result_parsed. unfold fibo_parsed.
  destruct (generateContent env call (fibo_request params)) as [response|e]; [|discriminate].
  destruct (GenerateContentResponse.text response) as [text|]; [|discriminate].
  destruct (JsString.truthy text); [|discriminate].
  destruct (JSON_null_literal text); [discriminate|]. cbn [negb andb].
  destruct (JSON_parse_FIBOOutfitSpec env text) as [parsed'|e]; [|discriminate].
  intros [= ->] Ec.
  destruct (fibo_structured_params_incomplete parsed env initial_state Ec)
    as (prop & Hin & Hi).
  exists prop. rewrite Hi. auto.
Qed.

Lemma generation_result_complete (env : Env) (call : nat) (params : OutfitParams.t)
    (parsed : FIBOOutfitSpec.t) :
  fibo_parsed env call params = Some parsed ->
  fibo_complete parsed = true ->
  succeeds (generation_result env call params).
Proof.
  rewrite generation_result_parsed. unfold fibo_parsed.
  destruct (generateContent env call (fibo_request params)) as [response|e]; [|discriminate].
  destruct (GenerateContentResponse.text response) as [text|]; [|discriminate].
  destruct (JsString.truthy text); [|discriminate].
  destruct (JSON_null_literal text); [discriminate|]. cbn [negb andb].
  destruct (JSON_parse_FIBOOutfitSpec env text) as [parsed'|e]; [|discriminate].
  intros [= ->] Ec.
  destruct (fibo_structured_params_complete parsed env initial_state Ec)
    as (c & s & t & p & a & _ & _ & _ & _ & _ & Hi).
  rewrite Hi. eexists. reflexivity.
Qed.

Lemma fibo_complete_set (parsed : FIBOOutfitSpec.t) (fp : FIBOParameters.t) :
  fibo_complete (FIBOOutfitSpec.set_fibo_structured_params parsed fp) = fibo_complete parsed.
Proof. reflexivity. Qed.

(** X2. Whatever generateFIBOOutfit returns is the object that JSON.parse
    made of the model's text, with fibo_structured_params attached and no
    other property changed.  In a returned specification none of camera,
    style_parameters, texture_layers, color_scheme and its primary and accent
    colours is missing: the reads that build the structured parameters would
    have raised. *)
Theorem generateFIBOOutfit_result_is_complete
    (params : OutfitParams.t) (env : Env) (st st' : State) (spec : FIBOOutfitSpec.t) :
  generateFIBOOutfit params env st = (Fulfilled spec, st') ->
  exists (parsed : FIBOOutfitSpec.t) (fp : FIBOParameters.t),
    fibo_parsed env (ai_calls st) params = Some parsed /\
    fibo_structured_params_of parsed env st = (Fulfilled fp, st) /\
    spec = FIBOOutfitSpec.set_fibo_structured_params parsed fp /\
    FIBOOutfitSpec.fibo_structured_params spec = Some fp /\
    fibo_complete spec = true.
Proof.
  rewrite generateFIBOOutfit_run. intros [= Hres _].
  destruct (generation_result_fulfilled _ _ _ _ Hres) as (parsed & fp & Hp & Hc & Hfp & ->).
  exists parsed, fp. repeat split; auto.
  rewrite fibo_structured_params_pure, Hfp. reflexivity.
Qed.

Lemma generateFIBOOutfit_result_is_complete_witness :
  exists (parsed : FIBOOutfitSpec.t) (fp : FIBOParameters.t),
    fibo_parsed numbering_env (ai_calls initial_state) gala_params = Some parsed /\
    fibo_structured_params_of parsed numbering_env initial_state =
      (Fulfilled fp, initial_state) /\
    numbered_result 0 = FIBOOutfitSpec.set_fibo_structured_params parsed fp /\
    FIBOOutfitSpec.fibo_structured_params (numbered_result 0) = Some fp /\
    fibo_complete (numbered_result 0) = true.
Proof.
  apply (generateFIBOOutfit_result_is_complete gala_params numbering_env initial_state
           (advance 1 initial_state)).
  vm_compute. reflexivity.
Defined.

(** X3. The structured parameters that generateFIBOOutfit attaches never
    hold a falsy value where the source gives a default: the field of view
    is the parsed one when that is a number other than 0 and NaN and 75
    otherwise, the lighting temperature likewise with 5500, the primary and
    secondary materials are those of the first and second texture layer when
    these are non-empty strings and "cotton" and "silk" otherwise; the
    palette holds exactly the two colours of the scheme. *)
Theorem generateFIBOOutfit_structured_defaults
    (params : OutfitParams.t) (env : Env) (st st' : State) (spec : FIBOOutfitSpec.t) :
  generateFIBOOutfit params env st = (Fulfilled spec, st') ->
  exists (fp : FIBOParameters.t) (camera : FIBOCamera.t) (layers : list TextureLayer.t),
    FIBOOutfitSpec.fibo_structured_params spec = Some fp /\
    FIBOOutfitSpec.camera spec = Some camera /\
    FIBOOutfitSpec.texture_layers spec = Some layers /\
    FIBOParameters.camera_fov fp = JsNumber.or_else (FIBOCamera.fov camera) 75 /\
    FIBOParameters.lighting_temperature fp =
      JsNumber.or_else (FIBOCamera.lighting_temperature camera) 5500 /\
    FIBOParameters.materials_primary fp =
      string_or_else (layers !! 0%nat ≫= TextureLayer.material) "cotton" /\
    FIBOParameters.materials_secondary fp =
      string_or_else (layers !! 1%nat ≫= TextureLayer.material) "silk" /\
    JsNumber.truthy (FIBOParameters.camera_fov fp) = true /\
    JsNumber.truthy (FIBOParameters.lighting_temperature fp) = true /\
    FIBOParameters.materials_primary fp <> "" /\
    FIBOParameters.materials_secondary fp <> "" /\
    FIBOParameters.colors_palette fp =
      [(FIBOOutfitSpec.color_scheme spec ≫= ColorScheme.primary) ≫= Color.hex;
       (FIBOOutfitSpec.color_scheme spec ≫= ColorScheme.accent) ≫= Color.hex].
Proof.
  rewrite generateFIBOOutfit_run. intros [= Hres _].
  destruct (generation_result_fulfilled _ _ _ _ Hres) as (parsed & fp & _ & Hc & Hfp & ->).
  destruct (fibo_structured_params_complete parsed env initial_state Hc)
    as (camera & style & layers & primary & accent & Hcam & _ & Hlayers & Hp & Ha & Hrun).
  rewrite Hrun in Hfp. injection Hfp as <-.
  eexists. exists camera, layers. cbn.
  split; [reflexivity|]. split; [exact Hcam|]. split; [exact Hlayers|].
  do 4 (split; [reflexivity|]).
  split; [now apply truthy_or_else|]. split; [now apply truthy_or_else|].
  split; [now apply string_or_else_nonempty|]. split; [now apply string_or_else_nonempty|].
  destruct (FIBOOutfitSpec.color_scheme parsed) as [scheme|]; [|discriminate].
  cbn in Hp, Ha |- *. rewrite Hp, Ha. reflexivity.
Qed.

Lemma generateFIBOOutfit_structured_defaults_witness :
  exists (fp : FIBOParameters.t) (camera : FIBOCamera.t) (layers : list TextureLayer.t),
    FIBOOutfitSpec.fibo_structured_params (numbered_result 0) = Some fp /\
    FIBOOutfitSpec.camera (numbered_result 0) = Some camera /\
    FIBOOutfitSpec.texture_layers (numbered_result 0) = Some layers /\
    FIBOParameters.camera_fov fp = JsNumber.or_else (FIBOCamera.fov camera) 75 /\
    FIBOParameters.lighting_temperature fp =
      JsNumber.or_else (FIBOCamera.lighting_temperature camera) 5500 /\
    FIBOParameters.materials_primary fp =
      string_or_else (layers !! 0%nat ≫= TextureLayer.material) "cotton" /\
    FIBOParameters.materials_secondary fp =
      string_or_else (layers !! 1%nat ≫= TextureLayer.material) "silk" /\
    JsNumber.truthy (FIBOParameters.camera_fov fp) = true /\
    JsNumber.truthy (FIBOParameters.lighting_temperature fp) = true /\
    FIBOParameters.materials_primary fp <> "" /\
    FIBOParameters.materials_secondary fp <> "" /\
    FIBOParameters.colors_palette fp =
      [(FIBOOutfitSpec.color_scheme (numbered_result 0) ≫= ColorScheme.primary) ≫= Color.hex;
       (FIBOOutfitSpec.color_scheme (numbered_result 0) ≫= ColorScheme.accent) ≫= Color.hex].
Proof.
  apply (generateFIBOOutfit_structured_defaults gala_params numbering_env initial_state
           (advance 1 initial_state)).
  vm_compute. reflexivity.
Defined.

(** X4. generateFIBOOutfit issues exactly one call of the model and touches
    nothing else, whatever the outcome: it reads no clock and forwards no
    telemetry record.  It returns a specification exactly when the model
    answers a non-empty text that JSON.parse accepts and the parsed object is
    complete; on a parsed object that lacks camera, style_parameters,
    texture_layers, color_scheme or one of its two colours it rejects with
    the TypeError of the first failing read. *)
Theorem generateFIBOOutfit_outcome_and_effect
    (params : OutfitParams.t) (env : Env) (st : State) :
  snd (generateFIBOOutfit params env st) = advance 1 st /\
  (succeeds (fst (generateFIBOOutfit params env st)) <->
   exists parsed : FIBOOutfitSpec.t,
     fibo_parsed env (ai_calls st) params = Some parsed /\ fibo_complete parsed = true) /\
  (forall parsed : FIBOOutfitSpec.t,
     fibo_parsed env (ai_calls st) params = Some parsed ->
     fibo_complete parsed = false ->
     exists prop : string,
       In prop ["angle"; "realism"; "0"; "primary"; "hex"] /\
       fst (generateFIBOOutfit params env st) = Rejected (JsError.undefined_read prop)).
Proof.
  rewrite generateFIBOOutfit_run. cbn [fst snd].
  split; [reflexivity|]. split; [split|].
  - intros (spec & Hres).
    destruct (generation_result_fulfilled _ _ _ _ Hres) as (parsed & fp & Hp & Hc & _).
    exists parsed. auto.
  - intros (parsed & Hp & Hc). exact (generation_result_complete _ _ _ _ Hp Hc).
  - intros parsed Hp Hc. exact (generation_result_incomplete _ _ _ _ Hp Hc).
Qed.

(** ** Batches that fail *)

Lemma all_fulfilled_rejected {A} (l : list (Settled A)) (n : nat) (e : JsError.t) :
  l !! n = Some (Rejected e) -> exists e' : JsError.t, all_fulfilled l = Rejected e'.
Proof.
  revert n. induction l as [|r l IH]; intros [|n]; simpl; try discriminate.
  - intros [= ->]. now exists e.
  - intros H. destruct (IH n H) as (e' & ->). destruct r as [a|e0]; eauto.
Qed.

(** The loop from a chunk boundary [i] on, when the first failing request
    [j] is in the chunk at [i] or in a later one. *)
Lemma generateFIBOBatch_loop_fails (env : Env) (paramsArray : list OutfitParams.t)
    (call j : nat) (failing : OutfitParams.t) (e : JsError.t) :
  paramsArray !! j = Some failing ->
  generation_result env (call + j) failing = Rejected e ->
  (forall (i : nat) (params : OutfitParams.t),
     i < j -> paramsArray !! i = Some params ->
     succeeds (generation_result env (call + i) params)) ->
  forall (n k : nat) (results : list FIBOOutfitSpec.t) (st : State),
    n = j / 3 - k -> k <= j / 3 -> ai_calls st = call + 3 * k ->
    exists e' : JsError.t,
      generateFIBOBatch_loop paramsArray (3 * k) results env st =
      (Rejected e', advance (Nat.min (3 * (j / 3) + 3) (length paramsArray) - 3 * k) st).
Proof.
  intros Hj Hfail Hbefore.
  assert (Hlen : j < length paramsArray) by (apply lookup_lt_is_Some; eauto).
  pose proof (Nat.div_mod_eq j 3) as Hdiv.
  pose proof (Nat.mod_upper_bound j 3 ltac:(lia)) as Hmod.
  remember (j / 3) as q eqn:Hq. remember (j mod 3) as r eqn:Hr.
  remember (Nat.min (3 * q + 3) (length paramsArray)) as stop eqn:Hstop.
  induction n as [|n IH]; intros k results st Hn Hk Hcalls.
  - assert (k = q) by lia. subst k.
    remember (3 * q) as i eqn:Hi.
    rewrite generateFIBOBatch_loop_equation_1.
    destruct (lt_dec i (length paramsArray)) as [Hlt|Hge]; [|lia].
    simpl. unfold bind. rewrite Promise_all_generateFIBOOutfit.
    destruct (all_fulfilled_rejected
                (generation_results env (ai_calls st) (slice paramsArray i (i + batchSize)))
                r e) as (e' & ->).
    + rewrite generation_results_lookup. unfold slice, batchSize.
      replace (i + 3 - i) with 3 by lia.
      rewrite lookup_take_lt by lia. rewrite lookup_drop.
      replace (i + r) with j by lia. rewrite Hj.
      cbn [fmap option_fmap option_map].
      rewrite Hcalls. replace (call + i + r) with (call + j) by lia.
      now rewrite Hfail.
    + exists e'. f_equal. f_equal. unfold slice, batchSize.
      rewrite length_take, length_drop. lia.
  - remember (3 * k) as i eqn:Hi.
    rewrite generateFIBOBatch_loop_equation_1.
    destruct (lt_dec i (length paramsArray)) as [Hlt|Hge]; [|lia].
    simpl. unfold bind. rewrite Promise_all_generateFIBOOutfit.
    assert (Hsize : length (slice paramsArray i (i + batchSize)) = 3).
    { unfold slice, batchSize. rewrite length_take, length_drop. lia. }
    destruct (all_succeed_fulfilled env (ai_calls st)
                (slice paramsArray i (i + batchSize))) as (values & ->).
    + intros i' params Hi'.
      assert (i' < 3) by (rewrite <- Hsize; apply lookup_lt_is_Some; eauto).
      unfold slice, batchSize in Hi'.
      replace (i + 3 - i) with 3 in Hi' by lia.
      rewrite lookup_take_lt in Hi' by lia. rewrite lookup_drop in Hi'.
      rewrite Hcalls. replace (call + i + i') with (call + (i + i')) by lia.
      apply Hbefore; [lia|exact Hi'].
    + rewrite Hsize. unfold batchSize.
      replace (i + 3) with (3 * S k) by lia.
      destruct (IH (S k) (results ++ values)%list (advance 3 st)) as (e' & ->).
      * lia.
      * lia.
      * unfold advance. cbn [ai_calls]. lia.
      * exists e'. rewrite advance_advance. f_equal. f_equal. lia.
Qed.

(** X5. When a request of a batch fails, generateFIBOBatch rejects and
    returns no partial result.  If request [j] is the first whose generation
    fails, the chunks before that of [j] have run, every request of the
    chunk of [j] has been issued, and no later chunk is started: the model
    has been called min(3 (j div 3) + 3, N) times. *)
Theorem generateFIBOBatch_stops_at_failing_chunk
    (env : Env) (st : State) (paramsArray : list OutfitParams.t)
    (j : nat) (failing : OutfitParams.t) (e : JsError.t) :
  paramsArray !! j = Some failing ->
  generation_result env (ai_calls st + j) failing = Rejected e ->
  (forall (i : nat) (params : OutfitParams.t),
     i < j -> paramsArray !! i = Some params ->
     succeeds (generation_result env (ai_calls st + i) params)) ->
  exists e' : JsError.t,
    generateFIBOBatch paramsArray env st =
    (Rejected e', advance (Nat.min (3 * (j / 3) + 3) (length paramsArray)) st).
Proof.
  intros Hj Hfail Hbefore. unfold generateFIBOBatch.
  destruct (generateFIBOBatch_loop_fails env paramsArray (ai_calls st) j failing e
              Hj Hfail Hbefore (j / 3) 0 [] st) as (e' & Hrun); try lia.
  exists e'. change (3 * 0) with 0 in Hrun. rewrite Hrun. f_equal. f_equal. lia.
Qed.

Lemma generateFIBOBatch_stops_at_failing_chunk_witness :
  exists e' : JsError.t,
    generateFIBOBatch twelve_requests numbering_env initial_state =
    (Rejected e', advance (Nat.min (3 * (7 / 3) + 3) (length twelve_requests)) initial_state).
Proof.
  apply (generateFIBOBatch_stops_at_failing_chunk numbering_env initial_state twelve_requests
           7 gala_params (JsError.mk "SyntaxError" "Unexpected end of JSON input")).
  - reflexivity.
  - vm_compute. reflexivity.
  - intros i params Hlt Hi.
    do 7 (destruct i as [|i]; [injection Hi as <-; eexists; vm_compute; reflexivity|]).
    lia.
Defined.

Lemma all_fulfilled_length {A} (l : list (Settled A)) (values : list A) :
  all_fulfilled l = Fulfilled values -> length values = length l.
Proof.
  intros H. apply all_fulfilled_lookup in H. subst l. now rewrite length_map.
Qed.

(** The loop from index [i] on calls the model and does nothing else; it
    fulfils only after all the remaining requests. *)
Lemma generateFIBOBatch_loop_effect (env : Env) (paramsArray : list OutfitParams.t) :
  forall (n i : nat) (results : list FIBOOutfitSpec.t) (st : State),
    n = length paramsArray - i ->
    exists calls : nat,
      calls <= length paramsArray - i /\
      snd (generateFIBOBatch_loop paramsArray i results env st) = advance calls st /\
      forall values : list FIBOOutfitSpec.t,
        fst (generateFIBOBatch_loop paramsArray i results env st) = Fulfilled values ->
        calls = length paramsArray - i /\
        length values = length results + (length paramsArray - i).
Proof.
  induction n as [n IH] using lt_wf_ind. intros i results st Hn.
  rewrite generateFIBOBatch_loop_equation_1.
  destruct (lt_dec i (length paramsArray)) as [Hlt|Hge]; simpl.
  - unfold bind. rewrite Promise_all_generateFIBOOutfit.
    assert (Hsize : length (slice paramsArray i (i + batchSize)) <= length paramsArray - i).
    { unfold slice, batchSize. rewrite length_take, length_drop. lia. }
    assert (Hsize' : length paramsArray - (i + batchSize) =
                     length paramsArray - i - length (slice paramsArray i (i + batchSize))).
    { unfold slice, batchSize. rewrite length_take, length_drop. lia. }
    destruct (all_fulfilled _) as [values|e] eqn:Eall.
    + apply all_fulfilled_length in Eall. rewrite generation_results_length in Eall.
      destruct (IH (length paramsArray - (i + batchSize)) ltac:(unfold batchSize; lia)
                  (i + batchSize) (results ++ values)%list
                  (advance (length (slice paramsArray i (i + batchSize))) st) eq_refl)
        as (calls & Hcalls & Hsnd & Hfst).
      exists (length (slice paramsArray i (i + batchSize)) + calls).
      split; [lia|]. split.
      * rewrite Hsnd. apply advance_advance.
      * intros final Hfinal. destruct (Hfst final Hfinal) as (-> & Hlength).
        rewrite Hlength, length_app, Eall. lia.
    + exists (length (slice paramsArray i (i + batchSize))).
      split; [exact Hsize|]. split; [reflexivity|]. discriminate.
  - exists 0. split; [lia|]. split; [now rewrite advance_0|].
    intros values [= <-]. lia.
Qed.

(** X6. A batch does nothing but call the model, at most once per request:
    it reads no clock and forwards no telemetry, whatever the outcome.  When
    it fulfils, it has issued exactly N calls and returns exactly N results;
    an empty batch is answered with an empty list and without any call. *)
Theorem generateFIBOBatch_effect
    (env : Env) (st : State) (paramsArray : list OutfitParams.t) :
  (exists calls : nat,
     calls <= length paramsArray /\
     snd (generateFIBOBatch paramsArray env st) = advance calls st /\
     forall results : list FIBOOutfitSpec.t,
       fst (generateFIBOBatch paramsArray env st) = Fulfilled results ->
       calls = length paramsArray /\ length results = length paramsArray) /\
  generateFIBOBatch [] env st = (Fulfilled [], st).
Proof.
  split.
  - destruct (generateFIBOBatch_loop_effect env paramsArray (length paramsArray - 0) 0 [] st
                eq_refl) as (calls & Hcalls & Hsnd & Hfst).
    exists calls. split; [lia|]. split; [exact Hsnd|].
    intros results Hres. destruct (Hfst results Hres) as (-> & Hlen). simpl in Hlen. lia.
  - unfold generateFIBOBatch. rewrite generateFIBOBatch_loop_equation_1. reflexivity.
Qed.

(** ** The voice assistant *)

Lemma generateResponse_run (userMessage : string) (context : list Exchange.t)
    (env : Env) (st : State) :
  generateResponse userMessage context env st =
  (Fulfilled (reply_of (generateContent env (ai_calls st) (aria_request context userMessage))),
   advance 1 st).
Proof.
  unfold generateResponse, reply_of. rewrite advance_1. unfold_m.
  fold (aria_request context userMessage).
  destruct (generateContent env (ai_calls st) (aria_request context userMessage));
    reflexivity.
Qed.

Lemma reply_of_nonempty (r : Settled GenerateContentResponse.t) : reply_of r <> "".
Proof.
  destruct r as [response|e]; simpl; [|discriminate].
  apply string_or_else_nonempty. discriminate.
Qed.

Lemma voiceConversation_enabled_run
    (env : Env) (st : State) (userAudio : Buffer) (userId : string) :
  voice_enabled env = true ->
  let context := default [] (conversationHistory st !! userId) in
  let reply := reply_of (generateContent env (ai_calls st) (aria_request context heard)) in
  reply <> "" /\
  voiceConversation userAudio userId env st =
    (Fulfilled (VoiceResponse.mk "base64_encoded_audio_data" reply "rachel"),
     mkState (S (ai_calls st)) (S (clock_reads st)) (random_draws st) (kafka_sends st)
       (kafka_producer st) (telemetry st)
       (<[userId :=
            push_exchange context
              (Exchange.mk heard reply (toISOString env (clock env (clock_reads st))))]>
          (conversationHistory st))).
Proof.
  intros Henabled context reply. split; [apply reply_of_nonempty|].
  unfold voiceConversation, speechToText, textToSpeech, getConversationContext,
    updateConversationHistory.
  unfold bind at 1. unfold ask at 1. cbn iota beta. rewrite Henabled. cbn [negb].
  unfold bind at 1. unfold bind at 1. unfold ask at 1. cbn iota beta.
  rewrite Henabled. cbn [negb]. unfold ret at 1. cbn iota beta.
  cbn [TranscriptionResult.text].
  unfold bind at 1. unfold bind at 1. unfold get at 1. cbn iota beta. unfold ret at 1.
  cbn iota beta.
  unfold bind at 1. rewrite generateResponse_run. cbn iota beta.
  unfold_m. cbn [ai_calls clock_reads random_draws kafka_sends kafka_producer telemetry
                 conversationHistory advance].
  rewrite Henabled. cbn [negb].
  fold context. unfold heard in *. fold reply. unfold record_exchange.
  cbn [ai_calls clock_reads random_draws kafka_sends kafka_producer telemetry
       conversationHistory advance].
  fold context. replace (ai_calls st + 1) with (S (ai_calls st)) by lia. reflexivity.
Qed.


(** X7. With an ElevenLabs key, voiceConversation never rejects.  It ignores
    the audio (the transcription is a fixed sentence), issues exactly one
    call of the model, and answers with voice "rachel" the model's text, or
    one of two fixed sentences when that text is missing or empty or when
    the call rejects: the reply is never empty.  It reads the clock once and
    records the exchange in the history of that user and of no other. *)
Theorem voiceConversation_enabled
    (env : Env) (st : State) (userAudio : Buffer) (userId : string) :
  voice_enabled env = true ->
  let context := default [] (conversationHistory st !! userId) in
  let reply := reply_of (generateContent env (ai_calls st) (aria_request context heard)) in
  reply <> "" /\
  voiceConversation userAudio userId env st =
    (Fulfilled (VoiceResponse.mk "base64_encoded_audio_data" reply "rachel"),
     mkState (S (ai_calls st)) (S (clock_reads st)) (random_draws st) (kafka_sends st)
       (kafka_producer st) (telemetry st)
       (<[userId :=
            push_exchange context
              (Exchange.mk heard reply (toISOString env (clock env (clock_reads st))))]>
          (conversationHistory st))).
Proof. exact (voiceConversation_enabled_run env st userAudio userId). Qed.

Lemma voiceConversation_enabled_witness :
  reply_of (generateContent voice_env (ai_calls initial_state)
              (aria_request (default [] (conversationHistory initial_state !! "user_456"))
                 heard)) <> "" /\
  voiceConversation [] "user_456" voice_env initial_state =
    (Fulfilled
       (VoiceResponse.mk "base64_encoded_audio_data"
          (reply_of (generateContent voice_env (ai_calls initial_state)
                       (aria_request
                          (default [] (conversationHistory initial_state !! "user_456"))
                          heard)))
          "rachel"),
     mkState (S (ai_calls initial_state)) (S (clock_reads initial_state))
       (random_draws initial_state) (kafka_sends initial_state)
       (kafka_producer initial_state) (telemetry initial_state)
       (<["user_456" :=
            push_exchange (default [] (conversationHistory initial_state !! "user_456"))
              (Exchange.mk heard
                 (reply_of (generateContent voice_env (ai_calls initial_state)
                              (aria_request
                                 (default [] (conversationHistory initial_state !! "user_456"))
                                 heard)))
                 (toISOString voice_env (clock voice_env (clock_reads initial_state))))]>
          (conversationHistory initial_state))).
Proof.
  apply (voiceConversation_enabled voice_env initial_state [] "user_456").
  reflexivity.
Defined.

Lemma voiceConversation_disabled_run
    (env : Env) (st : State) (userAudio : Buffer) (userId : string) :
  voice_enabled env = false ->
  voiceConversation userAudio userId env st =
    (Fulfilled
       (VoiceResponse.mk ""
          "Voice assistant is not configured. Please provide an ElevenLabs API key."
          "rachel"),
     st).
Proof.
  intros Hdisabled. unfold voiceConversation. unfold bind, ask. now rewrite Hdisabled.
Qed.

(** ** What an action leaves alone *)

Section Keeps.
Context {B : Type} (f : State -> B).

Lemma keeps_ret {A} (a : A) : keeps f (ret a).
Proof. intros env st. reflexivity. Qed.

Lemma keeps_throw {A} (e : JsError.t) : keeps f (@throw A e).
Proof. intros env st. reflexivity. Qed.

Lemma keeps_ask : keeps f ask.
Proof. intros env st. reflexivity. Qed.

Lemma keeps_get : keeps f get.
Proof. intros env st. reflexivity. Qed.

Lemma keeps_settle {A} (r : Settled A) : keeps f (settle r).
Proof. destruct r; intros env st; reflexivity. Qed.

Lemma keeps_read {A} (o : option A) (prop : string) : keeps f (read o prop).
Proof. destruct o; intros env st; reflexivity. Qed.

Lemma keeps_bind {A C} (m : M A) (k : A -> M C) :
  keeps f m -> (forall a, keeps f (k a)) -> keeps f (bind m k).
Proof.
  intros Hm Hk env st. unfold bind.
  specialize (Hm env st). destruct (m env st) as [[a|e] st1]; simpl in *.
  - now rewrite Hk.
  - exact Hm.
Qed.

Lemma keeps_try_catch {A} (body : M A) (handler : JsError.t -> M A) :
  keeps f body -> (forall e, keeps f (handler e)) -> keeps f (try_catch body handler).
Proof.
  intros Hm Hk env st. unfold try_catch.
  specialize (Hm env st). destruct (body env st) as [[a|e] st1]; simpl in *.
  - exact Hm.
  - now rewrite Hk.
Qed.

End Keeps.

Section Preserves.
Context (P : Env -> State -> Prop).

Lemma preserves_bind {A C} (m : M A) (k : A -> M C) :
  preserves P m -> (forall a, preserves P (k a)) -> preserves P (bind m k).
Proof.
  intros Hm Hk env st HP. unfold bind.
  specialize (Hm env st HP). destruct (m env st) as [[a|e] st1]; simpl in *.
  - now apply Hk.
  - exact Hm.
Qed.

Lemma preserves_try_catch {A} (body : M A) (handler : JsError.t -> M A) :
  preserves P body -> (forall e, preserves P (handler e)) ->
  preserves P (try_catch body handler).
Proof.
  intros Hm Hk env st HP. unfold try_catch.
  specialize (Hm env st HP). destruct (body env st) as [[a|e] st1]; simpl in *.
  - exact Hm.
  - now apply Hk.
Qed.

Lemma preserves_unchanged {A} (m : M A) :
  (forall env st, snd (m env st) = st) -> preserves P m.
Proof. intros H env st HP. now rewrite H. Qed.

End Preserves.

Create HintDb keeps.
#[local] Hint Resolve keeps_ret keeps_throw keeps_ask keeps_get keeps_settle keeps_read
  : keeps.

Ltac keep :=
  repeat first
    [ progress intros
    | solve [auto with keeps]
    | apply keeps_bind
    | apply keeps_try_catch
    | match goal with
      | |- keeps _ (if ?c then _ else _) => destruct c
      | |- keeps _ (match ?x with _ => _ end) => destruct x
      end ].

(** ** The bound on the conversation histories *)

Lemma push_exchange_bounded (history : list Exchange.t) (exchange : Exchange.t) :
  length history <= 10 -> length (push_exchange history exchange) <= 10.
Proof.
  intros H. unfold push_exchange.
  assert (Hl : length (history ++ [exchange]) = S (length history))
    by (rewrite length_app; simpl; lia).
  destruct (10 <? length (history ++ [exchange]))%nat eqn:E.
  - destruct (history ++ [exchange])%list as [|x l]; simpl in *; lia.
  - apply Nat.ltb_ge in E. exact E.
Qed.

Lemma record_exchange_bounded (userId : string) (exchange : Exchange.t)
    (m : gmap string (list Exchange.t)) :
  (forall u h, m !! u = Some h -> length h <= 10) ->
  forall u h, record_exchange userId exchange m !! u = Some h -> length h <= 10.
Proof.
  intros Hm u h. unfold record_exchange.
  destruct (decide (u = userId)) as [->|Hne].
  - rewrite lookup_insert_eq. intros [= <-]. apply push_exchange_bounded.
    destruct (m !! userId) as [h0|] eqn:E; simpl; [eauto|lia].
  - rewrite lookup_insert_ne by congruence. apply Hm.
Qed.

Lemma histories_bounded_same (st st' : State) :
  conversationHistory st' = conversationHistory st ->
  histories_bounded st -> histories_bounded st'.
Proof. unfold histories_bounded. intros ->. auto. Qed.

Lemma keeps_preserves_bounded {A} (m : M A) :
  keeps conversationHistory m -> preserves bounded m.
Proof. intros H env st. apply histories_bounded_same. apply H. Qed.

Lemma preserves_updateConversationHistory (u a b : string) :
  preserves bounded (updateConversationHistory u a b).
Proof.
  intros env st H userId history. unfold bounded in *.
  unfold updateConversationHistory. unfold_m.
  cbn [snd conversationHistory]. apply record_exchange_bounded. exact H.
Qed.

Lemma keeps_history_Date_now : keeps conversationHistory Date_now.
Proof. intros env st. reflexivity. Qed.

Lemma keeps_history_random : keeps conversationHistory Math_random_base36.
Proof. intros env st. reflexivity. Qed.

Lemma keeps_history_generateContent (request : GenerateContentParameters.t) :
  keeps conversationHistory (ai_generateContent request).
Proof. intros env st. reflexivity. Qed.

Lemma keeps_history_send (message : ProducerRecord.t) :
  keeps conversationHistory (producer_send_message message).
Proof. intros env st. reflexivity. Qed.

Lemma keeps_history_streamLLMTelemetry (data : GenerationTelemetry.t) :
  keeps conversationHistory (streamLLMTelemetry data).
Proof. intros env st. unfold_m. destruct (datadog_enabled env); reflexivity. Qed.

#[local] Hint Resolve keeps_history_Date_now keeps_history_random
  keeps_history_generateContent keeps_history_send keeps_history_streamLLMTelemetry : keeps.

Lemma keeps_history_generateFIBOOutfit (params : OutfitParams.t) :
  keeps conversationHistory (generateFIBOOutfit params).
Proof. intros env st. now rewrite generateFIBOOutfit_run. Qed.

Lemma keeps_history_generateOutfitImage (spec : OutfitSpec.t) :
  keeps conversationHistory (generateOutfitImage spec).
Proof. unfold generateOutfitImage, image_prompt. keep. Qed.

Lemma keeps_history_produceUserInteraction (event : UserInteractionEvent.t) :
  keeps conversationHistory (produceUserInteraction event).
Proof. unfold produceUserInteraction. keep. Qed.

Lemma keeps_history_produceOutfitGeneration (event : OutfitGenerationEvent.t) :
  keeps conversationHistory (produceOutfitGeneration event).
Proof. unfold produceOutfitGeneration. keep. Qed.

Lemma keeps_history_generateRequestId : keeps conversationHistory generateRequestId.
Proof. unfold generateRequestId. keep. Qed.

#[local] Hint Resolve keeps_history_generateFIBOOutfit keeps_history_generateOutfitImage
  keeps_history_produceUserInteraction keeps_history_produceOutfitGeneration
  keeps_history_generateRequestId : keeps.

Lemma keeps_history_processTextInput (request : UnifiedRequest.t) (requestId : string)
    (startTime : Z) :
  keeps conversationHistory (processTextInput request requestId startTime).
Proof. unfold processTextInput. keep. Qed.

#[local] Hint Resolve keeps_history_processTextInput : keeps.

Create HintDb bounded.
#[local] Hint Resolve preserves_updateConversationHistory : bounded.
#[local] Hint Extern 1 (preserves bounded _) =>
  solve [apply keeps_preserves_bounded; auto with keeps] : bounded.

Ltac bound :=
  repeat first
    [ progress intros
    | solve [auto with bounded]
    | apply preserves_bind
    | apply preserves_try_catch
    | match goal with
      | |- preserves _ (if ?c then _ else _) => destruct c
      | |- preserves _ (match ?x with _ => _ end) => destruct x
      end ].

Lemma keeps_history_generateResponse (userMessage : string) (context : list Exchange.t) :
  keeps conversationHistory (generateResponse userMessage context).
Proof. intros env st. now rewrite generateResponse_run. Qed.

#[local] Hint Resolve keeps_history_generateResponse : keeps.

Lemma preserves_voiceConversation (userAudio : Buffer) (userId : string) :
  preserves bounded (voiceConversation userAudio userId).
Proof.
  unfold voiceConversation, speechToText, getConversationContext, textToSpeech. bound.
Qed.

#[local] Hint Resolve preserves_voiceConversation : bounded.

Lemma preserves_processVoiceInput (request : UnifiedRequest.t) (userAudio : Buffer)
    (requestId : string) (startTime : Z) :
  preserves bounded (processVoiceInput request userAudio requestId startTime).
Proof. unfold processVoiceInput. bound. Qed.

#[local] Hint Resolve preserves_processVoiceInput : bounded.

(** X8. The bound of ten exchanges per user is an invariant of the whole
    platform: if no stored history is longer than ten exchanges before a
    call of voiceConversation or of processUserRequest, none is afterwards,
    whatever the request, the model, the broker and the outcome. *)
Theorem histories_stay_bounded (env : Env) (st : State) :
  histories_bounded st ->
  (forall (userAudio : Buffer) (userId : string),
     histories_bounded (snd (voiceConversation userAudio userId env st))) /\
  (forall request : UnifiedRequest.t,
     histories_bounded (snd (processUserRequest request env st))).
Proof.
  intros H. split.
  - intros userAudio userId. now apply preserves_voiceConversation.
  - intros request. revert env st H.
    change (preserves bounded (processUserRequest request)).
    unfold processUserRequest. bound.
Qed.

Lemma histories_stay_bounded_witness :
  (forall (userAudio : Buffer) (userId : string),
     histories_bounded (snd (voiceConversation userAudio userId voice_env initial_state))) /\
  (forall request : UnifiedRequest.t,
     histories_bounded (snd (processUserRequest request voice_env initial_state))).
Proof.
  apply (histories_stay_bounded voice_env initial_state).
  intros userId history H. unfold initial_state in H. cbn [conversationHistory] in H.
  rewrite lookup_empty in H. discriminate.
Defined.

(** ** Requests that succeed *)

Lemma bind_inv {A B} (m : M A) (k : A -> M B) (env : Env) (st st' : State) (b : B) :
  bind m k env st = (Fulfilled b, st') ->
  exists (a : A) (st1 : State), m env st = (Fulfilled a, st1) /\ k a env st1 = (Fulfilled b, st').
Proof.
  unfold bind. destruct (m env st) as [[a|e] st1]; [|discriminate].
  intros H. exists a, st1. auto.
Qed.

Lemma generateFIBOOutfit_fulfilled_complete (params : OutfitParams.t) (env : Env)
    (st st' : State) (spec : FIBOOutfitSpec.t) :
  generateFIBOOutfit params env st = (Fulfilled spec, st') -> fibo_complete spec = true.
Proof.
  rewrite generateFIBOOutfit_run. intros [= Hres _].
  destruct (generation_result_fulfilled _ _ _ _ Hres) as (parsed & fp & _ & Hc & _ & ->).
  exact Hc.
Qed.

Lemma silent_step {A} (m : M A) (Hm : silent m) (env : Env) (st st' : State)
    (r : Settled A) :
  m env st = (r, st') -> telemetry st' = telemetry st.
Proof. intros H. specialize (Hm env st). now rewrite H in Hm. Qed.

Lemma silent_generateRequestId : silent generateRequestId.
Proof. unfold generateRequestId. silence. Qed.

(** What a fulfilled text request looks like. *)
Lemma processTextInput_fulfilled (request : UnifiedRequest.t) (requestId : string)
    (startTime : Z) (env : Env) (st st' : State) (r : UnifiedResponse.t) :
  processTextInput request requestId startTime env st = (Fulfilled r, st') ->
  exists (spec : FIBOOutfitSpec.t) (url : string),
    UnifiedResponse.outfit_spec r = Some spec /\
    fibo_complete spec = true /\
    UnifiedResponse.image_url r = Some url /\
    UnifiedResponse.voice_response r = None /\
    UnifiedResponse.text_response r = FIBOOutfitSpec.description spec /\
    UnifiedResponse.request_id r = requestId /\
    UnifiedResponse.telemetry r =
      createTelemetry env request (UnifiedResponse.processing_time_ms r) true (Some spec).
Proof.
  unfold processTextInput. intros H.
  apply bind_inv in H. destruct H as (params & st1 & _ & H).
  apply bind_inv in H. destruct H as (spec & st2 & Hspec & H).
  apply bind_inv in H. destruct H as (url & st3 & _ & H).
  apply bind_inv in H. destruct H as (now & st4 & _ & H).
  apply bind_inv in H. destruct H as (env' & st5 & Henv & H).
  injection Henv as <- <-. injection H as <- <-.
  exists spec, url. cbn. repeat split.
  exact (generateFIBOOutfit_fulfilled_complete _ _ _ _ _ Hspec).
Qed.

(** What a fulfilled voice request looks like. *)
Lemma processVoiceInput_fulfilled (request : UnifiedRequest.t) (userAudio : Buffer)
    (requestId : string) (startTime : Z) (env : Env) (st st' : State)
    (r : UnifiedResponse.t) :
  processVoiceInput request userAudio requestId startTime env st = (Fulfilled r, st') ->
  exists voiceResponse : VoiceResponse.t,
    UnifiedResponse.voice_response r = Some voiceResponse /\
    UnifiedResponse.text_response r = Some (VoiceResponse.text voiceResponse) /\
    UnifiedResponse.request_id r = requestId /\
    UnifiedResponse.telemetry r =
      createTelemetry env request (UnifiedResponse.processing_time_ms r) true
        (UnifiedResponse.outfit_spec r) /\
    match UnifiedResponse.outfit_spec r with
    | Some spec =>
        fibo_complete spec = true /\
        isOutfitGenerationRequest (VoiceResponse.text voiceResponse) = true /\
        exists url : string, UnifiedResponse.image_url r = Some url
    | None =>
        isOutfitGenerationRequest (VoiceResponse.text voiceResponse) = false /\
        UnifiedResponse.image_url r = None
    end.
Proof.
  unfold processVoiceInput. intros H.
  apply bind_inv in H. destruct H as (voiceResponse & st1 & _ & H).
  apply bind_inv in H. destruct H as (generated & st2 & Hgen & H).
  apply bind_inv in H. destruct H as (now & st3 & _ & H).
  apply bind_inv in H. destruct H as (env' & st4 & Henv & H).
  injection Henv as <- <-. injection H as <- <-.
  exists voiceResponse.
  cbn [UnifiedResponse.voice_response UnifiedResponse.text_response
       UnifiedResponse.request_id UnifiedResponse.telemetry
       UnifiedResponse.processing_time_ms UnifiedResponse.outfit_spec
       UnifiedResponse.image_url fst snd].
  do 4 (split; [reflexivity|]).
  destruct (isOutfitGenerationRequest (VoiceResponse.text voiceResponse)).
  - apply bind_inv in Hgen. destruct Hgen as (spec & st5 & Hspec & Hgen).
    apply bind_inv in Hgen. destruct Hgen as (url & st6 & _ & Hgen).
    injection Hgen as <- <-. cbn [fst snd].
    split; [|split; [reflexivity|eexists; reflexivity]].
    exact (generateFIBOOutfit_fulfilled_complete _ _ _ _ _ Hspec).
  - injection Hgen as <- <-. cbn [fst snd]. auto.
Qed.

(** A fulfilled request, whichever path it took. *)
Lemma processUserRequest_fulfilled (request : UnifiedRequest.t) (env : Env) (st st' : State)
    (r : UnifiedResponse.t) :
  processUserRequest request env st = (Fulfilled r, st') ->
  telemetry st' = (telemetry st ++ [UnifiedResponse.telemetry r])%list /\
  UnifiedResponse.telemetry r =
    createTelemetry env request (UnifiedResponse.processing_time_ms r) true
      (UnifiedResponse.outfit_spec r) /\
  match UnifiedResponse.outfit_spec r with
  | Some spec => fibo_complete spec = true /\ UnifiedResponse.image_url r <> None
  | None => UnifiedResponse.image_url r = None /\ is_voice_request request = true
  end.
Proof.
  unfold processUserRequest. intros H.
  apply bind_inv in H. destruct H as (startTime & st1 & Hstart & H).
  apply bind_inv in H. destruct H as (requestId & st2 & Hid & H).
  unfold try_catch in H.
  match type of H with context [let (_, _) := ?body env st2 in _] =>
    destruct (body env st2) as [[r0|e] st3] eqn:Ebody end.
  2:{ apply bind_inv in H. destruct H as (now & st4 & _ & H).
      apply bind_inv in H. destruct H as (u & st5 & _ & H). discriminate. }
  injection H as -> ->.
  apply bind_inv in Ebody. destruct Ebody as (now & st4 & Hnow & H).
  apply bind_inv in H. destruct H as (env' & st5 & Henv & H). injection Henv as <- <-.
  apply bind_inv in H. destruct H as (u & st6 & Hproduce & H).
  apply bind_inv in H. destruct H as (result & st7 & Hresult & H).
  apply bind_inv in H. destruct H as (u' & st8 & Hgen & H).
  apply bind_inv in H. destruct H as (u'' & st9 & Hstream & H).
  injection H as -> ->.
  assert (Htel : telemetry st8 = telemetry st).
  { apply (silent_step _ silent_Date_now) in Hstart.
    apply (silent_step _ silent_generateRequestId) in Hid.
    apply (silent_step _ silent_Date_now) in Hnow.
    apply (silent_step _ (silent_produceUserInteraction _)) in Hproduce.
    assert (H5 : telemetry st7 = telemetry st6).
    { destruct (UnifiedRequest.input_type request), (UnifiedRequest.input request).
      1-3: exact (silent_step _ (silent_processTextInput _ _ _) _ _ _ _ Hresult).
      exact (silent_step _ (silent_processVoiceInput _ _ _ _) _ _ _ _ Hresult). }
    assert (H6 : telemetry st8 = telemetry st7).
    { destruct (UnifiedResponse.outfit_spec r).
      - refine (silent_step _ _ _ _ _ _ Hgen). silence.
      - now injection Hgen as _ <-. }
    congruence. }
  split.
  { destruct (streamLLMTelemetry_run (UnifiedResponse.telemetry r) env st8)
      as (st9' & Hrun & Hst9).
    rewrite Hstream in Hrun. destruct u''. injection Hrun as <-. now rewrite Hst9, Htel. }
  unfold is_voice_request.
  destruct (UnifiedRequest.input_type request) eqn:Etype,
    (UnifiedRequest.input request) eqn:Einput.
  1-3: destruct (processTextInput_fulfilled _ _ _ _ _ _ _ Hresult)
         as (spec & url & -> & Hc & -> & _ & _ & _ & ->); auto; repeat split; auto; discriminate.
  destruct (processVoiceInput_fulfilled _ _ _ _ _ _ _ _ Hresult)
    as (voiceResponse & _ & _ & _ & Ht & Hspec).
  split; [exact Ht|].
  destruct (UnifiedResponse.outfit_spec r).
  - destruct Hspec as (Hc & _ & url & ->). split; [exact Hc|discriminate].
  - destruct Hspec as (_ & ->). auto.
Qed.

(** X9. A request that processUserRequest fulfils has forwarded exactly one
    telemetry record, the one it returns in the response.  That record has
    success true, the processing time of the response as generation_ms, the
    estimate of the input text (of "voice_input" for audio) as input_tokens,
    the user id of the request, and the quality score of the returned
    outfit; when no outfit was generated its output_tokens are 0. *)
Theorem processUserRequest_success_record
    (request : UnifiedRequest.t) (env : Env) (st st' : State) (r : UnifiedResponse.t) :
  processUserRequest request env st = (Fulfilled r, st') ->
  telemetry st' = (telemetry st ++ [UnifiedResponse.telemetry r])%list /\
  GenerationTelemetry.success (UnifiedResponse.telemetry r) = true /\
  GenerationTelemetry.generation_ms (UnifiedResponse.telemetry r) =
    UnifiedResponse.processing_time_ms r /\
  GenerationTelemetry.input_tokens (UnifiedResponse.telemetry r) =
    estimateTokens (counted_input request) /\
  GenerationTelemetry.user_id (UnifiedResponse.telemetry r) =
    Some (UnifiedRequest.user_id request) /\
  GenerationTelemetry.model (UnifiedResponse.telemetry r) = "gemini-2.5-flash" /\
  GenerationTelemetry.endpoint (UnifiedResponse.telemetry r) = "outfit_generation" /\
  GenerationTelemetry.quality_score (UnifiedResponse.telemetry r) =
    Some (calculateQualityScore (UnifiedResponse.outfit_spec r)) /\
  (UnifiedResponse.outfit_spec r = None ->
   GenerationTelemetry.output_tokens (UnifiedResponse.telemetry r) = 0%Z).
Proof.
  intros Hrun.
  destruct (processUserRequest_fulfilled request env st st' r Hrun) as (Htel & Hrec & _).
  split; [exact Htel|]. rewrite Hrec. cbn. repeat split. now intros ->.
Qed.

Lemma processUserRequest_success_record_witness :
  exists (r : UnifiedResponse.t) (st' : State),
    processUserRequest text_request numbering_env initial_state = (Fulfilled r, st') /\
    telemetry st' = (telemetry initial_state ++ [UnifiedResponse.telemetry r])%list /\
    GenerationTelemetry.success (UnifiedResponse.telemetry r) = true /\
    GenerationTelemetry.generation_ms (UnifiedResponse.telemetry r) =
      UnifiedResponse.processing_time_ms r /\
    GenerationTelemetry.input_tokens (UnifiedResponse.telemetry r) =
      estimateTokens (counted_input text_request) /\
    GenerationTelemetry.user_id (UnifiedResponse.telemetry r) =
      Some (UnifiedRequest.user_id text_request) /\
    GenerationTelemetry.model (UnifiedResponse.telemetry r) = "gemini-2.5-flash" /\
    GenerationTelemetry.endpoint (UnifiedResponse.telemetry r) = "outfit_generation" /\
    GenerationTelemetry.quality_score (UnifiedResponse.telemetry r) =
      Some (calculateQualityScore (UnifiedResponse.outfit_spec r)) /\
    (UnifiedResponse.outfit_spec r = None ->
     GenerationTelemetry.output_tokens (UnifiedResponse.telemetry r) = 0%Z).
Proof.
  destruct (processUserRequest text_request numbering_env initial_state) as [[r|e] st'] eqn:E.
  - exists r, st'. split; [reflexivity|].
    exact (processUserRequest_success_record text_request numbering_env initial_state st' r E).
  - exfalso. vm_compute in E. discriminate.
Defined.

Lemma complete_spec_checks (spec : FIBOOutfitSpec.t) :
  fibo_complete spec = true -> has_color_scheme spec = true /\ has_camera spec = true.
Proof.
  unfold fibo_complete, has_color_scheme, has_camera.
  destruct (FIBOOutfitSpec.camera spec); [|discriminate].
  destruct (FIBOOutfitSpec.style_parameters spec); [|discriminate].
  destruct (FIBOOutfitSpec.texture_layers spec); [|discriminate].
  destruct (FIBOOutfitSpec.color_scheme spec); [|discriminate].
  intros _. split; apply bool_decide_eq_true; eauto.
Qed.

(** X10. The quality score that a fulfilled request reports is 0 when no
    outfit was generated (a voice request whose reply holds no generation
    keyword).  Otherwise it is at least 0.7 + 0.1 and at most 1: a generated
    outfit always holds a colour scheme, of which generateFIBOOutfit has
    read both colours.  In binary64 that sum is below the GOOD threshold of
    0.8.  The score is at least 0.85, above the threshold, when the camera
    of the outfit passes the truth test of calculateQualityScore, as every
    object does. *)
Theorem generated_outfit_score_bounds
    (request : UnifiedRequest.t) (env : Env) (st st' : State) (r : UnifiedResponse.t) :
  processUserRequest request env st = (Fulfilled r, st') ->
  exists q : float,
    GenerationTelemetry.quality_score (UnifiedResponse.telemetry r) = Some q /\
    match UnifiedResponse.outfit_spec r with
    | Some spec =>
        PrimFloat.leb (0.7 + 0.1) q = true /\ PrimFloat.leb q 1 = true /\
        PrimFloat.ltb (0.7 + 0.1) QUALITY_THRESHOLDS.GOOD = true /\
        (has_camera spec = true ->
         PrimFloat.leb 0.85 q = true /\ PrimFloat.ltb QUALITY_THRESHOLDS.GOOD q = true)
    | None => q = 0%float /\ is_voice_request request = true
    end.
Proof.
  intros Hrun.
  destruct (processUserRequest_fulfilled request env st st' r Hrun) as (_ & Hrec & Hspec).
  exists (calculateQualityScore (UnifiedResponse.outfit_spec r)).
  split; [now rewrite Hrec|].
  destruct (UnifiedResponse.outfit_spec r) as [spec|].
  - destruct Hspec as (Hc & _). apply complete_spec_checks in Hc. destruct Hc as (Hs & _).
    rewrite calculateQualityScore_checks, Hs.
    destruct (has_camera spec), (has_texture_layers spec), (has_long_description spec);
      vm_compute; repeat split; try reflexivity; discriminate.
  - destruct Hspec as (_ & Hv). split; [reflexivity|exact Hv].
Qed.

Lemma generated_outfit_score_bounds_witness :
  exists (r : UnifiedResponse.t) (q : float),
    fst (processUserRequest text_request numbering_env initial_state) = Fulfilled r /\
    GenerationTelemetry.quality_score (UnifiedResponse.telemetry r) = Some q /\
    match UnifiedResponse.outfit_spec r with
    | Some spec =>
        PrimFloat.leb (0.7 + 0.1) q = true /\ PrimFloat.leb q 1 = true /\
        PrimFloat.ltb (0.7 + 0.1) QUALITY_THRESHOLDS.GOOD = true /\
        (has_camera spec = true ->
         PrimFloat.leb 0.85 q = true /\ PrimFloat.ltb QUALITY_THRESHOLDS.GOOD q = true)
    | None => q = 0%float /\ is_voice_request text_request = true
    end.
Proof.
  destruct (processUserRequest text_request numbering_env initial_state) as [[r|e] st'] eqn:E.
  - destruct (generated_outfit_score_bounds text_request numbering_env initial_state st' r E)
      as (q & Hq).
    exists r, q. split; [reflexivity|exact Hq].
  - exfalso. vm_compute in E. discriminate.
Defined.

(** ** Requests and the broker *)

Lemma keeps_kafka_Date_now : keeps kafka_view Date_now.
Proof. intros env st. reflexivity. Qed.

Lemma keeps_kafka_random : keeps kafka_view Math_random_base36.
Proof. intros env st. reflexivity. Qed.

Lemma keeps_kafka_generateContent (request : GenerateContentParameters.t) :
  keeps kafka_view (ai_generateContent request).
Proof. intros env st. reflexivity. Qed.

Lemma keeps_kafka_streamLLMTelemetry (data : GenerationTelemetry.t) :
  keeps kafka_view (streamLLMTelemetry data).
Proof. intros env st. unfold_m. destruct (datadog_enabled env); reflexivity. Qed.

Lemma keeps_kafka_updateConversationHistory (u a b : string) :
  keeps kafka_view (updateConversationHistory u a b).
Proof. intros env st. reflexivity. Qed.

#[local] Hint Resolve keeps_kafka_Date_now keeps_kafka_random keeps_kafka_generateContent
  keeps_kafka_streamLLMTelemetry keeps_kafka_updateConversationHistory : keeps.

Lemma keeps_kafka_generateFIBOOutfit (params : OutfitParams.t) :
  keeps kafka_view (generateFIBOOutfit params).
Proof. intros env st. now rewrite generateFIBOOutfit_run. Qed.

Lemma keeps_kafka_generateOutfitImage (spec : OutfitSpec.t) :
  keeps kafka_view (generateOutfitImage spec).
Proof. unfold generateOutfitImage, image_prompt. keep. Qed.

Lemma keeps_kafka_generateRequestId : keeps kafka_view generateRequestId.
Proof. unfold generateRequestId. keep. Qed.

Lemma keeps_kafka_voiceConversation (userAudio : Buffer) (userId : string) :
  keeps kafka_view (voiceConversation userAudio userId).
Proof.
  unfold voiceConversation, speechToText, getConversationContext, generateResponse,
    textToSpeech.
  keep.
Qed.

#[local] Hint Resolve keeps_kafka_generateFIBOOutfit keeps_kafka_generateOutfitImage
  keeps_kafka_generateRequestId keeps_kafka_voiceConversation : keeps.

Lemma keeps_kafka_processTextInput (request : UnifiedRequest.t) (requestId : string)
    (startTime : Z) :
  keeps kafka_view (processTextInput request requestId startTime).
Proof. unfold processTextInput. keep. Qed.

Lemma keeps_kafka_processVoiceInput (request : UnifiedRequest.t) (userAudio : Buffer)
    (requestId : string) (startTime : Z) :
  keeps kafka_view (processVoiceInput request userAudio requestId startTime).
Proof. unfold processVoiceInput. keep. Qed.

#[local] Hint Resolve keeps_kafka_processTextInput keeps_kafka_processVoiceInput : keeps.

Lemma keeps_kafka_unsent {A} (m : M A) (n : nat) :
  keeps kafka_view m -> preserves (unsent n) m.
Proof.
  intros H env st (Hc & Hn). specialize (H env st). unfold kafka_view in H.
  injection H as Hp Hs. unfold unsent, cannot_send in *. now rewrite Hp, Hs.
Qed.

Lemma unsent_produceUserInteraction (event : UserInteractionEvent.t) (n : nat) :
  preserves (unsent n) (produceUserInteraction event).
Proof.
  intros env st (Hc & Hn). unfold produceUserInteraction. unfold_m.
  unfold cannot_send in Hc. rewrite Hc. split; [exact Hc|exact Hn].
Qed.

Lemma unsent_produceOutfitGeneration (event : OutfitGenerationEvent.t) (n : nat) :
  preserves (unsent n) (produceOutfitGeneration event).
Proof.
  intros env st (Hc & Hn). unfold produceOutfitGeneration. unfold_m.
  unfold cannot_send in Hc. rewrite Hc. split; [exact Hc|exact Hn].
Qed.

Create HintDb unsent.
#[local] Hint Resolve unsent_produceUserInteraction unsent_produceOutfitGeneration : unsent.
#[local] Hint Extern 1 (preserves (unsent _) _) =>
  solve [apply keeps_kafka_unsent; auto with keeps] : unsent.

Ltac nothing_sent :=
  repeat first
    [ progress intros
    | solve [auto with unsent]
    | apply preserves_bind
    | apply preserves_try_catch
    | match goal with
      | |- preserves _ (if ?c then _ else _) => destruct c
      | |- preserves _ (match ?x with _ => _ end) => destruct x
      end ].

(** X11. When Kafka is not configured, or when no producer has been created
    (the platform was not initialised), processUserRequest never asks the
    broker for anything: the number of sends is unchanged, whatever the
    request and the outcome, and no producer appears. *)
Theorem processUserRequest_sends_nothing
    (request : UnifiedRequest.t) (env : Env) (st : State) :
  cannot_send env st = true ->
  kafka_sends (snd (processUserRequest request env st)) = kafka_sends st /\
  cannot_send env (snd (processUserRequest request env st)) = true.
Proof.
  intros Hc.
  assert (H : preserves (unsent (kafka_sends st)) (processUserRequest request)).
  { unfold processUserRequest. nothing_sent. }
  destruct (H env st (conj Hc eq_refl)) as (Hc' & Hn). auto.
Qed.

Lemma processUserRequest_sends_nothing_witness :
  kafka_sends (snd (processUserRequest text_request broker_down_env initial_state)) =
    kafka_sends initial_state /\
  cannot_send broker_down_env
    (snd (processUserRequest text_request broker_down_env initial_state)) = true.
Proof.
  apply (processUserRequest_sends_nothing text_request broker_down_env initial_state).
  reflexivity.
Defined.

Lemma broker_failure_run
    (request : UnifiedRequest.t) (env : Env) (st : State) (e : JsError.t) :
  kafka_enabled env = true ->
  kafka_producer st = true ->
  producer_send env (kafka_sends st)
    (ProducerRecord.mk "outfit.generations" (UnifiedRequest.user_id request)) = Rejected e ->
  exists (st' : State) (processingTime : Z),
    processUserRequest request env st = (Rejected e, st') /\
    ai_calls st' = ai_calls st /\
    kafka_sends st' = S (kafka_sends st) /\
    conversationHistory st' = conversationHistory st /\
    telemetry st' = (telemetry st ++ [errorTelemetry request processingTime])%list.
Proof.
  intros Henabled Hproducer Hsend.
  unfold processUserRequest, generateRequestId.
  unfold bind at 1. unfold Date_now at 1. cbn iota beta.
  unfold bind at 1. unfold bind at 1. unfold Date_now at 1. cbn iota beta.
  unfold bind at 1. unfold Math_random_base36 at 1. cbn iota beta. unfold ret at 1.
  cbn iota beta.
  unfold try_catch.
  unfold bind at 1. unfold Date_now at 1. cbn iota beta.
  unfold bind at 1. unfold ask at 1. cbn iota beta.
  unfold bind at 1. unfold produceUserInteraction.
  unfold bind at 1. unfold ask at 1. cbn iota beta.
  unfold bind at 1. unfold get at 1. cbn iota beta.
  cbn [kafka_producer]. rewrite Henabled, Hproducer. cbn [negb orb].
  unfold producer_send_message. cbn [kafka_sends getTopicForEventType
    UserInteractionEvent.type UserInteractionEvent.user_id].
  change KAFKA_TOPICS.OUTFIT_GENERATIONS with "outfit.generations".
  rewrite Hsend.
  unfold_m. cbn [ai_calls clock_reads random_draws kafka_sends kafka_producer telemetry
                 conversationHistory].
  destruct (datadog_enabled env); eexists; eexists; (split; [reflexivity|]); cbn;
    repeat split.
Qed.


(** X12. The event stream is not isolated from the request: when Kafka is
    configured and a producer exists, a send that the broker rejects makes
    processUserRequest reject with the broker's error.  If that is the first
    send (the interaction event, on topic outfit.generations with the user
    id as key), no call of the model has been issued; the one telemetry
    record forwarded is the error record. *)
Theorem processUserRequest_broker_failure
    (request : UnifiedRequest.t) (env : Env) (st : State) (e : JsError.t) :
  kafka_enabled env = true ->
  kafka_producer st = true ->
  producer_send env (kafka_sends st)
    (ProducerRecord.mk "outfit.generations" (UnifiedRequest.user_id request)) = Rejected e ->
  exists (st' : State) (processingTime : Z),
    processUserRequest request env st = (Rejected e, st') /\
    ai_calls st' = ai_calls st /\
    kafka_sends st' = S (kafka_sends st) /\
    conversationHistory st' = conversationHistory st /\
    telemetry st' = (telemetry st ++ [errorTelemetry request processingTime])%list.
Proof. exact (broker_failure_run request env st e). Qed.

Lemma processUserRequest_broker_failure_witness :
  exists (st' : State) (processingTime : Z),
    processUserRequest text_request broker_down_env producing_state =
      (Rejected (JsError.mk "KafkaJSConnectionError" "Connection timeout"), st') /\
    ai_calls st' = ai_calls producing_state /\
    kafka_sends st' = S (kafka_sends producing_state) /\
    conversationHistory st' = conversationHistory producing_state /\
    telemetry st' =
      (telemetry producing_state ++ [errorTelemetry text_request processingTime])%list.
Proof.
  apply (processUserRequest_broker_failure text_request broker_down_env producing_state);
    reflexivity.
Defined.

(** ** Text requests, end to end *)

Lemma produceUserInteraction_cannot_send (event : UserInteractionEvent.t) (env : Env)
    (st : State) :
  cannot_send env st = true -> produceUserInteraction event env st = (Fulfilled tt, st).
Proof. intros Hc. unfold produceUserInteraction. unfold_m. unfold cannot_send in Hc. now rewrite Hc. Qed.


Lemma text_path (request : UnifiedRequest.t) (userAudio_path : Buffer -> M UnifiedResponse.t)
    (text_path : M UnifiedResponse.t) :
  is_voice_request request = false ->
  match UnifiedRequest.input_type request, UnifiedRequest.input request with
  | input_voice, inr userAudio => userAudio_path userAudio
  | _, _ => text_path
  end = text_path.
Proof.
  unfold is_voice_request.
  destruct (UnifiedRequest.input_type request), (UnifiedRequest.input request);
    congruence.
Qed.





(** The steps of processUserRequest up to the choice of a path, when the
    interaction event cannot be sent: [startTime], [requestId] and the state
    [st3] in which the path starts. *)
Ltac request_prefix Hc :=
  unfold processUserRequest, generateRequestId;
  unfold bind at 1; unfold Date_now at 1; cbn iota beta;
  unfold bind at 1; unfold bind at 1; unfold Date_now at 1; cbn iota beta;
  unfold bind at 1; unfold Math_random_base36 at 1; cbn iota beta; unfold ret at 1;
  cbn iota beta;
  cbn [ai_calls clock_reads random_draws kafka_sends kafka_producer telemetry
       conversationHistory];
  set (requestId := "req_" +:+ _);
  match goal with st : State |- _ =>
    match goal with |- context [clock ?env (clock_reads st)] =>
      set (startTime := clock env (clock_reads st))
    end
  end;
  unfold try_catch;
  unfold bind at 1; unfold Date_now at 1; cbn iota beta;
  unfold bind at 1; unfold ask at 1; cbn iota beta;
  cbn [ai_calls clock_reads random_draws kafka_sends kafka_producer telemetry
       conversationHistory];
  set (st3 := mkState _ _ _ _ _ _ _);
  match goal with env : Env |- _ =>
    assert (Hc3 : cannot_send env st3 = true) by exact Hc;
    unfold bind at 1; rewrite (produceUserInteraction_cannot_send _ env st3 Hc3)
  end;
  cbn iota beta.

(** Forwarding a record succeeds and touches neither the call counter nor
    the conversation history. *)
Lemma streamLLMTelemetry_effect (data : GenerationTelemetry.t) (env : Env) (st : State) :
  exists st' : State,
    streamLLMTelemetry data env st = (Fulfilled tt, st') /\
    ai_calls st' = ai_calls st /\
    conversationHistory st' = conversationHistory st.
Proof. unfold_m. destruct (datadog_enabled env); eexists; repeat split. Qed.



(** ** Voice requests, end to end *)

Lemma voice_path (request : UnifiedRequest.t) (userAudio : Buffer)
    (userAudio_path : Buffer -> M UnifiedResponse.t) (text_path : M UnifiedResponse.t) :
  UnifiedRequest.input_type request = input_voice ->
  UnifiedRequest.input request = inr userAudio ->
  match UnifiedRequest.input_type request, UnifiedRequest.input request with
  | input_voice, inr userAudio => userAudio_path userAudio
  | _, _ => text_path
  end = userAudio_path userAudio.
Proof. intros -> ->. reflexivity. Qed.

(** X14. A voice request on a platform without an ElevenLabs key, whose
    events cannot reach the broker (Kafka is not configured or no producer
    has been created), is fulfilled without any work: no call of the model,
    no outfit, no image, nothing recorded in the conversation history.  The
    response carries the notice that the assistant is not configured, and
    the one telemetry record forwarded reports success with a quality score
    of 0 and no output tokens. *)
Theorem voice_request_without_key
    (request : UnifiedRequest.t) (userAudio : Buffer) (env : Env) (st : State) :
  UnifiedRequest.input_type request = input_voice ->
  UnifiedRequest.input request = inr userAudio ->
  voice_enabled env = false ->
  cannot_send env st = true ->
  exists (r : UnifiedResponse.t) (st' : State),
    processUserRequest request env st = (Fulfilled r, st') /\
    UnifiedResponse.outfit_spec r = None /\
    UnifiedResponse.image_url r = None /\
    UnifiedResponse.text_response r = Some not_configured /\
    UnifiedResponse.voice_response r = Some (VoiceResponse.mk "" not_configured "rachel") /\
    GenerationTelemetry.success (UnifiedResponse.telemetry r) = true /\
    GenerationTelemetry.quality_score (UnifiedResponse.telemetry r) = Some 0%float /\
    GenerationTelemetry.output_tokens (UnifiedResponse.telemetry r) = 0%Z /\
    ai_calls st' = ai_calls st /\
    conversationHistory st' = conversationHistory st.
Proof.
  intros Htype Hinput Hdisabled Hc.
  request_prefix Hc. rewrite (voice_path request userAudio _ _ Htype Hinput).
  unfold bind at 1. unfold processVoiceInput.
  unfold bind at 1. rewrite (voiceConversation_disabled_run env st3 userAudio _ Hdisabled).
  cbn iota beta. cbn [VoiceResponse.text].
  change (isOutfitGenerationRequest _) with false. cbn iota.
  unfold bind at 1. unfold ret at 1. cbn iota beta.
  unfold bind at 1. unfold Date_now at 1. cbn iota beta.
  unfold bind at 1. unfold ask at 1. cbn iota beta. unfold ret at 1. cbn iota beta.
  cbn [UnifiedResponse.outfit_spec fst snd].
  unfold bind at 1. unfold ret at 1. cbn iota beta.
  unfold bind at 1.
  match goal with |- context [streamLLMTelemetry ?d env ?s] =>
    destruct (streamLLMTelemetry_effect d env s) as (s' & -> & Hcalls & Hhist)
  end.
  cbn iota beta. unfold ret. eexists. exists s'. split; [reflexivity|].
  rewrite Hcalls, Hhist. cbn. repeat split.
Qed.

Lemma voice_request_without_key_witness :
  exists (r : UnifiedResponse.t) (st' : State),
    processUserRequest voice_request offline_env initial_state = (Fulfilled r, st') /\
    UnifiedResponse.outfit_spec r = None /\
    UnifiedResponse.image_url r = None /\
    UnifiedResponse.text_response r = Some not_configured /\
    UnifiedResponse.voice_response r = Some (VoiceResponse.mk "" not_configured "rachel") /\
    GenerationTelemetry.success (UnifiedResponse.telemetry r) = true /\
    GenerationTelemetry.quality_score (UnifiedResponse.telemetry r) = Some 0%float /\
    GenerationTelemetry.output_tokens (UnifiedResponse.telemetry r) = 0%Z /\
    ai_calls st' = ai_calls initial_state /\
    conversationHistory st' = conversationHistory initial_state.
Proof.
  apply (voice_request_without_key voice_request [] offline_env initial_state);
    reflexivity.
Defined.




(** ** Strings *)

Lemma prefix_app (p s : string) :
  String.prefix p s = true <-> exists b : string, s = p +:+ b.
Proof.
  revert s. induction p as [|c p IH]; intros s.
  - destruct s; simpl; (split; [intros _; eexists; reflexivity|reflexivity]).
  - destruct s as [|d s]; simpl; [split; [discriminate|intros (b & H); discriminate]|].
    destruct (Ascii.ascii_dec c d) as [->|Hne].
    + rewrite IH. split; intros (b & H); exists b; [now rewrite H|now injection H].
    + split; [discriminate|]. intros (b & H). injection H as H _. congruence.
Qed.

(** [includes] is the substring test of JavaScript's [String.includes]. *)
Lemma includes_app (s sub : string) :
  JsString.includes s sub = true <-> exists a b : string, s = a +:+ sub +:+ b.
Proof.
  induction s as [|c s IH].
  - cbn [JsString.includes]. rewrite orb_false_r, prefix_app. split.
    + intros (b & H). now exists "", b.
    + intros (a & b & H). destruct a; [now exists b|discriminate].
  - cbn [JsString.includes]. rewrite orb_true_iff, prefix_app, IH. split.
    + intros [(b & H)|(a & b & H)].
      * now exists "", b.
      * exists (String c a), b. simpl. now rewrite H.
    + intros (a & b & H). destruct a as [|d a].
      * left. now exists b.
      * right. injection H as _ H. now exists a, b.
Qed.

Lemma toLowerCase_app (a b : string) :
  JsString.toLowerCase (a +:+ b) = JsString.toLowerCase a +:+ JsString.toLowerCase b.
Proof. induction a as [|c a IH]; simpl; [reflexivity|now rewrite IH]. Qed.

(** X16. isOutfitGenerationRequest is a case-insensitive substring test: it
    answers true exactly when the lower-cased text holds one of the seven
    keywords somewhere, inside a longer word as well.  A keyword in any
    letter case, with anything before and after it, is therefore taken as
    a request. *)
Theorem isOutfitGenerationRequest_substring (text : string) :
  (isOutfitGenerationRequest text = true <->
   exists keyword before after : string,
     In keyword generation_keywords /\
     JsString.toLowerCase text = before +:+ keyword +:+ after) /\
  (forall keyword word before after : string,
     In keyword generation_keywords ->
     JsString.toLowerCase word = keyword ->
     isOutfitGenerationRequest (before +:+ word +:+ after) = true).
Proof.
  assert (Hspec : forall t : string,
            isOutfitGenerationRequest t = true <->
            exists keyword before after : string,
              In keyword generation_keywords /\
              JsString.toLowerCase t = before +:+ keyword +:+ after).
  { intros t. unfold isOutfitGenerationRequest. rewrite existsb_exists. split.
    - intros (keyword & Hin & Hinc). apply includes_app in Hinc.
      destruct Hinc as (a & b & H). now exists keyword, a, b.
    - intros (keyword & a & b & Hin & H). exists keyword. split; [exact Hin|].
      apply includes_app. now exists a, b. }
  split; [apply Hspec|].
  intros keyword word before after Hin Hword. apply Hspec.
  exists keyword, (JsString.toLowerCase before), (JsString.toLowerCase after).
  split; [exact Hin|]. now rewrite !toLowerCase_app, Hword.
Qed.

(** X17. extractOccasion never answers the user's text: whatever the text,
    the occasion is one of the eight occasions of the table, and a text in
    which no keyword occurs is a casual one. *)
Theorem extractOccasion_range (text : string) :
  In (extractOccasion text) occasions /\
  ((forall keyword : string,
      In keyword (map fst occasionMap) ->
      JsString.includes (JsString.toLowerCase text) keyword = false) ->
   extractOccasion text = "casual").
Proof.
  unfold extractOccasion, occasionMap, occasions. cbn [extractOccasion_loop]. split.
  - repeat match goal with
    | |- context [if ?c then _ else _] => destruct c; [simpl; tauto|]
    end; simpl; tauto.
  - intros H. cbn [map fst] in H.
    rewrite !H by (simpl; tauto). reflexivity.
Qed.

(** ** Token estimates *)

Lemma Math_ceil_div_bounds (n : Z) :
  (n <= 4 * JsNumber.Math_ceil_div n 4 < n + 4)%Z.
Proof.
  unfold JsNumber.Math_ceil_div.
  pose proof (Z.div_mod (- n) 4 ltac:(lia)) as Hdiv.
  pose proof (Z.mod_pos_bound (- n) 4 ltac:(lia)) as Hmod. lia.
Qed.

Lemma token_estimate_positive (text : string) :
  text <> "" -> (1 <= token_estimate text)%Z.
Proof.
  intros Hne. unfold token_estimate, CHARS_PER_TOKEN.
  pose proof (Math_ceil_div_bounds (Z.of_nat (String.length text))) as H.
  destruct text as [|c text]; [congruence|]. cbn [String.length] in *. lia.
Qed.

(** X18. The token estimate of a text is its length divided by four and
    rounded up: it is 0 exactly for the empty text, four times the estimate
    is at least the length and exceeds it by less than four, and a longer
    text never has a smaller estimate.  The estimate of geminiService.ts is
    the same function. *)
Theorem estimateTokens_bounds (text : string) :
  (Z.of_nat (String.length text) <= 4 * estimateTokens text
     < Z.of_nat (String.length text) + 4)%Z /\
  (estimateTokens text = 0%Z <-> text = "") /\
  (forall longer : string,
     String.length text <= String.length longer ->
     (estimateTokens text <= estimateTokens longer)%Z) /\
  token_estimate text = estimateTokens text.
Proof.
  unfold estimateTokens, token_estimate, CHARS_PER_TOKEN.
  split; [apply Math_ceil_div_bounds|]. split; [|split; [|reflexivity]].
  - pose proof (Math_ceil_div_bounds (Z.of_nat (String.length text))) as H.
    destruct text as [|c text]; [split; reflexivity|].
    split; [|discriminate]. cbn [String.length] in *. lia.
  - intros longer Hlen.
    pose proof (Math_ceil_div_bounds (Z.of_nat (String.length text))) as H1.
    pose proof (Math_ceil_div_bounds (Z.of_nat (String.length longer))) as H2. lia.
Qed.

(** ** Specification generation: what one call does *)

Ltac normalise_reads st :=
  rewrite ?Nat.add_0_r, <- ?Nat.add_assoc;
  rewrite ?(Nat.add_comm (clock_reads st));
  cbn [Nat.add];
  reflexivity.

(** X19. Whatever the outcome, generateOutfitSpecification issues exactly
    one call of the model and forwards exactly one telemetry record.  It
    reads the clock twice, once at the start and once for the record; when
    the model's text parses to null it reads the clock three times, because
    the TypeError of reading the camera of null is raised after the reading
    of the success path and the handler reads the clock again.  Inside the
    sink the clock is read once more when Datadog is configured.  Nothing
    else changes.  The record measures the time from the first reading to
    the last one before it, names the model and the endpoint, and carries
    neither a user id nor a quality score.  Its success flag tells whether
    the call returned: on success the output tokens are at least 1 and the
    camera angle and lighting are those of the returned specification; on
    failure they are 0 and undefined. *)
Theorem generateOutfitSpecification_effect
    (params : OutfitParams.t) (env : Env) (st : State) :
  let caught := if answers_null env (ai_calls st) params then 1 else 0 in
  exists record : GenerationTelemetry.t,
    snd (generateOutfitSpecification params env st) =
      mkState (S (ai_calls st))
        (clock_reads st + 2 + caught + (if datadog_enabled env then 1 else 0))
        (random_draws st) (kafka_sends st) (kafka_producer st)
        (telemetry st ++ [record]) (conversationHistory st) /\
    GenerationTelemetry.generation_ms record =
      (clock env (clock_reads st + 1 + caught) - clock env (clock_reads st))%Z /\
    GenerationTelemetry.model record = "gemini-2.5-flash" /\
    GenerationTelemetry.endpoint record = "outfit_specification" /\
    GenerationTelemetry.user_id record = None /\
    GenerationTelemetry.quality_score record = None /\
    match fst (generateOutfitSpecification params env st) with
    | Fulfilled spec =>
        caught = 0 /\
        GenerationTelemetry.success record = true /\
        (1 <= GenerationTelemetry.output_tokens record)%Z /\
        GenerationTelemetry.camera_angle record = OutfitSpec.camera spec ≫= CameraConfig.angle /\
        GenerationTelemetry.lighting record = OutfitSpec.camera spec ≫= CameraConfig.lighting
    | Rejected e =>
        (caught = 1 -> e = JsError.null_read "camera") /\
        GenerationTelemetry.success record = false /\
        GenerationTelemetry.output_tokens record = 0%Z /\
        GenerationTelemetry.camera_angle record = None /\
        GenerationTelemetry.lighting record = None
    end.
Proof.
  unfold generateOutfitSpecification, has_text, answers_null, JSON_parse_as_OutfitSpec.
  unfold_m. cbn [ai_calls clock_reads random_draws kafka_sends kafka_producer telemetry
                 conversationHistory fst snd].
  fold (outfit_request params).
  destruct (generateContent env (ai_calls st) (outfit_request params)) as [response|e].
  - destruct (GenerateContentResponse.text response) as [text|].
    + destruct (JsString.truthy text) eqn:Etext.
      * cbn [default from_option id andb].
        apply truthy_nonempty in Etext. apply token_estimate_positive in Etext.
        destruct (JSON_null_literal text).
        -- destruct (datadog_enabled env); cbn; eexists;
             (split; [normalise_reads st|]); cbn; rewrite ?Nat.add_0_r, <- ?Nat.add_assoc;
             rewrite ?(Nat.add_comm (clock_reads st)); cbn [Nat.add]; repeat split.
        -- destruct (JSON_parse_OutfitSpec env text) as [spec|e];
             destruct (datadog_enabled env); cbn; eexists;
             (split; [normalise_reads st|]); cbn; rewrite ?Nat.add_0_r, <- ?Nat.add_assoc;
             rewrite ?(Nat.add_comm (clock_reads st)); cbn [Nat.add]; repeat split;
             first [exact Etext|discriminate].
      * destruct (datadog_enabled env); cbn; eexists;
          (split; [normalise_reads st|]); cbn; rewrite ?Nat.add_0_r, <- ?Nat.add_assoc;
          rewrite ?(Nat.add_comm (clock_reads st)); cbn [Nat.add]; repeat split; discriminate.
    + destruct (datadog_enabled env); cbn; eexists;
        (split; [normalise_reads st|]); cbn; rewrite ?Nat.add_0_r, <- ?Nat.add_assoc;
        rewrite ?(Nat.add_comm (clock_reads st)); cbn [Nat.add]; repeat split; discriminate.
  - destruct (datadog_enabled env); cbn; eexists;
      (split; [normalise_reads st|]); cbn; rewrite ?Nat.add_0_r, <- ?Nat.add_assoc;
      rewrite ?(Nat.add_comm (clock_reads st)); cbn [Nat.add]; repeat split; discriminate.
Qed.

Lemma generateOutfitSpecification_effect_witness :
  fst (generateOutfitSpecification gala_params null_env initial_state) =
    Rejected (JsError.null_read "camera") /\
  exists record : GenerationTelemetry.t,
    snd (generateOutfitSpecification gala_params null_env initial_state) =
      mkState 1 3 0 0 false [record] ∅ /\
    GenerationTelemetry.generation_ms record = 80%Z /\
    GenerationTelemetry.success record = false.
Proof.
  split; [vm_compute; reflexivity|].
  pose proof (generateOutfitSpecification_effect gala_params null_env initial_state) as H.
  cbv zeta in H. destruct H as (record & Hst & Hms & _ & _ & _ & _ & Hout).
  exists record. split; [|split].
  - rewrite Hst. reflexivity.
  - rewrite Hms. reflexivity.
  - vm_compute in Hout. exact (proj1 (proj2 Hout)).
Defined.

(** ** The hidden layer *)

(** X20. analyzeCognitivePatterns never rejects.  It issues exactly one
    call of the model and touches nothing else.  It returns what JSON.parse
    makes of the model's text when there is a non-empty text that parses;
    in every other case (the call rejects, the text is missing or empty, the
    text does not parse) it returns the same fixed analysis of three
    metrics with no alert, which the caller cannot tell from a real one. *)
Theorem analyzeCognitivePatterns_always_answers
    (json : Json) (history : list OutfitSpec.t) (env : Env) (st : State) :
  let answer := generateContent env (ai_calls st) (analysis_request json history) in
  analyzeCognitivePatterns json history env st =
    (Fulfilled (analysis_of json answer), advance 1 st) /\
  (forall (response : GenerateContentResponse.t) (text : string)
          (analysis : CognitiveAnalysis.t),
     answer = Fulfilled response ->
     GenerateContentResponse.text response = Some text ->
     text <> "" ->
     JSON_parse_CognitiveAnalysis json text = Fulfilled analysis ->
     analysis_of json answer = analysis) /\
  ((forall (response : GenerateContentResponse.t) (text : string)
           (analysis : CognitiveAnalysis.t),
      answer = Fulfilled response ->
      GenerateContentResponse.text response = Some text ->
      text <> "" ->
      JSON_parse_CognitiveAnalysis json text <> Fulfilled analysis) ->
   analysis_of json answer = mock_analysis) /\
  length <$> CognitiveAnalysis.metrics mock_analysis = Some 3 /\
  CognitiveAnalysis.alerts mock_analysis = Some [].
Proof.
  intros answer. split; [|split; [|split; [|split; reflexivity]]].
  - unfold analyzeCognitivePatterns, analysis_of, has_text. rewrite advance_1. unfold_m.
    fold (analysis_request json history). fold answer.
    destruct answer as [response|e]; [|reflexivity].
    destruct (GenerateContentResponse.text response) as [text|]; [|reflexivity].
    destruct (JsString.truthy text); [|reflexivity].
    cbn [default from_option id].
    destruct (JSON_parse_CognitiveAnalysis json text); reflexivity.
  - intros response text analysis -> Htext Hne Hparse. unfold analysis_of.
    rewrite Htext. apply truthy_nonempty in Hne. now rewrite Hne, Hparse.
  - intros Hnone. unfold analysis_of.
    destruct answer as [response|e]; [|reflexivity].
    destruct (GenerateContentResponse.text response) as [text|] eqn:Etext; [|reflexivity].
    destruct (JsString.truthy text) eqn:Etruthy; [|reflexivity].
    destruct (JSON_parse_CognitiveAnalysis json text) as [analysis|e] eqn:Eparse;
      [|reflexivity].
    exfalso. apply truthy_nonempty in Etruthy.
    exact (Hnone response text analysis eq_refl Etext Etruthy Eparse).
Qed.

(** ** The multi-modal assistant *)

Lemma filter_sublist {A} (f : A -> bool) (l : list A) : sublist (List.filter f l) l.
Proof.
  induction l as [|x l IH]; simpl; [constructor|].
  destruct (f x); [now apply sublist_skip|now apply sublist_cons].
Qed.

Lemma commonStyles_NoDup : NoDup commonStyles.
Proof. apply (bool_decide_unpack (NoDup commonStyles)). vm_compute. exact I. Qed.

(** X21. The style tags of a description are the entries of the fixed list
    of ten styles that occur in the lower-cased description, as substrings
    and in the order of that list: the result is a sublist of the list,
    holds no tag twice and at most ten tags, and does not depend on the
    letter case of the description. *)
Theorem extractStyleTags_sublist (description : string) :
  sublist (extractStyleTags description) commonStyles /\
  NoDup (extractStyleTags description) /\
  length (extractStyleTags description) <= 10 /\
  (forall tag : string,
     In tag (extractStyleTags description) <->
     In tag commonStyles /\
     exists before after : string,
       JsString.toLowerCase description = before +:+ tag +:+ after) /\
  (forall other : string,
     JsString.toLowerCase other = JsString.toLowerCase description ->
     extractStyleTags other = extractStyleTags description).
Proof.
  assert (Hsub : sublist (extractStyleTags description) commonStyles)
    by apply filter_sublist.
  split; [exact Hsub|]. split; [|split; [|split]].
  - eapply sublist_NoDup; [exact commonStyles_NoDup|exact Hsub].
  - apply sublist_length in Hsub. exact Hsub.
  - intros tag. unfold extractStyleTags. rewrite filter_In, includes_app. tauto.
  - intros other Hother. unfold extractStyleTags. now rewrite Hother.
Qed.

Lemma textToSpeech_run (text voice_id : string) (voice_settings : VoiceSettings.t)
    (env : Env) (st : State) :
  textToSpeech text voice_id voice_settings env st =
  (Fulfilled (VoiceResponse.mk (speech_audio env) text voice_id), st).
Proof.
  unfold textToSpeech, speech_audio. unfold_m. destruct (voice_enabled env); reflexivity.
Qed.

Lemma speechToText_run (audio : Buffer) (env : Env) (st : State) :
  exists confidence : float,
    speechToText audio env st =
    (Fulfilled (TranscriptionResult.mk (transcript env) "en" confidence (Some true)), st).
Proof.
  unfold speechToText, transcript, heard. unfold_m.
  destruct (voice_enabled env); eexists; reflexivity.
Qed.

(** X22. describeOutfit never rejects and issues exactly one call of the
    model, in which the image data does not appear: the request is fixed by
    the optional question alone.  When the call returns, the description is
    the model's text, or a fixed sentence when that is missing or empty, and
    the tags are its style tags; when the call rejects, the description is
    another fixed sentence, with no tag and no audio.  The description is
    never empty. *)
Theorem describeOutfit_always_answers
    (imageData : string) (voiceQuery : option string) (env : Env) (st : State) :
  let answer := generateContent env (ai_calls st) (vision_request voiceQuery) in
  let description := description_of answer in
  describeOutfit imageData voiceQuery env st =
    (Fulfilled
       (OutfitDescription.mk description
          match answer with
          | Fulfilled _ => speech_audio env
          | Rejected _ => ""
          end
          match answer with
          | Fulfilled _ => extractStyleTags description
          | Rejected _ => []
          end),
     advance 1 st) /\
  description <> "".
Proof.
  intros answer description. split.
  - unfold describeOutfit. rewrite advance_1. unfold try_catch.
    unfold bind at 1. unfold ai_generateContent at 1. fold (vision_request voiceQuery).
    fold answer. subst description. destruct answer as [response|e]; [|reflexivity].
    unfold bind. rewrite textToSpeech_run. reflexivity.
  - subst description. destruct answer as [response|e]; simpl; [|discriminate].
    apply string_or_else_nonempty. discriminate.
Qed.

(** ** The voice-controlled generator *)

Lemma convertToFIBOSchema_nonempty (params : VoiceParams.t) :
  FIBOSchema.occasion (convertToFIBOSchema params) <> "" /\
  FIBOSchema.weather (convertToFIBOSchema params) <> "" /\
  FIBOSchema.mood (convertToFIBOSchema params) <> "" /\
  FIBOSchema.style (convertToFIBOSchema params) <> "" /\
  FIBOSchema.camera_angle (convertToFIBOSchema params) <> "".
Proof. cbn. repeat split; apply string_or_else_nonempty; discriminate. Qed.

(** X23. processVoiceCommand never rejects and always returns the
    transcription.  It issues exactly one call of the model and changes
    nothing else.  The result is the error object when the call rejects,
    when JSON.parse rejects the model's text (the text "{}" when the model
    gave none), and when the parsed value is one on which
    convertToFIBOSchema or createConfirmationText raises, as they do on
    null: no schema is sent and nothing is validated.  Otherwise it holds
    the parsed parameters, the schema built from them and a confirmation
    spoken with voice "rachel". *)
Theorem processVoiceCommand_always_answers
    (json : Json) (commandAudio : Buffer) (env : Env) (st : State) :
  let answer := generateContent env (ai_calls st) (params_request env) in
  processVoiceCommand json commandAudio env st =
    (Fulfilled
       match params_of json answer with
       | Fulfilled params =>
           VoiceCommandResult.processed params (convertToFIBOSchema params)
             (VoiceResponse.mk (speech_audio env) (createConfirmationText params) "rachel")
             (transcript env)
       | Rejected _ =>
           VoiceCommandResult.failed "Unable to process voice command" (transcript env)
       end,
     advance 1 st).
Proof.
  intros answer. unfold processVoiceCommand.
  destruct (speechToText_run commandAudio env st) as (confidence & Hheard).
  rewrite (bind_fulfilled _ _ _ _ _ _ Hheard). cbn [TranscriptionResult.text].
  rewrite advance_1. unfold try_catch.
  unfold bind at 1. unfold ai_generateContent at 1. fold (params_request env). fold answer.
  unfold params_of. destruct answer as [response|e]; [|reflexivity].
  cbv zeta.
  destruct (JSON_null_literal _); [reflexivity|].
  unfold bind at 1. unfold bind at 1.
  destruct (JSON_parse_VoiceParams json _) as [[params|error]|e]; [|reflexivity|reflexivity].
  cbn [settle]. unfold ret at 1. cbn iota beta. unfold ret at 1. cbn iota beta.
  unfold bind at 1. cbn [read_parsed]. unfold ret at 1. cbn iota beta.
  unfold bind at 1. unfold ret at 1. cbn iota beta.
  unfold bind. rewrite textToSpeech_run. reflexivity.
Qed.

(** On the text [null] the result is the error object. *)
Lemma processVoiceCommand_always_answers_witness :
  processVoiceCommand no_json [] null_env initial_state =
    (Fulfilled (VoiceCommandResult.failed "Unable to process voice command"
                  (transcript null_env)),
     advance 1 initial_state).
Proof.
  exact (processVoiceCommand_always_answers no_json [] null_env initial_state).
Defined.

(** X24. Whatever the extracted parameters, the schema that
    convertToFIBOSchema builds has no empty occasion, weather, mood, style
    or camera angle: a missing or empty value is replaced by "casual",
    "moderate", "confident", "modern" and "three_quarter".  The style is the
    adjectives joined by spaces; an empty list of adjectives counts as
    missing.  The confirmation text always starts with "I'll create " and
    is never empty. *)
Theorem convertToFIBOSchema_defaults (params : VoiceParams.t) :
  let schema := convertToFIBOSchema params in
  (FIBOSchema.occasion schema <> "" /\
   FIBOSchema.weather schema <> "" /\
   FIBOSchema.mood schema <> "" /\
   FIBOSchema.style schema <> "" /\
   FIBOSchema.camera_angle schema <> "") /\
  (VoiceParams.style_adjectives params = Some [] -> FIBOSchema.style schema = "modern") /\
  (forall adjectives : list string,
     VoiceParams.style_adjectives params = Some adjectives ->
     JsString.join " " adjectives <> "" ->
     FIBOSchema.style schema = JsString.join " " adjectives) /\
  String.prefix "I'll create " (createConfirmationText params) = true.
Proof.
  intros schema. split; [apply convertToFIBOSchema_nonempty|]. split; [|split].
  - intros H. subst schema. unfold convertToFIBOSchema. now rewrite H.
  - intros adjectives H Hne. subst schema. unfold convertToFIBOSchema. rewrite H.
    cbn. apply truthy_nonempty in Hne. now rewrite Hne.
  - unfold createConfirmationText.
    destruct (nonempty_array (VoiceParams.style_adjectives params)),
      (nonempty_array (VoiceParams.colors params)),
      (nonempty_array (VoiceParams.materials params)); reflexivity.
Qed.

(** ** The style advisor *)

(** X25. styleConsultation has no handler of its own: it rejects exactly
    when the call of the model rejects, with the model's error.  Otherwise
    it answers with voice "aria" the model's text, or "Let's explore your
    style together!" when that is missing or empty.  It calls the model
    even without an ElevenLabs key, records nothing in the conversation
    history, and sends the same request for every user: the style profile
    does not depend on the user id. *)
Theorem styleConsultation_outcome
    (userAudio : Buffer) (userId : string) (env : Env) (st : State) :
  let answer := generateContent env (ai_calls st) (consultation_request env userId) in
  styleConsultation userAudio userId env st =
    (match answer with
     | Fulfilled response =>
         Fulfilled
           (VoiceResponse.mk (speech_audio env)
              (string_or_else (GenerateContentResponse.text response)
                 "Let's explore your style together!")
              "aria")
     | Rejected e => Rejected e
     end,
     advance 1 st) /\
  (forall other : string, consultation_request env other = consultation_request env userId).
Proof.
  intros answer. split; [|reflexivity].
  unfold styleConsultation.
  destruct (speechToText_run userAudio env st) as (confidence & Hheard).
  rewrite (bind_fulfilled _ _ _ _ _ _ Hheard). cbn [TranscriptionResult.text].
  rewrite advance_1.
  unfold bind at 1. unfold ai_generateContent at 1. fold (consultation_request env userId).
  fold answer. destruct answer as [response|e]; [|reflexivity].
  rewrite textToSpeech_run. reflexivity.
Qed.

(** ** The metrics buffer *)

Lemma metrics_of_length (timestamp : Z) (data : GenerationTelemetry.t) :
  length (DatadogObservability.metrics_of timestamp data) =
  match GenerationTelemetry.quality_score data with
  | Some _ => 5
  | None => 4
  end.
Proof.
  unfold DatadogObservability.metrics_of.
  destruct (GenerationTelemetry.quality_score data); reflexivity.
Qed.

Lemma streamLLMTelemetry_bounded (enabled : bool) (now : Z) (data : GenerationTelemetry.t)
    (metricsBuffer : list DatadogMetric.t) :
  length metricsBuffer <= 20 ->
  length (DatadogObservability.streamLLMTelemetry enabled now data metricsBuffer) <= 20.
Proof.
  intros H. unfold DatadogObservability.streamLLMTelemetry, DatadogObservability.flushMetrics.
  destruct enabled; [|exact H]. cbn [negb].
  destruct (20 <? length _)%nat eqn:E.
  - destruct (length _ =? 0)%nat eqn:E0; [|simpl; lia].
    apply Nat.eqb_eq in E0. lia.
  - now apply Nat.ltb_ge in E.
Qed.

(** X26. The metrics buffer of the Datadog sink never holds more than 20
    metrics after a call: starting from a buffer of at most 20 (the empty
    one of a new sink), it holds at most 20 after every sequence of records.
    A call that would make it longer empties it instead, the metrics of
    that call included; a disabled sink never changes it. *)
Theorem metricsBuffer_bounded
    (enabled : bool) (calls : list (Z * GenerationTelemetry.t))
    (metricsBuffer : list DatadogMetric.t) :
  length metricsBuffer <= 20 ->
  length (buffer_after enabled calls metricsBuffer) <= 20 /\
  (enabled = false -> buffer_after enabled calls metricsBuffer = metricsBuffer) /\
  (forall (now : Z) (data : GenerationTelemetry.t),
     DatadogObservability.streamLLMTelemetry true now data metricsBuffer =
     if (20 <? length metricsBuffer
               + length (DatadogObservability.metrics_of (now / 1000) data))%nat
     then []
     else (metricsBuffer ++ DatadogObservability.metrics_of (now / 1000) data)%list).
Proof.
  intros H. split; [|split].
  - revert metricsBuffer H. unfold buffer_after.
    induction calls as [|call calls IH]; intros metricsBuffer H; simpl; [exact H|].
    apply IH. now apply streamLLMTelemetry_bounded.
  - intros ->. clear H. revert metricsBuffer. unfold buffer_after.
    induction calls as [|call calls IH]; intros metricsBuffer; simpl; [reflexivity|].
    apply IH.
  - intros now data.
    unfold DatadogObservability.streamLLMTelemetry, DatadogObservability.flushMetrics.
    cbn [negb]. rewrite <- length_app.
    set (buffer := (metricsBuffer ++ _)%list).
    destruct (20 <? length buffer)%nat eqn:E; [|reflexivity].
    apply Nat.ltb_lt in E.
    destruct (length buffer =? 0)%nat eqn:E0; [|reflexivity].
    apply Nat.eqb_eq in E0. lia.
Qed.

Lemma metricsBuffer_bounded_witness :
  length (buffer_after true (replicate 9 (1700000000000%Z, idle_record)) []) <= 20 /\
  (true = false ->
   buffer_after true (replicate 9 (1700000000000%Z, idle_record)) [] = []) /\
  (forall (now : Z) (data : GenerationTelemetry.t),
     DatadogObservability.streamLLMTelemetry true now data [] =
     if (20 <? length (@nil DatadogMetric.t)
               + length (DatadogObservability.metrics_of (now / 1000) data))%nat
     then []
     else ([] ++ DatadogObservability.metrics_of (now / 1000) data)%list).
Proof.
  apply (metricsBuffer_bounded true (replicate 9 (1700000000000%Z, idle_record)) []).
  simpl. lia.
Defined.

(** X27. A telemetry record becomes four metrics (input tokens, output
    tokens, duration, success rate), and a fifth (quality) exactly when its
    quality score is defined: a score of 0 is reported like any other.  All
    points carry the same timestamp, the clock in whole seconds.  The
    success point is 1 or 0, and the tier tag of the quality metric is
    "premium" exactly when the record has a non-empty user id. *)
Theorem metrics_of_record (now : Z) (data : GenerationTelemetry.t) :
  let metrics := DatadogObservability.metrics_of (now / 1000) data in
  map DatadogMetric.metric metrics =
    (["vertexai.tokens.input"; "vertexai.tokens.output"; "fibo.generation.duration";
      "fibo.api.success_rate"] ++
     match GenerationTelemetry.quality_score data with
     | Some _ => ["outfit.generation.quality"]
     | None => []
     end)%list /\
  (forall (m : DatadogMetric.t) (point : Z * PointValue),
     In m metrics -> In point (DatadogMetric.points m) ->
     (1000 * fst point <= now < 1000 * fst point + 1000)%Z) /\
  (forall m : DatadogMetric.t,
     In m metrics -> DatadogMetric.metric m = "fibo.api.success_rate" ->
     DatadogMetric.points m =
       [((now / 1000)%Z, integer (if GenerationTelemetry.success data then 1 else 0))]) /\
  (forall (m : DatadogMetric.t) (q : float),
     GenerationTelemetry.quality_score data = Some q ->
     In m metrics -> DatadogMetric.metric m = "outfit.generation.quality" ->
     DatadogMetric.points m = [((now / 1000)%Z, score q)] /\
     DatadogMetric.tags m =
       Some ["user_tier:" +:+
               (if has_text (GenerationTelemetry.user_id data) then "premium" else "standard");
             "application:aurelians_closet"]).
Proof.
  intros metrics. subst metrics. unfold DatadogObservability.metrics_of.
  assert (Hfloor : (1000 * (now / 1000) <= now < 1000 * (now / 1000) + 1000)%Z).
  { pose proof (Z.div_mod now 1000 ltac:(lia)).
    pose proof (Z.mod_pos_bound now 1000 ltac:(lia)). lia. }
  destruct (GenerationTelemetry.quality_score data) as [q|] eqn:Eq;
    cbn [app map DatadogMetric.metric]; (split; [reflexivity|]); (split; [|split]).
  - intros m point Hm Hp. simpl in Hm.
    repeat (destruct Hm as [<-|Hm]; [simpl in Hp; destruct Hp as [<-|[]]; exact Hfloor|]).
    destruct Hm.
  - intros m Hm Hname. simpl in Hm.
    repeat (destruct Hm as [<-|Hm]; [first [discriminate Hname|reflexivity]|]).
    destruct Hm.
  - intros m q' [= <-] Hm Hname. simpl in Hm.
    repeat (destruct Hm as [<-|Hm]; [first [discriminate Hname|idtac]|]);
      [|destruct Hm].
    split; [reflexivity|]. cbn [DatadogMetric.tags]. unfold DatadogObservability.user_tier, has_text.
    destruct (GenerationTelemetry.user_id data); reflexivity.
  - intros m point Hm Hp. simpl in Hm.
    repeat (destruct Hm as [<-|Hm]; [simpl in Hp; destruct Hp as [<-|[]]; exact Hfloor|]).
    destruct Hm.
  - intros m Hm Hname. simpl in Hm.
    repeat (destruct Hm as [<-|Hm]; [first [discriminate Hname|reflexivity]|]).
    destruct Hm.
  - intros m q' Hq. discriminate.
Qed.

(** ** The component *)

Lemma generateOutfitSpecification_step (params : OutfitParams.t) (env : Env) (st : State) :
  exists st' : State,
    generateOutfitSpecification params env st =
      (specification_outcome env (ai_calls st) params, st') /\
    ai_calls st' = S (ai_calls st).
Proof.
  unfold generateOutfitSpecification, specification_outcome, has_text,
    JSON_parse_as_OutfitSpec.
  unfold_m. cbn [ai_calls clock_reads telemetry fst snd].
  fold (outfit_request params).
  destruct (generateContent env (ai_calls st) (outfit_request params)) as [response|e].
  - destruct (GenerateContentResponse.text response) as [text|].
    + destruct (JsString.truthy text).
      * cbn [default from_option id].
        destruct (JSON_null_literal text).
        -- destruct (datadog_enabled env); cbn; eexists; split; reflexivity.
        -- destruct (JSON_parse_OutfitSpec env text) as [spec|e];
             destruct (datadog_enabled env); cbn; eexists; split; reflexivity.
      * destruct (datadog_enabled env); cbn; eexists; split; reflexivity.
    + destruct (datadog_enabled env); cbn; eexists; split; reflexivity.
  - destruct (datadog_enabled env); cbn; eexists; split; reflexivity.
Qed.

(** X28. handleGenerate never rejects and always ends with isGenerating
    false.  When the specification step fails, nothing is shown: no
    specification, no image, the history unchanged and one alert.  When it
    returns a specification from which the image prompt cannot be built (the
    builder raises a TypeError, as it does when the camera, the texture
    layers or a colour is missing), the specification is shown without an
    image, the history is unchanged and the same alert is raised.  Otherwise
    the specification and the image, or its placeholder, are shown, no alert
    is raised, and one result holding them and the parameters is put in
    front of the history. *)
Theorem handleGenerate_outcome (env : Env) (st : State) (app : App.t) :
  exists (st' : State) (app' : App.t),
    handleGenerate env st app = (Fulfilled tt, st', app') /\
    App.isGenerating app' = false /\
    App.params app' = App.params app /\
    match specification_outcome env (ai_calls st) (App.params app) with
    | Rejected _ =>
        App.currentSpec app' = None /\
        App.generatedImage app' = None /\
        App.history app' = App.history app /\
        App.alerts app' = (App.alerts app ++ [overload_message])%list
    | Fulfilled spec =>
        App.currentSpec app' = Some spec /\
        match fst (image_prompt spec env st) with
        | Fulfilled imagePrompt =>
            let imageUrl :=
              image_of (generateContent env (S (ai_calls st)) (image_request imagePrompt)) in
            exists result : GeneratedResult.t,
              App.generatedImage app' = Some imageUrl /\
              App.history app' = result :: App.history app /\
              GeneratedResult.spec result = spec /\
              GeneratedResult.imageUrl result = imageUrl /\
              GeneratedResult.params result = App.params app /\
              App.alerts app' = App.alerts app
        | Rejected _ =>
            App.generatedImage app' = None /\
            App.history app' = App.history app /\
            App.alerts app' = (App.alerts app ++ [overload_message])%list
        end
    end.
Proof.
  unfold handleGenerate.
  cbv beta iota zeta delta [bindU getU modifyU try_finallyU try_catchU liftU].
  destruct (generateOutfitSpecification_step (App.params app) env st) as (st1 & -> & Hcalls).
  destruct (specification_outcome env (ai_calls st) (App.params app)) as [spec|e].
  - rewrite (image_prompt_pure spec env env st st1). cbn [fst].
    destruct (image_prompt spec env st1) as [[imagePrompt|e] st2] eqn:Hprompt;
      rewrite (image_prompt_pure spec env env st1 st1) in Hprompt;
      injection Hprompt as Hprompt <-.
    + assert (Hbuilt : image_prompt spec env st1 = (Fulfilled imagePrompt, st1))
        by now rewrite (image_prompt_pure spec env env st1 st1), Hprompt.
      rewrite (generateOutfitImage_run spec env st1 imagePrompt Hbuilt), Hcalls.
      cbn. eexists. eexists. split; [reflexivity|]. cbn. repeat split.
      eexists. repeat split.
    + assert (Hfails : image_prompt spec env st1 = (Rejected e, st1))
        by now rewrite (image_prompt_pure spec env env st1 st1), Hprompt.
      rewrite (generateOutfitImage_prompt_fails spec env st1 e Hfails).
      cbn. eexists. eexists. split; [reflexivity|]. cbn. repeat split.
  - cbn. eexists. eexists. split; [reflexivity|]. cbn. repeat split.
Qed.

(** In the world whose model answers a description and nothing else, the
    specification is shown, no image is, and the alert is raised. *)
Lemma handleGenerate_outcome_witness :
  exists (st' : State) (app' : App.t),
    handleGenerate description_only_env initial_state fresh_app = (Fulfilled tt, st', app') /\
    App.isGenerating app' = false /\
    App.currentSpec app' = Some description_only_spec /\
    App.generatedImage app' = None /\
    App.history app' = App.history fresh_app /\
    App.alerts app' = (App.alerts fresh_app ++ [overload_message])%list.
Proof.
  destruct (handleGenerate_outcome description_only_env initial_state fresh_app)
    as (st' & app' & Hrun & Hgenerating & _ & Hshown).
  exists st', app'. split; [exact Hrun|]. split; [exact Hgenerating|].
  vm_compute in Hshown. exact Hshown.
Defined.

(** ** Starting and stopping the platform *)

(** X29. initialize does nothing on a platform that is initialised.
    Otherwise, without KAFKA_BROKERS it succeeds without creating a producer
    or a consumer; with KAFKA_BROKERS it succeeds exactly when the broker
    accepts the producer's connect, the consumer's connect and the
    subscription, and rejects with the first error otherwise.  A failed
    start leaves the platform uninitialised, so that it can be tried again,
    but the producer it created stays in place although it never connected:
    later requests will hand their events to it. *)
Theorem initialize_outcome
    (broker : Broker) (env : Env) (st : State) (services : Services.t) :
  (Services.initialized services = true ->
   initialize broker env st services = (Fulfilled tt, st, services)) /\
  (Services.initialized services = false ->
   kafka_enabled env = false ->
   initialize broker env st services =
     (Fulfilled tt, st, Services.mk (Services.kafka_consumer services) true)) /\
  (Services.initialized services = false ->
   kafka_enabled env = true ->
   exists services' : Services.t,
     initialize broker env st services =
       (match start_failure broker with
        | Some e => Rejected e
        | None => Fulfilled tt
        end, set_producer st, services') /\
     Services.initialized services' =
       match start_failure broker with
       | Some _ => false
       | None => true
       end /\
     (start_failure broker = None -> Services.kafka_consumer services' = true)).
Proof.
  unfold initialize, initProducer, initConsumer, start_failure, monitored_topics.
  cbv beta iota zeta delta [bindU getU modifyU try_catchU liftU retU throwU ask get put bind].
  split; [|split].
  - intros ->. reflexivity.
  - intros H1 H2. rewrite H1. cbv beta iota. rewrite H2. reflexivity.
  - intros H1 H2. rewrite H1. cbv beta iota. rewrite H2. cbn [negb]. cbv beta iota.
    destruct (producer_connect broker) as [[]|e]; cbn.
    + destruct (consumer_connect broker) as [[]|e]; cbn.
      * destruct (consumer_subscribe broker _) as [[]|e]; cbn;
          eexists; (split; [reflexivity|]); cbn; auto; try (split; [exact H1|discriminate]).
      * eexists. split; [reflexivity|]. cbn. split; [exact H1|discriminate].
    + eexists. split; [reflexivity|]. cbn. split; [exact H1|discriminate].
Qed.

Lemma initialize_outcome_witness :
  initialize unreachable_broker broker_down_env producing_state (Services.mk true true) =
    (Fulfilled tt, producing_state, Services.mk true true) /\
  initialize unreachable_broker offline_env initial_state new_services =
    (Fulfilled tt, initial_state, Services.mk (Services.kafka_consumer new_services) true) /\
  (exists services' : Services.t,
     initialize unreachable_broker broker_down_env initial_state new_services =
       (match start_failure unreachable_broker with
        | Some e => Rejected e
        | None => Fulfilled tt
        end, set_producer initial_state, services') /\
     Services.initialized services' =
       match start_failure unreachable_broker with
       | Some _ => false
       | None => true
       end /\
     (start_failure unreachable_broker = None -> Services.kafka_consumer services' = true)).
Proof.
  split; [|split].
  - apply (proj1 (initialize_outcome unreachable_broker broker_down_env producing_state
                    (Services.mk true true))).
    reflexivity.
  - apply (proj1 (proj2 (initialize_outcome unreachable_broker offline_env initial_state
                           new_services))); reflexivity.
  - apply (proj2 (proj2 (initialize_outcome unreachable_broker broker_down_env initial_state
                           new_services))); reflexivity.
Defined.

Lemma shutdown_keeps (broker : Broker) (env : Env) (st : State) (services : Services.t) :
  exists r : Settled unit, shutdown broker env st services = (r, st, services).
Proof.
  unfold shutdown, disconnect.
  cbv beta iota zeta delta [bindU getU modifyU liftU retU get].
  destruct (kafka_producer st).
  - destruct (producer_disconnect broker) as [[]|e]; cbn; [|eexists; reflexivity].
    destruct (Services.kafka_consumer services); [|eexists; reflexivity].
    destruct (consumer_disconnect broker) as [[]|e]; cbn; eexists; reflexivity.
  - cbn. destruct (Services.kafka_consumer services); [|eexists; reflexivity].
    destruct (consumer_disconnect broker) as [[]|e]; cbn; eexists; reflexivity.
Qed.

(** X30. shutdown disconnects and forgets nothing: whatever the broker
    answers, the producer and the consumer stay in place and the platform
    stays initialised.  A platform that has been shut down can therefore
    not be started again: initialize returns at once, without a call to
    the broker, and requests go on handing their events to the disconnected
    producer. *)
Theorem shutdown_is_final
    (stop start : Broker) (env : Env) (st : State) (services : Services.t) :
  Services.initialized services = true ->
  exists r : Settled unit,
    shutdown stop env st services = (r, st, services) /\
    initialize start env st services = (Fulfilled tt, st, services).
Proof.
  intros Hinit. destruct (shutdown_keeps stop env st services) as (r & Hstop).
  exists r. split; [exact Hstop|].
  unfold initialize. cbv beta iota zeta delta [bindU getU retU]. now rewrite Hinit.
Qed.

Lemma shutdown_is_final_witness :
  exists r : Settled unit,
    shutdown unreachable_broker broker_down_env producing_state (Services.mk true true) =
      (r, producing_state, Services.mk true true) /\
    initialize healthy_broker broker_down_env producing_state (Services.mk true true) =
      (Fulfilled tt, producing_state, Services.mk true true).
Proof.
  apply (shutdown_is_final unreachable_broker healthy_broker broker_down_env producing_state
           (Services.mk true true)).
  reflexivity.
Defined.
